(** * Climate-control simulation: the tick loop, the mode arbiter and the
      snapshot codec of [sys_status.py], embedded and verified.

    The embedding follows [SystemStatusScreen]:
    - a room state is the dictionary built by [_get_default_room_state],
      here a record with one field per key;
    - temperatures and humidities are Python floats, here IEEE 754 binary64
      values ([PrimFloat]), with Python's [min]/[max] written out;
    - timers and elapsed seconds are Python integers, here [Z];
    - a Python string is held as its UTF-8 bytes; [len] counts its
      characters, not its bytes;
    - code that can raise ([event['start_time_iso']], [event_details['action']],
      [datetime.fromisoformat]) runs in a state-and-exception monad whose state
      survives a raise, as the mutated dictionaries do in Python;
    - the loop variable [room_state] and [self.room_states[room_name]] are one
      dictionary: the code of a room works on one [room], which the loop over
      the rooms puts back in its place;
    - Tk widgets, logging and the wall clock are outside the model: the time of
      a tick and the random noise drawn for the viewed room are inputs, and
      the activity log is the sequence of messages handed to
      [add_activity_log]. *)

From Stdlib Require Import ZArith String Ascii DecimalString Bool Lia Floats List Sorted.
Import ListNotations.
Open Scope Z_scope.
Set Warnings "-inexact-float".

(** ** Strings and f-strings *)

Definition str_of_Z (z : Z) : string := NilZero.string_of_int (Z.to_int z).

Infix "+++" := String.append (right associativity, at level 60).

(** A byte [10xxxxxx] continues a character of a UTF-8 text; every other
    byte starts one. *)
Definition is_continuation_byte (c : ascii) : bool :=
  match c with
  | Ascii _ _ _ _ _ _ b6 b7 => b7 && negb b6
  end.

(** [len(s)]: the number of characters of [s]. *)
Fixpoint len (s : string) : nat :=
  match s with
  | EmptyString => O
  | String c rest => if is_continuation_byte c then len rest else S (len rest)
  end.

(** ** Datetimes

    A naive datetime is its seven fields; two of them are compared field by
    field, as Python does. *)

Record datetime := {
  year : Z; month : Z; day : Z;
  hour : Z; minute : Z; second : Z; microsecond : Z
}.

(** What [datetime.fromisoformat] returns: a naive datetime, or an aware one
    when the string carries a UTC offset, kept here in seconds. *)
Inductive parsed_datetime :=
| naive (local : datetime)
| aware (local : datetime) (utcoffset : Z).

Definition datetime_key (d : datetime) : list Z :=
  [year d; month d; day d; hour d; minute d; second d; microsecond d].

Fixpoint lex_compare (a b : list Z) : comparison :=
  match a, b with
  | [], [] => Eq
  | [], _ :: _ => Lt
  | _ :: _, [] => Gt
  | x :: a', y :: b' =>
      match Z.compare x y with
      | Eq => lex_compare a' b'
      | c => c
      end
  end.

(** [a >= b] on datetimes. *)
Definition datetime_ge (a b : datetime) : bool :=
  match lex_compare (datetime_key a) (datetime_key b) with
  | Lt => false
  | _ => true
  end.

(** ** A parser for the strings [datetime.isoformat()] writes

    [schedule_event_prompt] stores [start_time.isoformat()], that is
    [YYYY-MM-DDTHH:MM:SS.ffffff], or [YYYY-MM-DDTHH:MM:SS] when the
    microsecond is 0.  For an aware datetime [isoformat()] appends the
    offset, [+HH:MM] or [-HH:MM].  [isoformat_parse] reads these shapes and
    rejects everything else, so it is a restriction of
    [datetime.fromisoformat], which reads further shapes (another separator
    than [T], a shorter time, an offset with seconds).  It is the instance
    used for concrete runs, on strings of these shapes only; the tick loop
    itself is stated over an arbitrary [fromisoformat]. *)

Definition digit_of_ascii (c : ascii) : option Z :=
  let n := Z.of_nat (nat_of_ascii c) in
  if (48 <=? n) && (n <=? 57) then Some (n - 48) else None.

Fixpoint digits_value (acc : Z) (cs : list ascii) : option Z :=
  match cs with
  | [] => Some acc
  | c :: cs' =>
      match digit_of_ascii c with
      | Some d => digits_value (10 * acc + d) cs'
      | None => None
      end
  end.

Definition number (cs : list ascii) : option Z :=
  match cs with
  | [] => None
  | _ => digits_value 0 cs
  end.

Definition is_leap (y : Z) : bool :=
  ((y mod 4 =? 0) && negb (y mod 100 =? 0)) || (y mod 400 =? 0).

Definition days_in_month (y m : Z) : Z :=
  if m =? 2 then (if is_leap y then 29 else 28)
  else if (m =? 4) || (m =? 6) || (m =? 9) || (m =? 11) then 30
  else 31.

Definition valid_datetime (d : datetime) : bool :=
  (1 <=? year d) && (year d <=? 9999) &&
  (1 <=? month d) && (month d <=? 12) &&
  (1 <=? day d) && (day d <=? days_in_month (year d) (month d)) &&
  (hour d <? 24) && (minute d <? 60) && (second d <? 60).

(** The date and time fields, checked. *)
Definition build_datetime (y mo d h mi se us : list ascii) : option datetime :=
  match number y, number mo, number d, number h, number mi, number se, number us with
  | Some y, Some mo, Some d, Some h, Some mi, Some se, Some us =>
      let dt := {| year := y; month := mo; day := d;
                   hour := h; minute := mi; second := se; microsecond := us |} in
      if valid_datetime dt then Some dt else None
  | _, _, _, _, _, _, _ => None
  end.

(** The offset [HH:MM] in seconds; it stays below 24 hours. *)
Definition build_offset (h m : list ascii) : option Z :=
  match number h, number m with
  | Some h, Some m => if (h <? 24) && (m <? 60) then Some (h * 3600 + m * 60) else None
  | _, _ => None
  end.

(** What follows the time: nothing, or an offset. *)
Definition with_offset (dt : option datetime) (tz : list ascii) : option parsed_datetime :=
  match dt, tz with
  | Some dt, [] => Some (naive dt)
  | Some dt, [sign; h1; h2; colon; m1; m2] =>
      if Ascii.eqb colon ":" then
        match build_offset [h1; h2] [m1; m2] with
        | Some offset =>
            if Ascii.eqb sign "+" then Some (aware dt offset)
            else if Ascii.eqb sign "-" then Some (aware dt (- offset))
            else None
        | None => None
        end
      else None
  | _, _ => None
  end.

Definition isoformat_parse (s : string) : option parsed_datetime :=
  match list_ascii_of_string s with
  | y1 :: y2 :: y3 :: y4 :: dash1 :: mo1 :: mo2 :: dash2 :: d1 :: d2 :: sep
       :: h1 :: h2 :: colon1 :: mi1 :: mi2 :: colon2 :: s1 :: s2 :: rest =>
      if Ascii.eqb dash1 "-" && Ascii.eqb dash2 "-" && Ascii.eqb sep "T"
         && Ascii.eqb colon1 ":" && Ascii.eqb colon2 ":" then
        match rest with
        | dot :: f1 :: f2 :: f3 :: f4 :: f5 :: f6 :: tz =>
            if Ascii.eqb dot "." then
              with_offset (build_datetime [y1; y2; y3; y4] [mo1; mo2] [d1; d2]
                             [h1; h2] [mi1; mi2] [s1; s2] [f1; f2; f3; f4; f5; f6]) tz
            else
              with_offset (build_datetime [y1; y2; y3; y4] [mo1; mo2] [d1; d2]
                             [h1; h2] [mi1; mi2] [s1; s2] ["0"%char]) rest
        | _ =>
            with_offset (build_datetime [y1; y2; y3; y4] [mo1; mo2] [d1; d2]
                           [h1; h2] [mi1; mi2] [s1; s2] ["0"%char]) rest
        end
      else None
  | _ => None
  end.

(** ** Simulation constants *)

Definition INITIAL_TEMP_CELSIUS : float := 20.0.
Definition INITIAL_HUMIDITY_PERCENT : float := 50.0.
Definition AMBIENT_TEMP_TARGET : float := 22.0.
Definition AMBIENT_HUMIDITY_TARGET : float := 45.0.
Definition HEAT_RATE : float := 0.2.
Definition COOL_RATE_AC : float := 0.3.
Definition AC_HUMIDITY_REDUCTION_RATE : float := 0.2.
Definition AMBIENT_DRIFT_RATE_TEMP : float := 0.05.
Definition BACKGROUND_AMBIENT_DRIFT_RATE_TEMP : float := 0.02.
Definition AMBIENT_DRIFT_RATE_HUMIDITY : float := 0.1.
Definition BACKGROUND_AMBIENT_DRIFT_RATE_HUMIDITY : float := 0.04.
Definition SIMULATION_TICK_INTERVAL_SECONDS : Z := 1.
Definition GRAPH_DATA_POINTS : nat := 60.
Definition DEFAULT_ROOMS_FALLBACK : list string :=
  ["Living Room"; "Bedroom"; "Kitchen"]%string.
Definition MAX_TIMED_HEAT_MINUTES : Z := 60.


(** ** Data model *)

(** [event['params']]: a dictionary that may lack ['duration_minutes']. *)
Record params_dict := { duration_minutes : option Z }.

(** A scheduled event is a dictionary read from JSON or built by
    [schedule_event_prompt]; [None] is an absent key. *)
Record event := {
  start_time_iso : option string;
  action : option string;
  params : option params_dict;
  triggered : option bool;
  description : option string
}.

(** The dictionary of [_get_default_room_state].  The three deques are lists,
    oldest entry first; [deque_append] and [deque_of_list] keep [maxlen]. *)
Record room_state := {
  temp : float;
  humidity : float;
  heat_on : bool;
  ac_boost_on : bool;
  ac_boost_timer : Z;
  timed_heat_active : bool;
  timed_heat_remaining_seconds : Z;
  scheduled_events : list event;
  time_data : list Z;
  temp_data : list float;
  humidity_data : list float;
  simulation_time_elapsed : Z
}.

Definition _get_default_room_state : room_state := {|
  temp := INITIAL_TEMP_CELSIUS;
  humidity := INITIAL_HUMIDITY_PERCENT;
  heat_on := false;
  ac_boost_on := false;
  ac_boost_timer := 0;
  timed_heat_active := false;
  timed_heat_remaining_seconds := 0;
  scheduled_events := [];
  time_data := [];
  temp_data := [];
  humidity_data := [];
  simulation_time_elapsed := 0
|}.

(** [collections.deque(l, maxlen=n)]: the last [n] items of [l]. *)
Definition deque_of_list {A : Type} (maxlen : nat) (l : list A) : list A :=
  skipn (length l - maxlen) l.

(** [dq.append(x)] on a deque bounded by [maxlen]. *)
Definition deque_append {A : Type} (maxlen : nat) (dq : list A) (x : A) : list A :=
  deque_of_list maxlen (dq ++ [x]).

(** Field assignments [room_state[key] = v]. *)
Definition set_temp (v : float) (r : room_state) : room_state :=
  {| temp := v; humidity := humidity r; heat_on := heat_on r;
     ac_boost_on := ac_boost_on r; ac_boost_timer := ac_boost_timer r;
     timed_heat_active := timed_heat_active r;
     timed_heat_remaining_seconds := timed_heat_remaining_seconds r;
     scheduled_events := scheduled_events r; time_data := time_data r;
     temp_data := temp_data r; humidity_data := humidity_data r;
     simulation_time_elapsed := simulation_time_elapsed r |}.

Definition set_humidity (v : float) (r : room_state) : room_state :=
  {| temp := temp r; humidity := v; heat_on := heat_on r;
     ac_boost_on := ac_boost_on r; ac_boost_timer := ac_boost_timer r;
     timed_heat_active := timed_heat_active r;
     timed_heat_remaining_seconds := timed_heat_remaining_seconds r;
     scheduled_events := scheduled_events r; time_data := time_data r;
     temp_data := temp_data r; humidity_data := humidity_data r;
     simulation_time_elapsed := simulation_time_elapsed r |}.

Definition set_heat_on (v : bool) (r : room_state) : room_state :=
  {| temp := temp r; humidity := humidity r; heat_on := v;
     ac_boost_on := ac_boost_on r; ac_boost_timer := ac_boost_timer r;
     timed_heat_active := timed_heat_active r;
     timed_heat_remaining_seconds := timed_heat_remaining_seconds r;
     scheduled_events := scheduled_events r; time_data := time_data r;
     temp_data := temp_data r; humidity_data := humidity_data r;
     simulation_time_elapsed := simulation_time_elapsed r |}.

Definition set_ac_boost_on (v : bool) (r : room_state) : room_state :=
  {| temp := temp r; humidity := humidity r; heat_on := heat_on r;
     ac_boost_on := v; ac_boost_timer := ac_boost_timer r;
     timed_heat_active := timed_heat_active r;
     timed_heat_remaining_seconds := timed_heat_remaining_seconds r;
     scheduled_events := scheduled_events r; time_data := time_data r;
     temp_data := temp_data r; humidity_data := humidity_data r;
     simulation_time_elapsed := simulation_time_elapsed r |}.

Definition set_ac_boost_timer (v : Z) (r : room_state) : room_state :=
  {| temp := temp r; humidity := humidity r; heat_on := heat_on r;
     ac_boost_on := ac_boost_on r; ac_boost_timer := v;
     timed_heat_active := timed_heat_active r;
     timed_heat_remaining_seconds := timed_heat_remaining_seconds r;
     scheduled_events := scheduled_events r; time_data := time_data r;
     temp_data := temp_data r; humidity_data := humidity_data r;
     simulation_time_elapsed := simulation_time_elapsed r |}.

Definition set_timed_heat_active (v : bool) (r : room_state) : room_state :=
  {| temp := temp r; humidity := humidity r; heat_on := heat_on r;
     ac_boost_on := ac_boost_on r; ac_boost_timer := ac_boost_timer r;
     timed_heat_active := v;
     timed_heat_remaining_seconds := timed_heat_remaining_seconds r;
     scheduled_events := scheduled_events r; time_data := time_data r;
     temp_data := temp_data r; humidity_data := humidity_data r;
     simulation_time_elapsed := simulation_time_elapsed r |}.

Definition set_timed_heat_remaining_seconds (v : Z) (r : room_state) : room_state :=
  {| temp := temp r; humidity := humidity r; heat_on := heat_on r;
     ac_boost_on := ac_boost_on r; ac_boost_timer := ac_boost_timer r;
     timed_heat_active := timed_heat_active r;
     timed_heat_remaining_seconds := v;
     scheduled_events := scheduled_events r; time_data := time_data r;
     temp_data := temp_data r; humidity_data := humidity_data r;
     simulation_time_elapsed := simulation_time_elapsed r |}.

Definition set_scheduled_events (v : list event) (r : room_state) : room_state :=
  {| temp := temp r; humidity := humidity r; heat_on := heat_on r;
     ac_boost_on := ac_boost_on r; ac_boost_timer := ac_boost_timer r;
     timed_heat_active := timed_heat_active r;
     timed_heat_remaining_seconds := timed_heat_remaining_seconds r;
     scheduled_events := v; time_data := time_data r;
     temp_data := temp_data r; humidity_data := humidity_data r;
     simulation_time_elapsed := simulation_time_elapsed r |}.

Definition set_time_data (v : list Z) (r : room_state) : room_state :=
  {| temp := temp r; humidity := humidity r; heat_on := heat_on r;
     ac_boost_on := ac_boost_on r; ac_boost_timer := ac_boost_timer r;
     timed_heat_active := timed_heat_active r;
     timed_heat_remaining_seconds := timed_heat_remaining_seconds r;
     scheduled_events := scheduled_events r; time_data := v;
     temp_data := temp_data r; humidity_data := humidity_data r;
     simulation_time_elapsed := simulation_time_elapsed r |}.

Definition set_temp_data (v : list float) (r : room_state) : room_state :=
  {| temp := temp r; humidity := humidity r; heat_on := heat_on r;
     ac_boost_on := ac_boost_on r; ac_boost_timer := ac_boost_timer r;
     timed_heat_active := timed_heat_active r;
     timed_heat_remaining_seconds := timed_heat_remaining_seconds r;
     scheduled_events := scheduled_events r; time_data := time_data r;
     temp_data := v; humidity_data := humidity_data r;
     simulation_time_elapsed := simulation_time_elapsed r |}.

Definition set_humidity_data (v : list float) (r : room_state) : room_state :=
  {| temp := temp r; humidity := humidity r; heat_on := heat_on r;
     ac_boost_on := ac_boost_on r; ac_boost_timer := ac_boost_timer r;
     timed_heat_active := timed_heat_active r;
     timed_heat_remaining_seconds := timed_heat_remaining_seconds r;
     scheduled_events := scheduled_events r; time_data := time_data r;
     temp_data := temp_data r; humidity_data := v;
     simulation_time_elapsed := simulation_time_elapsed r |}.

Definition set_simulation_time_elapsed (v : Z) (r : room_state) : room_state :=
  {| temp := temp r; humidity := humidity r; heat_on := heat_on r;
     ac_boost_on := ac_boost_on r; ac_boost_timer := ac_boost_timer r;
     timed_heat_active := timed_heat_active r;
     timed_heat_remaining_seconds := timed_heat_remaining_seconds r;
     scheduled_events := scheduled_events r; time_data := time_data r;
     temp_data := temp_data r; humidity_data := humidity_data r;
     simulation_time_elapsed := v |}.

(** [event['triggered'] = True]. *)
Definition set_triggered (ev : event) : event :=
  {| start_time_iso := start_time_iso ev; action := action ev;
     params := params ev; triggered := Some true;
     description := description ev |}.

(** [l[i] = x]; the index is in range wherever the source assigns. *)
Fixpoint list_set {A : Type} (l : list A) (i : nat) (x : A) : list A :=
  match l, i with
  | [], _ => []
  | _ :: t, O => x :: t
  | h :: t, S j => h :: list_set t j x
  end.

(** [d.get(key, default)]. *)
Definition dict_get {A : Type} (field : option A) (default : A) : A :=
  match field with
  | Some v => v
  | None => default
  end.

(** ** Exceptions and the monad of the tick loop

    The loop works on one room dictionary and appends to the activity log.
    A raise leaves every mutation made so far in place.  [fired] is a ghost
    trace: one entry per call of [execute_scheduled_event], newest last. *)

Inductive exn :=
| KeyError (key : string)
| ValueError (arg : string)
| TypeError (message : string)
| IndexError.

Inductive result (A : Type) :=
| Return (a : A)
| Raise (e : exn).
Arguments Return {A} a.
Arguments Raise {A} e.

Record env := {
  room : room_state;
  activity_log : list string;
  fired : list (string * nat)
}.

Definition M (A : Type) : Type := env -> env * result A.

Definition ret {A : Type} (a : A) : M A := fun e => (e, Return a).

Definition raise {A : Type} (x : exn) : M A := fun e => (e, Raise x).

Definition bind {A B : Type} (m : M A) (k : A -> M B) : M B :=
  fun e =>
    match m e with
    | (e', Return a) => k a e'
    | (e', Raise x) => (e', Raise x)
    end.

Declare Scope python_scope.
Delimit Scope python_scope with py.
Notation "x <- m ;; k" := (bind m (fun x => k))
  (at level 100, m at next level, right associativity) : python_scope.
Notation "m ;; k" := (bind m (fun _ => k))
  (at level 100, right associativity) : python_scope.
Open Scope python_scope.

Definition get_room : M room_state := fun e => (e, Return (room e)).

Definition modify_room (f : room_state -> room_state) : M unit :=
  fun e => ({| room := f (room e); activity_log := activity_log e;
               fired := fired e |}, Return tt).

(** [self.add_activity_log(message)]: the message, without its clock prefix. *)
Definition add_activity_log (message : string) : M unit :=
  fun e => ({| room := room e; activity_log := activity_log e ++ [message];
               fired := fired e |}, Return tt).

Definition mark_fired (room_name : string) (i : nat) : M unit :=
  fun e => ({| room := room e; activity_log := activity_log e;
               fired := fired e ++ [(room_name, i)] |}, Return tt).

(** Code that cannot raise: a new room dictionary and the messages logged. *)
Definition lift (f : room_state -> room_state * list string) : M unit :=
  fun e => let (r, msgs) := f (room e) in
           ({| room := r; activity_log := activity_log e ++ msgs;
               fired := fired e |}, Return tt).

(** ** [execute_scheduled_event] *)

Definition execute_scheduled_event (room_name : string) (event_details : event)
  : M unit :=
  match action event_details with
  | None => raise (KeyError "action")
  | Some action =>
      let params := dict_get (params event_details) {| duration_minutes := None |} in
      add_activity_log ("Executing: " +++ dict_get (description event_details) action
                        +++ " in " +++ room_name +++ ".") ;;
      if String.eqb action "start_timed_heat" then
        let duration := dict_get (duration_minutes params) 10 in
        room_state <- get_room ;;
        if heat_on room_state || ac_boost_on room_state then
          add_activity_log ("Skipped scheduled Timed Heat for " +++ room_name
                            +++ " due to existing operation.")
        else
          modify_room (set_timed_heat_active true) ;;
          modify_room (set_timed_heat_remaining_seconds (duration * 60)) ;;
          modify_room (set_heat_on true) ;;
          add_activity_log ("Scheduled Timed Heat started for " +++ str_of_Z duration
                            +++ "m in " +++ room_name +++ ".")
      else ret tt
  end.

(** ** Timers *)

Definition tick_timed_heat (room_name : string) (r : room_state)
  : room_state * list string :=
  if timed_heat_active r then
    let r := set_heat_on true r in
    let r := set_timed_heat_remaining_seconds
               (timed_heat_remaining_seconds r - SIMULATION_TICK_INTERVAL_SECONDS) r in
    if timed_heat_remaining_seconds r <=? 0 then
      let r := set_timed_heat_active false r in
      let r := set_heat_on false r in
      let r := set_timed_heat_remaining_seconds 0 r in
      (r, ["Timed heat finished in " +++ room_name +++ "."])
    else (r, [])
  else (r, []).

Definition tick_ac_boost (room_name : string) (r : room_state)
  : room_state * list string :=
  if ac_boost_on r then
    let r := if heat_on r && negb (timed_heat_active r)
             then set_heat_on false r else r in
    let r := set_ac_boost_timer (ac_boost_timer r - SIMULATION_TICK_INTERVAL_SECONDS) r in
    if ac_boost_timer r <=? 0 then
      let r := set_ac_boost_on false r in
      let r := set_ac_boost_timer 0 r in
      (r, ["AC Boost ended in " +++ room_name +++ "."])
    else (r, [])
  else (r, []).

(** ** Climate *)

(** Python's [min(a, b)] and [max(a, b)] on floats: the first argument stays
    unless the second compares strictly below (above) it. *)
Definition py_min (a b : float) : float := if (b <? a)%float then b else a.
Definition py_max (a b : float) : float := if (a <? b)%float then b else a.

(** The direct effect of the active mode on temperature and humidity. *)
Definition control_change (r : room_state) : float * float :=
  let temp_change := 0.0%float in
  let humidity_change := 0.0%float in
  if heat_on r then ((temp_change + HEAT_RATE)%float, humidity_change)
  else if ac_boost_on r then
    ((temp_change - COOL_RATE_AC)%float,
     (humidity_change - AC_HUMIDITY_REDUCTION_RATE)%float)
  else (temp_change, humidity_change).

(** [change] after the ambient-drift statements for [current] and [target]. *)
Definition add_drift (change rate current target : float) : float :=
  if (current <? target)%float then
    (change + rate * abs (target - current) * 0.15)%float
  else if (target <? current)%float then
    (change - rate * abs (current - target) * 0.15)%float
  else change.

Definition temp_change_of (viewed : bool) (noise : float) (r : room_state) : float :=
  let drift_rate_temp :=
    if negb viewed then BACKGROUND_AMBIENT_DRIFT_RATE_TEMP
    else AMBIENT_DRIFT_RATE_TEMP in
  let c := add_drift (fst (control_change r)) drift_rate_temp (temp r)
                     AMBIENT_TEMP_TARGET in
  if viewed then (c + noise)%float else c.

Definition humidity_change_of (viewed : bool) (noise : float) (r : room_state)
  : float :=
  let drift_rate_humidity :=
    if negb viewed then BACKGROUND_AMBIENT_DRIFT_RATE_HUMIDITY
    else AMBIENT_DRIFT_RATE_HUMIDITY in
  let c := add_drift (snd (control_change r)) drift_rate_humidity (humidity r)
                     AMBIENT_HUMIDITY_TARGET in
  if viewed then (c + noise)%float else c.

(** The climate statements of the loop; [noise_t] and [noise_h] are the two
    values [random.uniform] returns, drawn for the viewed room only. *)
Definition apply_climate (viewed : bool) (noise_t noise_h : float) (r : room_state)
  : room_state :=
  let temp_change := temp_change_of viewed noise_t r in
  let humidity_change := humidity_change_of viewed noise_h r in
  let current_temp := temp r in
  let current_humidity := humidity r in
  let r := set_temp (current_temp + temp_change)%float r in
  let r := set_temp (py_max 5.0 (py_min 35.0 (temp r))) r in
  let r := set_humidity (current_humidity + humidity_change)%float r in
  let r := set_humidity (py_max 10.0 (py_min 90.0 (humidity r))) r in
  r.

(** History is recorded for the viewed room only. *)
Definition record_history (viewed : bool) (r : room_state) : room_state :=
  if viewed then
    let r := set_simulation_time_elapsed
               (simulation_time_elapsed r + SIMULATION_TICK_INTERVAL_SECONDS) r in
    let r := set_time_data
               (deque_append GRAPH_DATA_POINTS (time_data r) (simulation_time_elapsed r)) r in
    let r := set_temp_data (deque_append GRAPH_DATA_POINTS (temp_data r) (temp r)) r in
    let r := set_humidity_data
               (deque_append GRAPH_DATA_POINTS (humidity_data r) (humidity r)) r in
    r
  else r.

(** ** One room in one tick of [_simulation_loop] *)

Section Tick.

(** [datetime.fromisoformat]: [None] when it raises [ValueError]. *)
Variable fromisoformat : string -> option parsed_datetime.

(** [datetime.now()], read once per tick: a naive datetime. *)
Variable now_time : datetime.

(** The body of the loop over the scheduled events, at index [i].  Python
    refuses to order the naive [now_time] and an aware start time:
    [now_time >= ...] then raises [TypeError]. *)
Definition event_body (room_name : string) (i : nat) : M unit :=
  room_state <- get_room ;;
  match nth_error (scheduled_events room_state) i with
  | None => raise IndexError
  | Some event =>
      if negb (dict_get (triggered event) false) then
        match start_time_iso event with
        | None => raise (KeyError "start_time_iso")
        | Some iso =>
            match fromisoformat iso with
            | None => raise (ValueError iso)
            | Some (aware _ _) =>
                raise (TypeError
                         "can't compare offset-naive and offset-aware datetimes")
            | Some (naive start) =>
                if datetime_ge now_time start then
                  mark_fired room_name i ;;
                  execute_scheduled_event room_name event ;;
                  modify_room (fun r =>
                    set_scheduled_events
                      (list_set (scheduled_events r) i (set_triggered event)) r)
                else ret tt
            end
        end
      else ret tt
  end.

(** [for i in range(k - 1, -1, -1)]: indices [k - 1] down to [0]. *)
Fixpoint events_loop (room_name : string) (k : nat) : M unit :=
  match k with
  | O => ret tt
  | S i => event_body room_name i ;; events_loop room_name i
  end.

Definition process_scheduled_events (room_name : string) : M unit :=
  room_state <- get_room ;;
  events_loop room_name (length (scheduled_events room_state)).

(** Everything the loop does for one room. *)
Definition simulate_room (room_name : string) (viewed : bool)
           (noise_t noise_h : float) : M unit :=
  process_scheduled_events room_name ;;
  lift (tick_timed_heat room_name) ;;
  lift (tick_ac_boost room_name) ;;
  modify_room (apply_climate viewed noise_t noise_h) ;;
  modify_room (record_history viewed).

End Tick.

(** ** The screen object and one tick over all rooms *)

(** [room_states] is a dictionary in insertion order; [executed] is the ghost
    trace of [execute_scheduled_event] calls. *)
Record screen := {
  rooms : list string;
  current_room : option string;
  room_states : list (string * room_state);
  activity_log_messages : list string;
  executed : list (string * nat)
}.

(** [room_name == self.current_room]. *)
Definition is_current (current : option string) (room_name : string) : bool :=
  match current with
  | Some c => String.eqb room_name c
  | None => false
  end.

(** What one tick reads from outside: the clock and the two random draws. *)
Record tick_input := {
  tick_now : datetime;
  noise_temp : float;
  noise_humidity : float
}.

Section Loop.

Variable fromisoformat : string -> option parsed_datetime.

(** [for room_name, room_state in list(self.room_states.items())].  A raise
    in one room ends the loop: the rooms after it are returned as they
    were. *)
Fixpoint rooms_loop (inp : tick_input) (current : option string)
         (items : list (string * room_state))
         (log : list string) (trace : list (string * nat))
  : list (string * room_state) * list string * list (string * nat) * result unit :=
  match items with
  | [] => ([], log, trace, Return tt)
  | (room_name, room_state) :: rest =>
      match simulate_room fromisoformat (tick_now inp) room_name
              (is_current current room_name) (noise_temp inp) (noise_humidity inp)
              {| room := room_state; activity_log := log; fired := trace |} with
      | (e, Return _) =>
          let '(rest', log', trace', r) :=
            rooms_loop inp current rest (activity_log e) (fired e) in
          ((room_name, room e) :: rest', log', trace', r)
      | (e, Raise x) =>
          ((room_name, room e) :: rest, activity_log e, fired e, Raise x)
      end
  end.

(** One iteration of [while self._simulation_running]. *)
Definition tick (inp : tick_input) (self : screen) : screen * result unit :=
  let '(states, log, trace, r) :=
    rooms_loop inp (current_room self) (room_states self)
               (activity_log_messages self) (executed self) in
  ({| rooms := rooms self; current_room := current_room self;
      room_states := states; activity_log_messages := log;
      executed := trace |}, r).

End Loop.

(** ** The control operations of the dashboard

    Each handler works on [self.room_states[self.current_room]]; the
    [_room] functions are the handler bodies on that dictionary. *)

Definition toggle_heat_on_room (name : string) (r : room_state)
  : room_state * list string :=
  if timed_heat_active r || ac_boost_on r then
    (r, ["Cannot turn on manual heat in " +++ name
         +++ " while other operations are active."])
  else if negb (heat_on r) then
    (set_heat_on true r, ["Manual heat turned ON in " +++ name +++ "."])
  else (r, []).

Definition toggle_heat_off_room (name : string) (r : room_state)
  : room_state * list string :=
  if timed_heat_active r then
    (r, ["Cannot turn off manual heat in " +++ name
         +++ " during timed heating. Cancel timed heat instead."])
  else if heat_on r then
    (set_heat_on false r, ["Manual heat turned OFF in " +++ name +++ "."])
  else (r, []).

Definition activate_ac_boost_room (name : string) (r : room_state)
  : room_state * list string :=
  if heat_on r || timed_heat_active r then
    (r, ["Cannot activate AC Boost in " +++ name +++ " while heating is active."])
  else if negb (ac_boost_on r) then
    let r := set_ac_boost_on true r in
    let r := set_ac_boost_timer 30 r in
    (r, ["AC Boost activated for 30s in " +++ name +++ "."])
  else (r, []).

(** [answer] is what [simpledialog.askinteger] returns: [None] when the user
    cancels, otherwise an integer the dialog keeps within
    [1 .. MAX_TIMED_HEAT_MINUTES]. *)
Definition toggle_timed_heat_room (answer : option Z) (name : string) (r : room_state)
  : room_state * list string :=
  if timed_heat_active r then
    let r := set_timed_heat_active false r in
    let r := set_heat_on false r in
    let r := set_timed_heat_remaining_seconds 0 r in
    (r, ["Timed heat cancelled for " +++ name +++ "."])
  else if heat_on r || ac_boost_on r then
    (r, ["Cannot start timed heat in " +++ name
         +++ " while other operations are active."])
  else
    match answer with
    | Some duration_minutes =>
        let r := set_timed_heat_active true r in
        let r := set_timed_heat_remaining_seconds (duration_minutes * 60) r in
        let r := set_heat_on true r in
        (r, ["Timed heat started for " +++ str_of_Z duration_minutes
             +++ " min in " +++ name +++ "."])
    | None => (r, [])
    end.

(** [schedule_event_prompt] once both dialogs have answered; [iso] is
    [(datetime.now() + timedelta(minutes=delay_minutes)).isoformat()] and
    [hms] the same time as [%H:%M:%S]. *)
Definition schedule_event_room (iso : string) (delay_minutes duration : Z)
           (hms : string) (name : string) (r : room_state)
  : room_state * list string :=
  let event :=
    {| start_time_iso := Some iso;
       action := Some "start_timed_heat"%string;
       params := Some {| duration_minutes := Some duration |};
       triggered := Some false;
       description := Some ("Timed Heat for " +++ str_of_Z duration +++ "m in "
                            +++ str_of_Z delay_minutes +++ "m") |} in
  (set_scheduled_events (scheduled_events r ++ [event]) r,
   ["Scheduled: " +++ dict_get (description event) EmptyString +++ " for " +++ name
    +++ " at " +++ hms +++ "."]).

(** Dictionary access by room name. *)
Fixpoint lookup (name : string) (items : list (string * room_state))
  : option room_state :=
  match items with
  | [] => None
  | (k, v) :: rest => if String.eqb k name then Some v else lookup name rest
  end.

(** [d[name] = v]: in place when the key exists, appended otherwise. *)
Fixpoint dict_set (name : string) (v : room_state)
         (items : list (string * room_state)) : list (string * room_state) :=
  match items with
  | [] => [(name, v)]
  | (k, w) :: rest =>
      if String.eqb k name then (k, v) :: rest else (k, w) :: dict_set name v rest
  end.

(** The guard every handler starts with, then the handler body on the
    current room's dictionary. *)
Definition on_current_room (body : string -> room_state -> room_state * list string)
           (self : screen) : screen :=
  match current_room self with
  | None => self
  | Some name =>
      if String.eqb name EmptyString then self
      else match lookup name (room_states self) with
           | None => self
           | Some r =>
               let (r', msgs) := body name r in
               {| rooms := rooms self; current_room := current_room self;
                  room_states := dict_set name r' (room_states self);
                  activity_log_messages := activity_log_messages self ++ msgs;
                  executed := executed self |}
           end
  end.

Definition toggle_heat_on : screen -> screen := on_current_room toggle_heat_on_room.
Definition toggle_heat_off : screen -> screen := on_current_room toggle_heat_off_room.
Definition activate_ac_boost : screen -> screen := on_current_room activate_ac_boost_room.
Definition toggle_timed_heat (answer : option Z) : screen -> screen :=
  on_current_room (toggle_timed_heat_room answer).
Definition schedule_event_prompt (iso : string) (delay_minutes duration : Z)
           (hms : string) : screen -> screen :=
  on_current_room (schedule_event_room iso delay_minutes duration hms).

(** ** The room selector: display names and their base names *)

(** [s.split(" (")[0]]: the text before the first [" ("]. *)
Fixpoint split_head (s : string) : string :=
  match s with
  | EmptyString => EmptyString
  | String c rest =>
      if String.prefix " (" s then EmptyString else String c (split_head rest)
  end.

(** [" (" in s]. *)
Fixpoint contains_separator (s : string) : bool :=
  match s with
  | EmptyString => false
  | String _ rest => String.prefix " (" s || contains_separator rest
  end.

(** The suffix [get_room_display_names] gives a room. *)
Definition display_suffix (state : room_state) : string :=
  if timed_heat_active state || ac_boost_on state then " (T)"
  else if existsb (fun event => negb (dict_get (triggered event) false))
                  (scheduled_events state)
       then " (S)"
       else EmptyString.

(** [get_room_display_names]: rooms without a dictionary are passed over. *)
Definition get_room_display_names (self : screen) : list string :=
  flat_map (fun room_name =>
              match lookup room_name (room_states self) with
              | None => []
              | Some state => [room_name +++ display_suffix state]
              end)
           (rooms self).

(** [update_room_combobox_display], the combobox existing: the new screen and
    the text of [room_var]. *)
Definition update_room_combobox_display (self : screen) (room_var : string)
  : screen * string :=
  let new_display_values := get_room_display_names self in
  let found :=
    match current_room self with
    | Some current_selection_base =>
        if String.eqb current_selection_base EmptyString then None
        else find (String.prefix current_selection_base) new_display_values
    | None => None
    end in
  match found with
  | Some display_name => (self, display_name)
  | None =>
      match new_display_values with
      | first :: _ =>
          ({| rooms := rooms self; current_room := Some (split_head first);
              room_states := room_states self;
              activity_log_messages := activity_log_messages self;
              executed := executed self |}, first)
      | [] => (self, room_var)
      end
  end.

(** ** Selecting and adding rooms *)

(** [on_room_selected], with the base name already cut out of the combobox
    text, up to the redraw.  The redraw, [update_all_ui_for_current_room],
    falls back to the first room when the selected name has no dictionary;
    as a user action the selection is taken without it, so that the viewed
    room may be any name. *)
Definition on_room_selected (base_room_name : string) (self : screen) : screen :=
  if String.eqb base_room_name EmptyString then self
  else {| rooms := rooms self; current_room := Some base_room_name;
          room_states := room_states self;
          activity_log_messages :=
            match current_room self with
            | Some c => if String.eqb base_room_name c then activity_log_messages self
                        else activity_log_messages self
                             ++ ["Switched to view " +++ base_room_name +++ "."]
            | None => activity_log_messages self
                      ++ ["Switched to view " +++ base_room_name +++ "."]
            end;
          executed := executed self |}.

Definition set_current_room (name : option string) (self : screen) : screen :=
  {| rooms := rooms self; current_room := name; room_states := room_states self;
     activity_log_messages := activity_log_messages self;
     executed := executed self |}.

(** [update_all_ui_for_current_room], the window existing: the fallback to
    the first room when the viewed one has no dictionary, the read
    [self.room_states[self.current_room]], which raises [KeyError] when there
    is still none, and the refresh of the selector.  The labels, the buttons
    and the graph it then sets are widgets. *)
Definition update_all_ui_for_current_room (self : screen) : screen * result unit :=
  match current_room self with
  | None => (self, Return tt)
  | Some viewed =>
      if String.eqb viewed EmptyString then (self, Return tt)
      else
        let reset :=
          match lookup viewed (room_states self) with
          | Some _ => Some self
          | None =>
              match rooms self with
              | first :: _ =>
                  Some (fst (update_room_combobox_display
                               (set_current_room (Some (split_head first)) self)
                               EmptyString))
              | [] => None
              end
          end in
        match reset with
        | None => (self, Return tt)
        | Some self =>
            let key := dict_get (current_room self) EmptyString in
            match lookup key (room_states self) with
            | None => (self, Raise (KeyError key))
            | Some _ => (fst (update_room_combobox_display self EmptyString), Return tt)
            end
        end
  end.

Definition MAX_ROOM_NAME_LENGTH : nat := 20.

(** [add_new_room_prompt] on the stripped name the dialog returned.  The new
    room is appended; the selector is refreshed and set to the first display
    name that starts with the new name; [on_room_selected] reads the base
    name back from it and redraws.  The closing log entry is written only if
    the redraw did not raise. *)
Definition add_new_room_prompt (new_room_name : string) (self : screen)
  : screen * result unit :=
  if String.eqb new_room_name EmptyString then (self, Return tt)
  else if (MAX_ROOM_NAME_LENGTH <? len new_room_name)%nat then (self, Return tt)
  else if existsb (String.eqb new_room_name) (rooms self) then (self, Return tt)
  else
    let self :=
      {| rooms := rooms self ++ [new_room_name];
         current_room := current_room self;
         room_states := dict_set new_room_name _get_default_room_state
                                 (room_states self);
         activity_log_messages := activity_log_messages self;
         executed := executed self |} in
    let self := fst (update_room_combobox_display self EmptyString) in
    let new_room_display_name :=
      match find (String.prefix new_room_name) (get_room_display_names self) with
      | Some dn => dn
      | None => new_room_name
      end in
    let base_room_name := split_head new_room_display_name in
    if String.eqb base_room_name EmptyString then
      ({| rooms := rooms self; current_room := current_room self;
          room_states := room_states self;
          activity_log_messages :=
            activity_log_messages self ++ ["Room '" +++ new_room_name +++ "' added."];
          executed := executed self |}, Return tt)
    else
      match update_all_ui_for_current_room (on_room_selected base_room_name self) with
      | (self, Return _) =>
          ({| rooms := rooms self; current_room := current_room self;
              room_states := room_states self;
              activity_log_messages :=
                activity_log_messages self ++ ["Room '" +++ new_room_name +++ "' added."];
              executed := executed self |}, Return tt)
      | (self, Raise x) => (self, Raise x)
      end.

(** The dashboard [add_new_room_prompt] leaves, raise or not. *)
Definition add_new_room (new_room_name : string) (self : screen) : screen :=
  fst (add_new_room_prompt new_room_name self).

(** ** Runs of the simulation thread *)

Section Runs.

Variable fromisoformat : string -> option parsed_datetime.

(** [_simulation_loop] for as many ticks as there are inputs.  Each input
    comes with the room the user selected since the previous tick, if any.
    An exception ends the thread, and with it the simulation. *)
Fixpoint _simulation_loop (inputs : list (option string * tick_input)) (self : screen)
  : screen * result unit :=
  match inputs with
  | [] => (self, Return tt)
  | (selected, inp) :: inputs' =>
      let self := match selected with
                  | Some name => on_room_selected name self
                  | None => self
                  end in
      match tick fromisoformat inp self with
      | (self', Return _) => _simulation_loop inputs' self'
      | (self', Raise x) => (self', Raise x)
      end
  end.

(** The same for a single room dictionary; each input says whether the room
    is the viewed one during that tick. *)
Fixpoint room_ticks (room_name : string) (inputs : list (tick_input * bool))
  : M unit :=
  match inputs with
  | [] => ret tt
  | (inp, viewed) :: inputs' =>
      simulate_room fromisoformat (tick_now inp) room_name viewed
                    (noise_temp inp) (noise_humidity inp) ;;
      room_ticks room_name inputs'
  end.

End Runs.

(** ** Persistence: [_save_state_to_config] and the loading part of [__init__] *)

(** A room's dictionary as stored in [config.json]; [None] is an absent key.
    Deques are stored as lists. *)
Record persisted_state := {
  p_temp : option float;
  p_humidity : option float;
  p_heat_on : option bool;
  p_ac_boost_on : option bool;
  p_ac_boost_timer : option Z;
  p_timed_heat_active : option bool;
  p_timed_heat_remaining_seconds : option Z;
  p_scheduled_events : option (list event);
  p_time_data : option (list Z);
  p_temp_data : option (list float);
  p_humidity_data : option (list float);
  p_simulation_time_elapsed : option Z
}.

(** The two keys of the configuration the dashboard owns:
    [utils.DEFAULT_ROOM_KEY] and [utils.ROOM_STATES_KEY]. *)
Record config := {
  default_rooms : option (list string);
  cfg_room_states : option (list (string * persisted_state))
}.

(** [s_state] of [_save_state_to_config]: a copy with the deques as lists. *)
Definition serializable_state (state : room_state) : persisted_state := {|
  p_temp := Some (temp state);
  p_humidity := Some (humidity state);
  p_heat_on := Some (heat_on state);
  p_ac_boost_on := Some (ac_boost_on state);
  p_ac_boost_timer := Some (ac_boost_timer state);
  p_timed_heat_active := Some (timed_heat_active state);
  p_timed_heat_remaining_seconds := Some (timed_heat_remaining_seconds state);
  p_scheduled_events := Some (scheduled_events state);
  p_time_data := Some (time_data state);
  p_temp_data := Some (temp_data state);
  p_humidity_data := Some (humidity_data state);
  p_simulation_time_elapsed := Some (simulation_time_elapsed state)
|}.

Definition _save_state_to_config (self : screen) : config := {|
  default_rooms := Some (rooms self);
  cfg_room_states :=
    Some (map (fun item => (fst item, serializable_state (snd item)))
              (room_states self))
|}.

Fixpoint lookup_persisted (name : string) (items : list (string * persisted_state))
  : option persisted_state :=
  match items with
  | [] => None
  | (k, v) :: rest => if String.eqb k name then Some v else lookup_persisted name rest
  end.

(** [{**default_state, **loaded_state}], then the deques rebuilt with
    [maxlen=GRAPH_DATA_POINTS].  An absent deque key keeps the default deque,
    an absent event list the default list.  No value is range-checked. *)
Definition final_state (loaded : persisted_state) : room_state :=
  let default_state := _get_default_room_state in
  {| temp := dict_get (p_temp loaded) (temp default_state);
     humidity := dict_get (p_humidity loaded) (humidity default_state);
     heat_on := dict_get (p_heat_on loaded) (heat_on default_state);
     ac_boost_on := dict_get (p_ac_boost_on loaded) (ac_boost_on default_state);
     ac_boost_timer := dict_get (p_ac_boost_timer loaded) (ac_boost_timer default_state);
     timed_heat_active :=
       dict_get (p_timed_heat_active loaded) (timed_heat_active default_state);
     timed_heat_remaining_seconds :=
       dict_get (p_timed_heat_remaining_seconds loaded)
                (timed_heat_remaining_seconds default_state);
     scheduled_events :=
       dict_get (p_scheduled_events loaded) (scheduled_events default_state);
     time_data :=
       match p_time_data loaded with
       | Some l => deque_of_list GRAPH_DATA_POINTS l
       | None => time_data default_state
       end;
     temp_data :=
       match p_temp_data loaded with
       | Some l => deque_of_list GRAPH_DATA_POINTS l
       | None => temp_data default_state
       end;
     humidity_data :=
       match p_humidity_data loaded with
       | Some l => deque_of_list GRAPH_DATA_POINTS l
       | None => humidity_data default_state
       end;
     simulation_time_elapsed :=
       dict_get (p_simulation_time_elapsed loaded)
                (simulation_time_elapsed default_state) |}.

(** [persisted_room_states.get(room_name, default_state)], merged. *)
Definition load_room (persisted : list (string * persisted_state))
           (room_name : string) : room_state :=
  match lookup_persisted room_name persisted with
  | Some loaded => final_state loaded
  | None => _get_default_room_state
  end.

(** The state-loading part of [SystemStatusScreen.__init__]. *)
Definition __init__ (config_data : config) : screen :=
  let rooms0 := dict_get (default_rooms config_data) DEFAULT_ROOMS_FALLBACK in
  let rooms := match rooms0 with [] => DEFAULT_ROOMS_FALLBACK | _ => rooms0 end in
  let persisted_room_states := dict_get (cfg_room_states config_data) [] in
  {| rooms := rooms;
     current_room := match rooms with [] => None | first :: _ => Some first end;
     room_states :=
       fold_left (fun states room_name =>
                    dict_set room_name (load_room persisted_room_states room_name) states)
                 rooms [];
     activity_log_messages :=
       ["System dashboard initialised. Loaded room states if available."%string];
     executed := [] |}.

(** ** Predicates used by the specifications *)

(** [lo <= x <= hi] on floats. *)
Definition in_range (lo hi x : float) : bool := ((lo <=? x) && (x <=? hi))%float.

Definition climate_in_range (r : room_state) : Prop :=
  in_range 5.0 35.0 (temp r) = true /\ in_range 10.0 90.0 (humidity r) = true.

(** Number of mode flags that are set. *)
Definition flags_set (r : room_state) : nat :=
  (if heat_on r then 1 else 0) + (if ac_boost_on r then 1 else 0)
  + (if timed_heat_active r then 1 else 0).

(** Manual heat is heat that no timer drives. *)
Definition manual_heat (r : room_state) : bool :=
  heat_on r && negb (timed_heat_active r).

Definition modes_active (r : room_state) : nat :=
  (if manual_heat r then 1 else 0) + (if ac_boost_on r then 1 else 0)
  + (if timed_heat_active r then 1 else 0).

(** What the arbiter keeps: AC boost excludes both heating flags, and timed
    heat keeps [heat_on] set. *)
Definition mode_inv (r : room_state) : Prop :=
  (ac_boost_on r = true -> heat_on r = false /\ timed_heat_active r = false) /\
  (timed_heat_active r = true -> heat_on r = true).

Definition no_mode_active (r : room_state) : Prop :=
  heat_on r = false /\ ac_boost_on r = false /\ timed_heat_active r = false.

(** The room with each history cut to its last [GRAPH_DATA_POINTS] entries. *)
Definition cap_history (r : room_state) : room_state :=
  set_humidity_data (deque_of_list GRAPH_DATA_POINTS (humidity_data r))
    (set_temp_data (deque_of_list GRAPH_DATA_POINTS (temp_data r))
       (set_time_data (deque_of_list GRAPH_DATA_POINTS (time_data r)) r)).

Section EventPredicates.

Variable fromisoformat : string -> option parsed_datetime.
Variable now_time : datetime.

(** The loop's test on an event whose keys are all readable. *)
Definition is_due (ev : event) : bool :=
  negb (dict_get (triggered ev) false) &&
  match start_time_iso ev with
  | Some iso =>
      match fromisoformat iso with
      | Some (naive start) => datetime_ge now_time start
      | _ => false
      end
  | None => false
  end.

(** An event the loop can process without raising: it is already triggered,
    or its start time parses to a naive datetime and it names an action. *)
Definition well_formed (ev : event) : bool :=
  dict_get (triggered ev) false ||
  match start_time_iso ev, action ev with
  | Some iso, Some _ =>
      match fromisoformat iso with
      | Some (naive _) => true
      | _ => false
      end
  | _, _ => false
  end.

(** Every scheduled event of the room is well formed. *)
Definition events_well_formed (r : room_state) : Prop :=
  Forall (fun ev => well_formed ev = true) (scheduled_events r).

(** The [i]-th event of the list is due. *)
Definition due_at (evs : list event) (i : nat) : bool :=
  match nth_error evs i with
  | Some ev => is_due ev
  | None => false
  end.

(** Indices of the due events, in insertion order. *)
Definition due_indices (evs : list event) : list nat :=
  filter (due_at evs) (seq 0 (length evs)).

(** The event list once every due event is marked. *)
Definition mark_due (evs : list event) : list event :=
  map (fun ev => if is_due ev then set_triggered ev else ev) evs.

End EventPredicates.

(** A trace of this room that lists no call twice and only events that are
    marked triggered. *)
Definition trace_sound (room_name : string) (e : env) : Prop :=
  NoDup (fired e) /\
  forall i, In (room_name, i) (fired e) ->
            exists ev, nth_error (scheduled_events (room e)) i = Some ev /\
                       triggered ev = Some true.

(** Every room of the screen satisfies [P]. *)
Definition all_rooms (P : room_state -> Prop) (self : screen) : Prop :=
  Forall (fun item => P (snd item)) (room_states self).


(** A dashboard started without a configuration file. *)
Definition fresh_screen : screen :=
  __init__ {| default_rooms := None; cfg_room_states := None |}.

(** States the dashboard reaches from a fresh start through ticks, user
    actions and restarts from the saved configuration. *)
Inductive reachable (fromisoformat : string -> option parsed_datetime) : screen -> Prop :=
| reach_fresh : reachable fromisoformat fresh_screen
| reach_tick inp self :
    reachable fromisoformat self ->
    reachable fromisoformat (fst (tick fromisoformat inp self))
| reach_heat_on self :
    reachable fromisoformat self -> reachable fromisoformat (toggle_heat_on self)
| reach_heat_off self :
    reachable fromisoformat self -> reachable fromisoformat (toggle_heat_off self)
| reach_ac_boost self :
    reachable fromisoformat self -> reachable fromisoformat (activate_ac_boost self)
| reach_timed_heat answer self :
    reachable fromisoformat self ->
    reachable fromisoformat (toggle_timed_heat answer self)
| reach_schedule iso delay duration hms self :
    reachable fromisoformat self ->
    reachable fromisoformat (schedule_event_prompt iso delay duration hms self)
| reach_select name self :
    reachable fromisoformat self -> reachable fromisoformat (on_room_selected name self)
| reach_add_room name self :
    reachable fromisoformat self -> reachable fromisoformat (add_new_room name self)
| reach_reload self :
    reachable fromisoformat self ->
    reachable fromisoformat (__init__ (_save_state_to_config self)).

(** ** The drift model in the words of the design document *)

Definition controlEffect_temp (r : room_state) : float :=
  if heat_on r then 0.2%float
  else if ac_boost_on r then (-0.3)%float
  else 0.0%float.

Definition controlEffect_humidity (r : room_state) : float :=
  if heat_on r then 0.0%float
  else if ac_boost_on r then (-0.2)%float
  else 0.0%float.

(** [rate * |target - value| * coeff], signed toward the target. *)
Definition ambientDrift (value target rate coeff : float) : float :=
  if (value <? target)%float then (rate * abs (target - value) * coeff)%float
  else if (target <? value)%float then (- (rate * abs (target - value) * coeff))%float
  else 0.0%float.

(** ** The effect of the loop's steps when they return *)

(** The room after [execute_scheduled_event] returned. *)
Definition exec_room (ev : event) (r : room_state) : room_state :=
  match action ev with
  | Some a =>
      if String.eqb a "start_timed_heat" then
        if heat_on r || ac_boost_on r then r
        else
          let duration :=
            dict_get (duration_minutes (dict_get (params ev) {| duration_minutes := None |})) 10 in
          set_heat_on true
            (set_timed_heat_remaining_seconds (duration * 60)
               (set_timed_heat_active true r))
      else r
  | None => r
  end.

(** The messages [execute_scheduled_event] logs when it returns. *)
Definition exec_messages (room_name : string) (ev : event) (r : room_state)
  : list string :=
  match action ev with
  | Some a =>
      ("Executing: " +++ dict_get (description ev) a +++ " in " +++ room_name +++ ".")
      :: (if String.eqb a "start_timed_heat" then
            if heat_on r || ac_boost_on r then
              ["Skipped scheduled Timed Heat for " +++ room_name
               +++ " due to existing operation."]
            else
              let duration :=
                dict_get (duration_minutes (dict_get (params ev) {| duration_minutes := None |})) 10 in
              ["Scheduled Timed Heat started for " +++ str_of_Z duration
               +++ "m in " +++ room_name +++ "."]
          else [])
  | None => []
  end.

(** [execute_scheduled_event] on the [i]-th event of [evs], when it returns. *)
Definition exec_at (evs : list event) (r : room_state) (i : nat) : room_state :=
  match nth_error evs i with
  | Some ev => exec_room ev r
  | None => r
  end.

(** The environment after the loop body fired event [i] and returned. *)
Definition fired_env (room_name : string) (i : nat) (ev : event) (e : env) : env :=
  {| room := set_scheduled_events
               (list_set (scheduled_events (room e)) i (set_triggered ev))
               (exec_room ev (room e));
     activity_log := activity_log e ++ exec_messages room_name ev (room e);
     fired := fired e ++ [(room_name, i)] |}.

(** The environment after the timer, climate and history statements. *)
Definition after_events (room_name : string) (viewed : bool)
           (noise_t noise_h : float) (e : env) : env :=
  let r1 := fst (tick_timed_heat room_name (room e)) in
  let r2 := fst (tick_ac_boost room_name r1) in
  {| room := record_history viewed (apply_climate viewed noise_t noise_h r2);
     activity_log := (activity_log e ++ snd (tick_timed_heat room_name (room e)))
                     ++ snd (tick_ac_boost room_name r1);
     fired := fired e |}.

(** ** Concrete inputs for the examples *)

Definition midnight : datetime :=
  {| year := 2024; month := 1; day := 1;
     hour := 0; minute := 0; second := 0; microsecond := 0 |}.

Definition quiet_tick : tick_input :=
  {| tick_now := midnight; noise_temp := 0.0; noise_humidity := 0.0 |}.

Definition noisy_tick : tick_input :=
  {| tick_now := midnight; noise_temp := 0.03; noise_humidity := (-0.08) |}.

(** Timed heat started for one minute in the first room of a fresh
    dashboard, then one tick. *)
Definition timed_heat_screen : screen :=
  fst (tick isoformat_parse quiet_tick (toggle_timed_heat (Some 1) fresh_screen)).






(** Two events scheduled for the same time in an idle kitchen: five minutes
    of heat first, seven minutes second. *)
Definition two_due_events : room_state :=
  fst (schedule_event_room "2023-12-31T23:59:00" 1 7 "23:59:00" "Kitchen"
         (fst (schedule_event_room "2023-12-31T23:59:00" 1 5 "23:59:00" "Kitchen"
                 _get_default_room_state))).

Definition kitchen_env : env :=
  {| room := two_due_events; activity_log := []; fired := [] |}.

(** A kitchen one tick into an AC boost. *)
Definition boosting_room : room_state :=
  fst (tick_ac_boost "Kitchen"
         (fst (activate_ac_boost_room "Kitchen" _get_default_room_state))).

(** A stored room at 50 degrees and 5 percent humidity. *)
Definition overheated_state : persisted_state :=
  {| p_temp := Some 50.0%float; p_humidity := Some 5.0%float; p_heat_on := None;
     p_ac_boost_on := None; p_ac_boost_timer := None;
     p_timed_heat_active := None; p_timed_heat_remaining_seconds := None;
     p_scheduled_events := None; p_time_data := None; p_temp_data := None;
     p_humidity_data := None; p_simulation_time_elapsed := None |}.

Definition overheated_config : config :=
  {| default_rooms := Some ["Attic"%string];
     cfg_room_states := Some [("Attic"%string, overheated_state)] |}.


(** ** [_update_button_states] *)

Inductive tk_state := NORMAL | DISABLED.

Record button_states := {
  heat_on_btn_state : tk_state;
  heat_off_btn_state : tk_state;
  ac_boost_btn_state : tk_state;
  ac_button_text : string;
  timed_heat_btn_text : string;
  timed_heat_btn_state : tk_state;
  schedule_btn_state : tk_state
}.

(** [f"{minutes}m {seconds}s" if minutes > 0 else f"{seconds}s"]. *)
Definition time_str (remaining_seconds : Z) : string :=
  let minutes := remaining_seconds / 60 in
  let seconds := remaining_seconds mod 60 in
  if 0 <? minutes then str_of_Z minutes +++ "m " +++ str_of_Z seconds +++ "s"
  else str_of_Z seconds +++ "s".

(** What [_update_button_states] configures for the viewed room. *)
Definition _update_button_states (room_state : room_state) : button_states :=
  let is_timed_heating := timed_heat_active room_state in
  let is_ac_boosting := ac_boost_on room_state in
  let is_manual_heating := heat_on room_state && negb is_timed_heating in
  let ac_button_text :=
    if is_ac_boosting
    then "Boost AC (" +++ str_of_Z (ac_boost_timer room_state) +++ "s)"
    else "Boost AC"%string in
  if is_timed_heating then
    {| heat_on_btn_state := DISABLED; heat_off_btn_state := DISABLED;
       ac_boost_btn_state := DISABLED; ac_button_text := ac_button_text;
       timed_heat_btn_text :=
         "Cancel Timed Heat ("
           +++ time_str (timed_heat_remaining_seconds room_state) +++ " left)";
       timed_heat_btn_state := NORMAL; schedule_btn_state := DISABLED |}
  else if is_manual_heating then
    {| heat_on_btn_state := DISABLED; heat_off_btn_state := NORMAL;
       ac_boost_btn_state := DISABLED; ac_button_text := ac_button_text;
       timed_heat_btn_text := "Timed Heat";
       timed_heat_btn_state := DISABLED; schedule_btn_state := DISABLED |}
  else if is_ac_boosting then
    {| heat_on_btn_state := DISABLED; heat_off_btn_state := DISABLED;
       ac_boost_btn_state := DISABLED; ac_button_text := ac_button_text;
       timed_heat_btn_text := "Timed Heat";
       timed_heat_btn_state := DISABLED; schedule_btn_state := DISABLED |}
  else
    {| heat_on_btn_state := NORMAL; heat_off_btn_state := DISABLED;
       ac_boost_btn_state := NORMAL; ac_button_text := ac_button_text;
       timed_heat_btn_text := "Timed Heat";
       timed_heat_btn_state := NORMAL; schedule_btn_state := NORMAL |}.

(** ** [_update_graph]: the axis limits *)

(** Python's [min(l)] and [max(l)] on a list that starts with [x]. *)
Definition list_min (x : float) (l : list float) : float := fold_left py_min l x.
Definition list_max (x : float) (l : list float) : float := fold_left py_max l x.

(** The arguments of [ax.set_ylim] for a data list, with the fallbacks
    [lo_default] and [hi_default] for an empty list, the margin and the
    window [lo_window .. hi_window] that is always shown. *)
Definition ylim (data : list float) (margin lo_default hi_default lo_window hi_window : float)
  : float * float :=
  let min_display := match data with
                     | [] => lo_default
                     | x :: l => (list_min x l - margin)%float
                     end in
  let max_display := match data with
                     | [] => hi_default
                     | x :: l => (list_max x l + margin)%float
                     end in
  (py_min lo_window min_display, py_max hi_window max_display).

Definition temp_ylim (temp_list : list float) : float * float :=
  ylim temp_list 2.0 15.0 25.0 10.0 30.0.

Definition humidity_ylim (humidity_list : list float) : float * float :=
  ylim humidity_list 5.0 30.0 70.0 20.0 80.0.

(** The arguments of [set_xlim]. *)
Definition xlim (time_list : list Z) : Z * Z :=
  match time_list with
  | [] => (0, Z.of_nat GRAPH_DATA_POINTS * SIMULATION_TICK_INTERVAL_SECONDS)
  | first :: _ =>
      let start_time :=
        if (length time_list <? GRAPH_DATA_POINTS)%nat then first
        else nth (length time_list - GRAPH_DATA_POINTS) time_list first in
      (start_time, last time_list first + SIMULATION_TICK_INTERVAL_SECONDS)
  end.

(** ** More predicates *)

(** No history is longer than the deques allow. *)
Definition history_bounded (r : room_state) : Prop :=
  (length (time_data r) <= GRAPH_DATA_POINTS)%nat /\
  (length (temp_data r) <= GRAPH_DATA_POINTS)%nat /\
  (length (humidity_data r) <= GRAPH_DATA_POINTS)%nat.

(** The three histories have one entry per recorded tick. *)
Definition history_parallel (r : room_state) : Prop :=
  length (temp_data r) = length (time_data r) /\
  length (humidity_data r) = length (time_data r).

(** The time axis: recorded times ascend strictly, are positive and none is
    later than the room's clock. *)
Definition time_axis_ok (r : room_state) : Prop :=
  StronglySorted Z.lt (time_data r) /\
  Forall (fun t => 0 < t <= simulation_time_elapsed r) (time_data r) /\
  0 <= simulation_time_elapsed r.

(** Every recorded temperature and humidity is within the clamping bounds. *)
Definition recorded_in_range (r : room_state) : Prop :=
  Forall (fun t => in_range 5.0 35.0 t = true) (temp_data r) /\
  Forall (fun h => in_range 10.0 90.0 h = true) (humidity_data r).

(** What the histories of a room satisfy in every state the dashboard
    reaches. *)
Definition history_inv (r : room_state) : Prop :=
  (history_bounded r /\ history_parallel r) /\ time_axis_ok r /\ recorded_in_range r.

(** The recorded history and the clock of its time axis. *)
Definition history_of (r : room_state) : list Z * list float * list float * Z :=
  (time_data r, temp_data r, humidity_data r, simulation_time_elapsed r).

(** [evs'] is [evs] with some events marked triggered, nothing else. *)
Definition only_marked (evs evs' : list event) : Prop :=
  Forall2 (fun ev ev' => ev' = ev \/ ev' = set_triggered ev) evs evs'.

(** The room list and the dictionary of states go together. *)
Definition rooms_in_step (self : screen) : Prop :=
  map fst (room_states self) = rooms self /\ NoDup (rooms self) /\ rooms self <> [].

(** A name [add_new_room_prompt] accepts, as far as its text goes. *)
Definition valid_room_name (n : string) : Prop :=
  n <> EmptyString /\ (len n <= MAX_ROOM_NAME_LENGTH)%nat.

(** What one tick that returns leaves of the modes, whatever it started
    from. *)
Definition timers_settled (r : room_state) : Prop :=
  (timed_heat_active r = true ->
   heat_on r = true /\ 0 < timed_heat_remaining_seconds r) /\
  (ac_boost_on r = true -> 0 < ac_boost_timer r) /\
  (ac_boost_on r = true -> heat_on r = true -> timed_heat_active r = true).

(** A room that has recorded the ticks 4, 5 and 6. *)
Definition three_point_room : room_state :=
  set_time_data [4; 5; 6] (set_simulation_time_elapsed 6 _get_default_room_state).

(** A room as a damaged file may give it: timed heat without [heat_on], a
    negative timer, and AC boost on beside it with no time left. *)
Definition damaged_room : room_state :=
  set_timed_heat_remaining_seconds (-5)
    (set_timed_heat_active true (set_ac_boost_on true _get_default_room_state)).

(** The duration [execute_scheduled_event] reads from an event. *)
Definition duration_of (ev : event) : Z :=
  dict_get (duration_minutes (dict_get (params ev) {| duration_minutes := None |})) 10.

(** The second of the two kitchen events. *)
Definition seven_minute_event : event :=
  {| start_time_iso := Some "2023-12-31T23:59:00"%string;
     action := Some "start_timed_heat"%string;
     params := Some {| duration_minutes := Some 7 |};
     triggered := Some false;
     description := Some "Timed Heat for 7m in 1m"%string |}.



(** ** The login screen of [auth.py] *)

Module LoginScreen.

Definition MAX_LOGIN_ATTEMPTS : Z := 2.

(** The fields of [LoginScreen] the handlers read and write.  [saved_hash] is
    the ["password_hash"] entry of the configuration as [utils.load_config]
    found it or as [utils.save_config] last wrote it with success;
    [set_password_mode] says that the button runs [set_new_password];
    [login_succeeded] and [quit_called] record the calls of
    [on_login_success_callback] and [root.quit]. *)
Record t := {
  password_hash : option string;
  saved_hash : option string;
  attempts_left : Z;
  set_password_mode : bool;
  status_label : string;
  login_succeeded : bool;
  quit_called : bool
}.

(** [not self.password_hash]: absent or empty. *)
Definition no_hash (h : option string) : bool :=
  match h with
  | None => true
  | Some s => String.eqb s EmptyString
  end.

Definition set_status (text : string) (s : t) : t :=
  {| password_hash := password_hash s; saved_hash := saved_hash s;
     attempts_left := attempts_left s; set_password_mode := set_password_mode s;
     status_label := text; login_succeeded := login_succeeded s;
     quit_called := quit_called s |}.

Definition prompt_set_password (s : t) : t :=
  {| password_hash := password_hash s; saved_hash := saved_hash s;
     attempts_left := attempts_left s; set_password_mode := true;
     status_label := "First run: Please set a new password.";
     login_succeeded := login_succeeded s; quit_called := quit_called s |}.

(** [LoginScreen.__init__] on the hash [utils.load_config] found. *)
Definition init (loaded : option string) : t :=
  let s := {| password_hash := loaded; saved_hash := loaded;
              attempts_left := MAX_LOGIN_ATTEMPTS; set_password_mode := false;
              status_label := EmptyString; login_succeeded := false;
              quit_called := false |} in
  if no_hash loaded then prompt_set_password s else s.

Section Handlers.

(** [utils.hash_password]: SHA-256 in hexadecimal, from [hashlib]. *)
Variable hash_password : string -> string.

(** [utils.verify_password]. *)
Definition verify_password (stored_hash provided_password : string) : bool :=
  String.eqb stored_hash (hash_password provided_password).

(** [set_new_password]: [new_password] is the entry's text,
    [confirm_password] the answer of the confirmation dialog and [save_ok]
    the result of [utils.save_config]. *)
Definition set_new_password (new_password : string) (confirm_password : option string)
           (save_ok : bool) (s : t) : t :=
  if String.eqb new_password EmptyString then
    set_status "Password cannot be empty." s
  else if (len new_password <? 6)%nat then
    set_status "Password must be at least 6 characters." s
  else
    match confirm_password with
    | Some confirm =>
        if String.eqb new_password confirm then
          if save_ok then
            {| password_hash := Some (hash_password new_password);
               saved_hash := Some (hash_password new_password);
               attempts_left := attempts_left s; set_password_mode := false;
               status_label := "Password set. Please log in.";
               login_succeeded := login_succeeded s; quit_called := quit_called s |}
          else
            {| password_hash := Some (hash_password new_password);
               saved_hash := saved_hash s;
               attempts_left := attempts_left s;
               set_password_mode := set_password_mode s;
               status_label := "Error saving password. Check logs.";
               login_succeeded := login_succeeded s; quit_called := quit_called s |}
        else set_status "Passwords do not match. Try again." s
    | None => set_status "Password setting cancelled." s
    end.

(** [attempt_login] on the entry's text. *)
Definition attempt_login (entered_password : string) (s : t) : t :=
  match password_hash s with
  | Some stored =>
      if String.eqb stored EmptyString then
        set_status "Error: No password set. Please set one." (prompt_set_password s)
      else if String.eqb entered_password EmptyString then
        set_status "Password cannot be empty." s
      else if verify_password stored entered_password then
        {| password_hash := password_hash s; saved_hash := saved_hash s;
           attempts_left := attempts_left s;
           set_password_mode := set_password_mode s;
           status_label := "Login successful!";
           login_succeeded := true; quit_called := quit_called s |}
      else
        let attempts := attempts_left s - 1 in
        if 0 <? attempts then
          {| password_hash := password_hash s; saved_hash := saved_hash s;
             attempts_left := attempts;
             set_password_mode := set_password_mode s;
             status_label := "Incorrect password. " +++ str_of_Z attempts
                             +++ " attempts remaining.";
             login_succeeded := login_succeeded s; quit_called := quit_called s |}
        else
          {| password_hash := password_hash s; saved_hash := saved_hash s;
             attempts_left := attempts;
             set_password_mode := set_password_mode s;
             status_label := "Max login attempts reached. Application will exit.";
             login_succeeded := login_succeeded s; quit_called := true |}
  | None =>
      set_status "Error: No password set. Please set one." (prompt_set_password s)
  end.

(** What the user does on the login screen: the Return key always runs
    [attempt_login]; the button runs the handler of the current mode. *)
Inductive action :=
| press_return (entry : string)
| click_button (entry : string) (confirm_password : option string) (save_ok : bool).

Definition entry_of (a : action) : string :=
  match a with
  | press_return entry => entry
  | click_button entry _ _ => entry
  end.

Definition handle (a : action) (s : t) : t :=
  match a with
  | press_return entry => attempt_login entry s
  | click_button entry confirm_password save_ok =>
      if set_password_mode s then set_new_password entry confirm_password save_ok s
      else attempt_login entry s
  end.

(** The screen handles actions until a login succeeds or the application
    quits. *)
Fixpoint run (actions : list action) (s : t) : t :=
  match actions with
  | [] => s
  | a :: rest =>
      if login_succeeded s || quit_called s then s else run rest (handle a s)
  end.

End Handlers.

(** What the handlers keep between them. *)
Definition attempts_inv (s : t) : Prop :=
  0 <= attempts_left s <= MAX_LOGIN_ATTEMPTS /\
  quit_called s = (attempts_left s =? 0) /\
  login_succeeded s && quit_called s = false.

(** The entries that are not empty. *)
Definition typed (actions : list action) : list action :=
  filter (fun a => negb (String.eqb (entry_of a) EmptyString)) actions.

(** A stand-in for SHA-256 in the examples; no hash it gives is empty. *)
Definition tagged_hash (password : string) : string := "sha256:" +++ password.

End LoginScreen.

(** * Properties *)

(** ** Lists *)

Lemma list_set_length {A : Type} (l : list A) i x : length (list_set l i x) = length l.
Proof.
  revert i; induction l as [|h t IH]; intros [|j]; simpl; auto.
Qed.

Lemma nth_error_list_set_eq {A : Type} (l : list A) i x :
  (i < length l)%nat -> nth_error (list_set l i x) i = Some x.
Proof.
  revert i; induction l as [|h t IH]; intros [|j] H; simpl in *; try lia; auto.
  apply IH; lia.
Qed.

Lemma nth_error_list_set_ne {A : Type} (l : list A) i j x :
  i <> j -> nth_error (list_set l i x) j = nth_error l j.
Proof.
  revert i j; induction l as [|h t IH]; intros [|i] [|j] H; simpl; auto;
    congruence.
Qed.

(** ** The loop body, case by case *)

Lemma exec_room_events ev r : scheduled_events (exec_room ev r) = scheduled_events r.
Proof.
  unfold exec_room. destruct (action ev) as [a|]; [|reflexivity].
  destruct (String.eqb a "start_timed_heat"); [|reflexivity].
  destruct (heat_on r || ac_boost_on r); reflexivity.
Qed.

Lemma execute_scheduled_event_returns name ev a e :
  action ev = Some a ->
  execute_scheduled_event name ev e =
    ({| room := exec_room ev (room e);
        activity_log := activity_log e ++ exec_messages name ev (room e);
        fired := fired e |}, Return tt).
Proof.
  intros Ha. unfold execute_scheduled_event, exec_room, exec_messages.
  rewrite Ha. unfold bind, add_activity_log, get_room, modify_room, ret; simpl.
  destruct (String.eqb a "start_timed_heat"); simpl.
  - destruct (heat_on (room e) || ac_boost_on (room e)); simpl;
      rewrite <- app_assoc; reflexivity.
  - destruct e; reflexivity.
Qed.

Lemma execute_scheduled_event_raises name ev e :
  action ev = None ->
  execute_scheduled_event name ev e = (e, Raise (KeyError "action")).
Proof.
  intros Ha. unfold execute_scheduled_event. rewrite Ha. reflexivity.
Qed.

Section BodyFacts.

Variable fromisoformat : string -> option parsed_datetime.
Variable now_time : datetime.
Variable name : string.

Lemma event_body_well_formed i ev e :
  nth_error (scheduled_events (room e)) i = Some ev ->
  well_formed fromisoformat ev = true ->
  event_body fromisoformat now_time name i e =
    if is_due fromisoformat now_time ev
    then (fired_env name i ev e, Return tt)
    else (e, Return tt).
Proof.
  intros Hn Hw. unfold event_body, bind, get_room. rewrite Hn.
  unfold well_formed in Hw. unfold is_due.
  destruct (dict_get (triggered ev) false); simpl in *; [reflexivity|].
  destruct (start_time_iso ev) as [iso|]; [|discriminate].
  destruct (action ev) as [a|] eqn:Ha; [|discriminate].
  destruct (fromisoformat iso) as [[start|start offset]|]; [|discriminate|discriminate].
  destruct (datetime_ge now_time start); [|reflexivity].
  rewrite (execute_scheduled_event_returns name ev a _ Ha).
  unfold modify_room, fired_env; simpl. rewrite exec_room_events. reflexivity.
Qed.

(** Whatever the event, the body leaves the environment as it was, or fires
    the event; when [execute_scheduled_event] raises, only the trace grew. *)
Lemma event_body_cases i e :
  let out := event_body fromisoformat now_time name i e in
  fst out = e \/
  (exists ev, nth_error (scheduled_events (room e)) i = Some ev /\
              is_due fromisoformat now_time ev = true /\
              snd out = Return tt /\ fst out = fired_env name i ev e) \/
  (exists ev, nth_error (scheduled_events (room e)) i = Some ev /\
              is_due fromisoformat now_time ev = true /\
              (exists x, snd out = Raise x) /\
              fst out = {| room := room e; activity_log := activity_log e;
                           fired := fired e ++ [(name, i)] |}).
Proof.
  unfold event_body, bind, get_room; cbv zeta.
  destruct (nth_error (scheduled_events (room e)) i) as [ev|] eqn:Hn;
    [|left; reflexivity].
  destruct (dict_get (triggered ev) false) eqn:Ht; simpl; [left; reflexivity|].
  destruct (start_time_iso ev) as [iso|] eqn:Hs; [|left; reflexivity].
  destruct (fromisoformat iso) as [[start|start offset]|] eqn:Hf;
    [|left; reflexivity|left; reflexivity].
  destruct (datetime_ge now_time start) eqn:Hd; [|left; reflexivity].
  assert (Hdue : is_due fromisoformat now_time ev = true)
    by (unfold is_due; rewrite Ht, Hs, Hf, Hd; reflexivity).
  right.
  destruct (action ev) as [a|] eqn:Ha.
  - left. exists ev. rewrite (execute_scheduled_event_returns name ev a _ Ha).
    unfold modify_room, fired_env; simpl. rewrite exec_room_events. auto.
  - right. exists ev. rewrite (execute_scheduled_event_raises name ev _ Ha).
    simpl. eauto 6.
Qed.

End BodyFacts.

(** ** The loop over the events *)

Section LoopFacts.

Variable fromisoformat : string -> option parsed_datetime.
Variable now_time : datetime.
Variable name : string.

(** A loop invariant [I], with [J] what is left of it when the body raises. *)
Lemma events_loop_hoare (I J : env -> Prop) :
  (forall i e, I e ->
     match event_body fromisoformat now_time name i e with
     | (e', Return _) => I e'
     | (e', Raise _) => J e'
     end) ->
  forall k e, I e ->
    match events_loop fromisoformat now_time name k e with
    | (e', Return _) => I e'
    | (e', Raise _) => J e'
    end.
Proof.
  intros Hbody. induction k as [|i IH]; intros e He; simpl.
  - exact He.
  - unfold bind. specialize (Hbody i e He).
    destruct (event_body fromisoformat now_time name i e) as [e1 [u|x]].
    + apply IH, Hbody.
    + exact Hbody.
Qed.

Lemma events_loop_invariant (I : env -> Prop) :
  (forall i e, I e -> I (fst (event_body fromisoformat now_time name i e))) ->
  forall k e, I e -> I (fst (events_loop fromisoformat now_time name k e)).
Proof.
  intros Hbody k e He.
  pose proof (events_loop_hoare I I) as H.
  specialize (H (fun i e0 H0 => ltac:(
    specialize (Hbody i e0 H0);
    destruct (event_body fromisoformat now_time name i e0) as [e1 [u|x]];
    exact Hbody)) k e He).
  destruct (events_loop fromisoformat now_time name k e) as [e1 [u|x]]; exact H.
Qed.

Lemma filter_due_ext evs evs' k :
  (forall j, (j < k)%nat -> nth_error evs' j = nth_error evs j) ->
  filter (due_at fromisoformat now_time evs') (seq 0 k) =
  filter (due_at fromisoformat now_time evs) (seq 0 k).
Proof.
  intros H. apply filter_ext_in. intros j Hj. apply in_seq in Hj.
  unfold due_at. rewrite H by lia. reflexivity.
Qed.

Lemma exec_room_set_events ev evs r :
  exec_room ev (set_scheduled_events evs r) = set_scheduled_events evs (exec_room ev r).
Proof.
  unfold exec_room. destruct (action ev) as [a|]; [|reflexivity].
  destruct (String.eqb a "start_timed_heat"); [|reflexivity]. simpl.
  destruct (heat_on r || ac_boost_on r); reflexivity.
Qed.

Lemma set_events_twice evs evs' r :
  set_scheduled_events evs (set_scheduled_events evs' r) = set_scheduled_events evs r.
Proof. reflexivity. Qed.

Lemma exec_at_nth evs i ev r :
  nth_error evs i = Some ev -> exec_at evs r i = exec_room ev r.
Proof. intros H. unfold exec_at. rewrite H. reflexivity. Qed.

(** Folding [exec_at] ignores the event list the room carries. *)
Lemma fold_exec_at_events evs l : forall evs' r,
  fold_left (exec_at evs) l (set_scheduled_events evs' r) =
  set_scheduled_events evs' (fold_left (exec_at evs) l r).
Proof.
  induction l as [|i l IH]; intros evs' r; simpl; [reflexivity|].
  rewrite <- IH. f_equal. unfold exec_at.
  destruct (nth_error evs i); [apply exec_room_set_events|reflexivity].
Qed.

Lemma fold_exec_at_ext evs1 evs2 k l : 
  (forall j, (j < k)%nat -> nth_error evs1 j = nth_error evs2 j) ->
  (forall j, In j l -> (j < k)%nat) ->
  forall r, fold_left (exec_at evs1) l r = fold_left (exec_at evs2) l r.
Proof.
  intros Hagree. induction l as [|i l IH]; intros Hl r; simpl; [reflexivity|].
  unfold exec_at at 2 4. rewrite (Hagree i) by (apply Hl; left; reflexivity).
  apply IH. intros j Hj. apply Hl. right. exact Hj.
Qed.

(** On a list of well-formed events the loop returns; it fires the due
    events from the highest index down, marks exactly those, and leaves a
    room that is heating or boosting as it was. *)
Lemma events_loop_well_formed k :
  forall e,
    (k <= length (scheduled_events (room e)))%nat ->
    (forall i ev, (i < k)%nat -> nth_error (scheduled_events (room e)) i = Some ev ->
                  well_formed fromisoformat ev = true) ->
    exists e',
      events_loop fromisoformat now_time name k e = (e', Return tt) /\
      fired e' = fired e ++
                 map (pair name)
                     (rev (filter (due_at fromisoformat now_time (scheduled_events (room e)))
                                  (seq 0 k))) /\
      (forall j, nth_error (scheduled_events (room e')) j =
                 if (j <? k)%nat
                 then option_map (fun ev => if is_due fromisoformat now_time ev
                                            then set_triggered ev else ev)
                                 (nth_error (scheduled_events (room e)) j)
                 else nth_error (scheduled_events (room e)) j) /\
      (heat_on (room e) || ac_boost_on (room e) = true ->
       room e' = set_scheduled_events (scheduled_events (room e')) (room e)) /\
      room e' =
        set_scheduled_events (scheduled_events (room e'))
          (fold_left (exec_at (scheduled_events (room e)))
             (rev (filter (due_at fromisoformat now_time (scheduled_events (room e)))
                          (seq 0 k)))
             (room e)).
Proof.
  induction k as [|i IH]; intros e Hlen Hwf.
  - exists e. simpl. rewrite app_nil_r. repeat split; auto.
    + intros _. destruct (room e); reflexivity.
    + destruct (room e); reflexivity.
  - destruct (nth_error (scheduled_events (room e)) i) as [ev|] eqn:Hn.
    2:{ apply nth_error_None in Hn. lia. }
    assert (Hw : well_formed fromisoformat ev = true) by (apply (Hwf i); auto).
    cbn [events_loop]. unfold bind.
    rewrite (event_body_well_formed _ _ _ _ _ _ Hn Hw).
    assert (Hdi : due_at fromisoformat now_time (scheduled_events (room e)) i =
                  is_due fromisoformat now_time ev)
      by (unfold due_at; rewrite Hn; reflexivity).
    rewrite seq_S, filter_app, rev_app_distr. cbn [plus filter]. rewrite Hdi.
    destruct (is_due fromisoformat now_time ev) eqn:Hdue.
    + (* the event fires *)
      destruct (IH (fired_env name i ev e)) as (e' & Hrun & Hf & Hev & Hkeep & Hfold).
      { simpl. rewrite list_set_length. lia. }
      { simpl. intros j ev' Hj Hj'. rewrite nth_error_list_set_ne in Hj' by lia.
        apply (Hwf j); auto. }
      exists e'. split; [exact Hrun|]. split; [|split; [|split]].
      * rewrite Hf. simpl fired. rewrite <- app_assoc. simpl.
        rewrite (filter_due_ext (scheduled_events (room e))); auto.
        intros j Hj. simpl. apply nth_error_list_set_ne. lia.
      * intros j. rewrite Hev. simpl scheduled_events.
        destruct (Nat.ltb_spec j i) as [Hji|Hji].
        -- replace (j <? S i)%nat with true by (symmetry; apply Nat.ltb_lt; lia).
           rewrite nth_error_list_set_ne by lia. reflexivity.
        -- destruct (Nat.eq_dec j i) as [->|Hne].
           ++ replace (i <? S i)%nat with true by (symmetry; apply Nat.ltb_lt; lia).
              rewrite nth_error_list_set_eq by lia. rewrite Hn. simpl.
              rewrite Hdue. reflexivity.
           ++ replace (j <? S i)%nat with false by (symmetry; apply Nat.ltb_ge; lia).
              apply nth_error_list_set_ne. lia.
      * intros Hmode.
        assert (Hsame : exec_room ev (room e) = room e).
        { unfold exec_room. destruct (action ev) as [a|]; [|reflexivity].
          destruct (String.eqb a "start_timed_heat"); [|reflexivity].
          rewrite Hmode. reflexivity. }
        rewrite Hkeep.
        -- simpl room. rewrite Hsame. destruct (room e); reflexivity.
        -- simpl room. rewrite Hsame. destruct (room e); exact Hmode.
      * etransitivity; [exact Hfold|].
        unfold fired_env. cbn [room scheduled_events set_scheduled_events].
        rewrite (filter_due_ext (scheduled_events (room e)))
          by (intros j Hj; apply nth_error_list_set_ne; lia).
        rewrite fold_exec_at_events, set_events_twice. f_equal.
        cbn [rev app fold_left]. rewrite (exec_at_nth _ _ _ _ Hn).
        apply (fold_exec_at_ext _ _ i).
        -- intros j Hj. apply nth_error_list_set_ne. lia.
        -- intros j Hj. apply in_rev, filter_In in Hj. destruct Hj as [Hj _].
           apply in_seq in Hj. lia.
    + (* the event is not due *)
      destruct (IH e) as (e' & Hrun & Hf & Hev & Hkeep & Hfold).
      { lia. }
      { intros j ev' Hj. apply (Hwf j). lia. }
      exists e'. split; [exact Hrun|]. split; [|split; [|split]].
      * rewrite Hf. simpl. reflexivity.
      * intros j. rewrite Hev.
        destruct (Nat.ltb_spec j i) as [Hji|Hji].
        -- replace (j <? S i)%nat with true by (symmetry; apply Nat.ltb_lt; lia).
           reflexivity.
        -- destruct (Nat.eq_dec j i) as [->|Hne].
           ++ replace (i <? S i)%nat with true by (symmetry; apply Nat.ltb_lt; lia).
              rewrite Hn. simpl. rewrite Hdue. reflexivity.
           ++ replace (j <? S i)%nat with false by (symmetry; apply Nat.ltb_ge; lia).
              reflexivity.
      * exact Hkeep.
      * cbn [rev app]. exact Hfold.
Qed.

End LoopFacts.

Section RoomFacts.

Variable fromisoformat : string -> option parsed_datetime.
Variable now_time : datetime.
Variable name : string.

Lemma due_indices_unfold evs :
  due_indices fromisoformat now_time evs =
  filter (due_at fromisoformat now_time evs) (seq 0 (length evs)).
Proof. reflexivity. Qed.

Lemma process_scheduled_events_well_formed e :
  Forall (fun ev => well_formed fromisoformat ev = true) (scheduled_events (room e)) ->
  exists e',
    process_scheduled_events fromisoformat now_time name e = (e', Return tt) /\
    fired e' = fired e ++
               map (pair name)
                   (rev (due_indices fromisoformat now_time (scheduled_events (room e)))) /\
    scheduled_events (room e') =
      mark_due fromisoformat now_time (scheduled_events (room e)) /\
    (heat_on (room e) || ac_boost_on (room e) = true ->
     room e' = set_scheduled_events
                 (mark_due fromisoformat now_time (scheduled_events (room e))) (room e)) /\
    room e' =
      set_scheduled_events
        (mark_due fromisoformat now_time (scheduled_events (room e)))
        (fold_left (exec_at (scheduled_events (room e)))
           (rev (due_indices fromisoformat now_time (scheduled_events (room e))))
           (room e)).
Proof.
  intros Hwf.
  destruct (events_loop_well_formed fromisoformat now_time name
              (length (scheduled_events (room e))) e)
    as (e' & Hrun & Hf & Hev & Hkeep & Hfold).
  { lia. }
  { intros i ev _ Hn. rewrite Forall_forall in Hwf. apply Hwf.
    eapply nth_error_In; eauto. }
  assert (Hevs : scheduled_events (room e') =
                 mark_due fromisoformat now_time (scheduled_events (room e))).
  { apply nth_error_ext. intros j. rewrite Hev. unfold mark_due.
    rewrite nth_error_map.
    destruct (Nat.ltb_spec j (length (scheduled_events (room e)))) as [Hj|Hj];
      [reflexivity|].
    apply nth_error_None in Hj. rewrite Hj. reflexivity. }
  exists e'. unfold process_scheduled_events, bind, get_room.
  split; [exact Hrun|]. split; [exact Hf|]. split; [exact Hevs|]. split.
  - intros Hmode. rewrite <- Hevs. auto.
  - rewrite <- Hevs. exact Hfold.
Qed.

Lemma mark_due_well_formed evs :
  Forall (fun ev => well_formed fromisoformat ev = true) evs ->
  Forall (fun ev => well_formed fromisoformat ev = true)
         (mark_due fromisoformat now_time evs).
Proof.
  intros H. unfold mark_due. apply Forall_map.
  eapply Forall_impl; [|exact H]. intros ev Hev. cbv beta.
  destruct (is_due fromisoformat now_time ev); [reflexivity|exact Hev].
Qed.

(** [simulate_room] is the event loop followed, when it returned, by the
    statements that cannot raise. *)
Lemma simulate_room_unfold viewed nt nh e :
  simulate_room fromisoformat now_time name viewed nt nh e =
  match process_scheduled_events fromisoformat now_time name e with
  | (e1, Return _) => (after_events name viewed nt nh e1, Return tt)
  | (e1, Raise x) => (e1, Raise x)
  end.
Proof.
  unfold simulate_room. unfold bind at 1.
  destruct (process_scheduled_events fromisoformat now_time name e) as [e1 [u|x]];
    [|reflexivity].
  unfold bind, lift, modify_room, after_events.
  destruct (tick_timed_heat name (room e1)) as [r1 m1]; simpl.
  destruct (tick_ac_boost name r1) as [r2 m2]; simpl. reflexivity.
Qed.

End RoomFacts.

(** ** Floats: Python's clamp *)

Lemma ltb_leb (x y : float) : (x <? y)%float = true -> (x <=? y)%float = true.
Proof.
  rewrite ltb_spec, leb_spec. unfold SFltb, SFleb.
  destruct (SFcompare (Prim2SF x) (Prim2SF y)) as [[ | | ]|]; congruence.
Qed.

Lemma clamp_temp (x : float) : in_range 5.0 35.0 (py_max 5.0 (py_min 35.0 x)) = true.
Proof.
  unfold in_range, py_max, py_min.
  destruct (x <? 35.0)%float eqn:H1; [|reflexivity].
  destruct (5.0 <? x)%float eqn:H2; [|reflexivity].
  rewrite (ltb_leb _ _ H1), (ltb_leb _ _ H2). reflexivity.
Qed.

Lemma clamp_humidity (x : float) :
  in_range 10.0 90.0 (py_max 10.0 (py_min 90.0 x)) = true.
Proof.
  unfold in_range, py_max, py_min.
  destruct (x <? 90.0)%float eqn:H1; [|reflexivity].
  destruct (10.0 <? x)%float eqn:H2; [|reflexivity].
  rewrite (ltb_leb _ _ H1), (ltb_leb _ _ H2). reflexivity.
Qed.

Lemma apply_climate_in_range viewed nt nh r :
  climate_in_range (apply_climate viewed nt nh r).
Proof.
  unfold climate_in_range, apply_climate; simpl.
  split; [apply clamp_temp|apply clamp_humidity].
Qed.

Lemma record_history_climate viewed r :
  temp (record_history viewed r) = temp r /\
  humidity (record_history viewed r) = humidity r.
Proof. unfold record_history. destruct viewed; simpl; auto. Qed.

Lemma after_events_in_range name viewed nt nh e :
  climate_in_range (room (after_events name viewed nt nh e)).
Proof.
  unfold after_events; simpl. unfold climate_in_range.
  destruct (record_history_climate viewed
              (apply_climate viewed nt nh
                 (fst (tick_ac_boost name (fst (tick_timed_heat name (room e)))))))
    as [-> ->].
  apply apply_climate_in_range.
Qed.

(** ** What one room's tick preserves *)

Section Preservation.

Variable fromisoformat : string -> option parsed_datetime.

(** A property of the room that firing an event and the closing statements
    of the tick keep is kept by the whole tick, raise or not. *)
Lemma simulate_room_preserves (P : room_state -> Prop) now name viewed nt nh :
  (forall ev r evs, P r -> P (set_scheduled_events evs (exec_room ev r))) ->
  (forall e, P (room e) -> P (room (after_events name viewed nt nh e))) ->
  forall e, P (room e) ->
            P (room (fst (simulate_room fromisoformat now name viewed nt nh e))).
Proof.
  intros Hexec Hafter e He.
  rewrite simulate_room_unfold.
  assert (Hloop : P (room (fst (process_scheduled_events fromisoformat now name e)))).
  { unfold process_scheduled_events, bind, get_room.
    apply (events_loop_invariant fromisoformat now name (fun e0 => P (room e0)));
      [|exact He].
    intros i e0 H0.
    destruct (event_body_cases fromisoformat now name i e0)
      as [-> | [(ev & _ & _ & _ & ->) | (ev & _ & _ & _ & ->)]]; simpl; auto. }
  destruct (process_scheduled_events fromisoformat now name e) as [e1 [u|x]]; simpl in *.
  - apply Hafter, Hloop.
  - exact Hloop.
Qed.

Lemma exec_room_climate ev r :
  temp (exec_room ev r) = temp r /\ humidity (exec_room ev r) = humidity r.
Proof.
  unfold exec_room. destruct (action ev) as [a|]; auto.
  destruct (String.eqb a "start_timed_heat"); auto.
  destruct (heat_on r || ac_boost_on r); auto.
Qed.

Lemma simulate_room_in_range now name viewed nt nh e :
  climate_in_range (room e) ->
  climate_in_range (room (fst (simulate_room fromisoformat now name viewed nt nh e))).
Proof.
  apply simulate_room_preserves.
  - intros ev r evs [Ht Hh]. unfold climate_in_range. simpl.
    destruct (exec_room_climate ev r) as [-> ->]. auto.
  - intros e0 _. apply after_events_in_range.
Qed.

(** The same, room by room, for the loop over all rooms. *)
Lemma rooms_loop_preserves (P : room_state -> Prop) inp current :
  (forall name e, P (room e) ->
     P (room (fst (simulate_room fromisoformat (tick_now inp) name
                     (is_current current name) (noise_temp inp) (noise_humidity inp) e)))) ->
  forall items log trace,
    Forall (fun item => P (snd item)) items ->
    Forall (fun item => P (snd item))
           (fst (fst (fst (rooms_loop fromisoformat inp current items log trace)))).
Proof.
  intros Hroom. induction items as [|[name r] rest IH]; intros log trace Hall; simpl.
  - constructor.
  - inversion Hall as [|? ? Hr Hrest]; subst. simpl in Hr.
    specialize (Hroom name {| room := r; activity_log := log; fired := trace |} Hr).
    destruct (simulate_room fromisoformat (tick_now inp) name (is_current current name)
                (noise_temp inp) (noise_humidity inp)
                {| room := r; activity_log := log; fired := trace |}) as [e [u|x]];
      simpl in Hroom.
    + specialize (IH (activity_log e) (fired e) Hrest).
      destruct (rooms_loop fromisoformat inp current rest (activity_log e) (fired e))
        as [[[rest' log'] trace'] res]. simpl in *. constructor; auto.
    + simpl. constructor; auto.
Qed.

Lemma tick_preserves (P : room_state -> Prop) inp self :
  (forall name e, P (room e) ->
     P (room (fst (simulate_room fromisoformat (tick_now inp) name
                     (is_current (current_room self) name)
                     (noise_temp inp) (noise_humidity inp) e)))) ->
  all_rooms P self -> all_rooms P (fst (tick fromisoformat inp self)).
Proof.
  intros Hroom Hall. unfold all_rooms, tick in *.
  pose proof (rooms_loop_preserves P inp (current_room self) Hroom (room_states self)
                (activity_log_messages self) (executed self) Hall) as H.
  destruct (rooms_loop fromisoformat inp (current_room self) (room_states self)
              (activity_log_messages self) (executed self))
    as [[[states log] trace] res]. exact H.
Qed.

End Preservation.

(** ** The mode flags *)

Ltac crush_modes :=
  repeat match goal with
         | b : bool |- _ => destruct b
         end;
  simpl in *;
  repeat match goal with
         | |- context [if ?b then _ else _] => destruct b eqn:?
         end;
  simpl in *; intuition congruence.

Lemma mode_inv_events evs r : mode_inv r -> mode_inv (set_scheduled_events evs r).
Proof. unfold mode_inv; simpl; auto. Qed.

Lemma exec_room_mode_inv ev r evs :
  mode_inv r -> mode_inv (set_scheduled_events evs (exec_room ev r)).
Proof.
  intros H. apply mode_inv_events. unfold exec_room.
  destruct (action ev) as [a|]; [|exact H].
  destruct (String.eqb a "start_timed_heat"); [|exact H].
  destruct (heat_on r || ac_boost_on r) eqn:Hc; [exact H|].
  apply orb_false_iff in Hc. destruct Hc as [Hh Ha].
  unfold mode_inv in *; simpl. intuition congruence.
Qed.

Lemma tick_timed_heat_mode_inv name r :
  mode_inv r -> mode_inv (fst (tick_timed_heat name r)).
Proof.
  unfold mode_inv, tick_timed_heat. destruct r; simpl. intros H. crush_modes.
Qed.

Lemma tick_ac_boost_mode_inv name r :
  mode_inv r -> mode_inv (fst (tick_ac_boost name r)).
Proof.
  unfold mode_inv, tick_ac_boost. destruct r; simpl. intros H. crush_modes.
Qed.

Lemma after_events_mode_inv name viewed nt nh e :
  mode_inv (room e) -> mode_inv (room (after_events name viewed nt nh e)).
Proof.
  intros H. unfold after_events; simpl.
  pose proof (tick_ac_boost_mode_inv name _ (tick_timed_heat_mode_inv name _ H)) as H2.
  revert H2. generalize (fst (tick_ac_boost name (fst (tick_timed_heat name (room e))))).
  intros r Hr. unfold record_history, apply_climate, mode_inv in *.
  destruct viewed; simpl; exact Hr.
Qed.

Lemma toggle_heat_on_room_mode_inv name r :
  mode_inv r -> mode_inv (fst (toggle_heat_on_room name r)).
Proof.
  unfold mode_inv, toggle_heat_on_room. destruct r; simpl. intros H. crush_modes.
Qed.

Lemma toggle_heat_off_room_mode_inv name r :
  mode_inv r -> mode_inv (fst (toggle_heat_off_room name r)).
Proof.
  unfold mode_inv, toggle_heat_off_room. destruct r; simpl. intros H. crush_modes.
Qed.

Lemma activate_ac_boost_room_mode_inv name r :
  mode_inv r -> mode_inv (fst (activate_ac_boost_room name r)).
Proof.
  unfold mode_inv, activate_ac_boost_room. destruct r; simpl. intros H. crush_modes.
Qed.

Lemma toggle_timed_heat_room_mode_inv answer name r :
  mode_inv r -> mode_inv (fst (toggle_timed_heat_room answer name r)).
Proof.
  unfold mode_inv, toggle_timed_heat_room. destruct r, answer; simpl; intros H;
    crush_modes.
Qed.

Lemma schedule_event_room_mode_inv iso delay duration hms name r :
  mode_inv r -> mode_inv (fst (schedule_event_room iso delay duration hms name r)).
Proof. unfold mode_inv, schedule_event_room; simpl; auto. Qed.

Lemma mode_inv_modes_active r : mode_inv r -> (modes_active r <= 1)%nat.
Proof.
  unfold mode_inv, modes_active, manual_heat.
  destruct (heat_on r), (ac_boost_on r), (timed_heat_active r); simpl;
    intuition (try lia; try congruence).
Qed.

(** ** Dictionaries of rooms *)

Lemma dict_set_Forall (P : room_state -> Prop) name v items :
  P v -> Forall (fun item => P (snd item)) items ->
  Forall (fun item => P (snd item)) (dict_set name v items).
Proof.
  intros Hv. induction items as [|[k w] rest IH]; intros H; simpl.
  - constructor; auto.
  - inversion H; subst. destruct (String.eqb k name); constructor; auto.
Qed.

Lemma lookup_In name items r : lookup name items = Some r -> In (name, r) items.
Proof.
  induction items as [|[k w] rest IH]; simpl; [discriminate|].
  destruct (String.eqb_spec k name) as [->|Hne].
  - intros [= ->]. auto.
  - auto.
Qed.

Lemma on_current_room_preserves (P : room_state -> Prop) body self :
  (forall name r, P r -> P (fst (body name r))) ->
  all_rooms P self -> all_rooms P (on_current_room body self).
Proof.
  intros Hbody Hall. unfold on_current_room.
  destruct (current_room self) as [name|]; [|exact Hall].
  destruct (String.eqb name EmptyString); [exact Hall|].
  destruct (lookup name (room_states self)) as [r|] eqn:Hl; [|exact Hall].
  specialize (Hbody name r). destruct (body name r) as [r' msgs].
  unfold all_rooms in *; simpl. apply dict_set_Forall; [|exact Hall].
  apply Hbody. rewrite Forall_forall in Hall.
  apply (Hall (name, r)), lookup_In, Hl.
Qed.

Lemma fold_dict_set_Forall (P : room_state -> Prop) (f : string -> room_state) names :
  (forall n, P (f n)) ->
  forall acc, Forall (fun item => P (snd item)) acc ->
  Forall (fun item => P (snd item))
         (fold_left (fun states n => dict_set n (f n) states) names acc).
Proof.
  intros Hf. induction names as [|n rest IH]; intros acc Hacc; simpl; auto.
  apply IH, dict_set_Forall; auto.
Qed.

Lemma init_preserves (P : room_state -> Prop) config_data :
  P _get_default_room_state ->
  (forall n loaded, In (n, loaded) (dict_get (cfg_room_states config_data) []) ->
                    P (final_state loaded)) ->
  all_rooms P (__init__ config_data).
Proof.
  intros Hd Hl. unfold all_rooms, __init__; simpl.
  apply fold_dict_set_Forall; [|constructor].
  intros n. unfold load_room.
  destruct (lookup_persisted n (dict_get (cfg_room_states config_data) [])) as [loaded|] eqn:E;
    [|exact Hd].
  apply (Hl n).
  revert E. generalize (dict_get (cfg_room_states config_data) []).
  induction l as [|[k w] rest IH]; simpl; [discriminate|].
  destruct (String.eqb_spec k n) as [->|Hne].
  - intros [= ->]. auto.
  - auto.
Qed.

(** ** Ticks on well-formed events *)

Lemma after_events_fired name viewed nt nh e :
  fired (after_events name viewed nt nh e) = fired e.
Proof. reflexivity. Qed.

Lemma tick_timed_heat_events name r :
  scheduled_events (fst (tick_timed_heat name r)) = scheduled_events r.
Proof.
  unfold tick_timed_heat. destruct (timed_heat_active r); [|reflexivity].
  simpl. destruct (_ <=? 0); reflexivity.
Qed.

Lemma tick_ac_boost_events name r :
  scheduled_events (fst (tick_ac_boost name r)) = scheduled_events r.
Proof.
  unfold tick_ac_boost. destruct (ac_boost_on r); [|reflexivity].
  destruct (heat_on r && negb (timed_heat_active r)); simpl;
    destruct (_ <=? 0); reflexivity.
Qed.

Lemma after_events_events name viewed nt nh e :
  scheduled_events (room (after_events name viewed nt nh e)) = scheduled_events (room e).
Proof.
  unfold after_events; simpl. unfold record_history.
  destruct viewed; simpl; rewrite tick_ac_boost_events, tick_timed_heat_events;
    reflexivity.
Qed.

(** The room [after_events] leaves depends on the room alone. *)
Lemma after_events_room name viewed nt nh e log trace :
  room (after_events name viewed nt nh e) =
  room (after_events name viewed nt nh
          {| room := room e; activity_log := log; fired := trace |}).
Proof. reflexivity. Qed.

Section WellFormedTicks.

Variable fromisoformat : string -> option parsed_datetime.

Lemma simulate_room_well_formed now name viewed nt nh e :
  Forall (fun ev => well_formed fromisoformat ev = true) (scheduled_events (room e)) ->
  exists e',
    simulate_room fromisoformat now name viewed nt nh e = (e', Return tt) /\
    fired e' = fired e ++
               map (pair name)
                   (rev (due_indices fromisoformat now (scheduled_events (room e)))) /\
    scheduled_events (room e') =
      mark_due fromisoformat now (scheduled_events (room e)) /\
    room e' =
      room (after_events name viewed nt nh
              {| room := set_scheduled_events
                           (mark_due fromisoformat now (scheduled_events (room e)))
                           (fold_left (exec_at (scheduled_events (room e)))
                              (rev (due_indices fromisoformat now
                                      (scheduled_events (room e))))
                              (room e));
                 activity_log := []; fired := [] |}) /\
    (heat_on (room e) || ac_boost_on (room e) = true ->
     room e' =
       room (after_events name viewed nt nh
               {| room := set_scheduled_events
                            (mark_due fromisoformat now (scheduled_events (room e)))
                            (room e);
                  activity_log := []; fired := [] |})).
Proof.
  intros Hwf.
  destruct (process_scheduled_events_well_formed fromisoformat now name e Hwf)
    as (e1 & Hrun & Hf & Hev & Hkeep & Hfold).
  exists (after_events name viewed nt nh e1).
  rewrite simulate_room_unfold, Hrun. split; [reflexivity|].
  rewrite after_events_fired, after_events_events.
  split; [exact Hf|]. split; [exact Hev|]. split.
  - rewrite (after_events_room _ _ _ _ e1 [] []). rewrite <- Hfold. reflexivity.
  - intros Hmode. rewrite (after_events_room _ _ _ _ e1 [] []).
    rewrite <- (Hkeep Hmode). reflexivity.
Qed.



End WellFormedTicks.

(** * The claims *)

(** ** C1: mode flags *)

Lemma final_state_serializable_flags r :
  heat_on (final_state (serializable_state r)) = heat_on r /\
  ac_boost_on (final_state (serializable_state r)) = ac_boost_on r /\
  timed_heat_active (final_state (serializable_state r)) = timed_heat_active r.
Proof. unfold final_state, serializable_state; simpl; auto. Qed.

Lemma mode_inv_default : mode_inv _get_default_room_state.
Proof. unfold mode_inv; simpl; split; discriminate. Qed.

(** ** Adding a room *)

Lemma update_room_combobox_display_rooms self room_var :
  rooms (fst (update_room_combobox_display self room_var)) = rooms self /\
  room_states (fst (update_room_combobox_display self room_var)) = room_states self.
Proof.
  unfold update_room_combobox_display.
  destruct (match current_room self with
            | Some current_selection_base =>
                if String.eqb current_selection_base EmptyString then None
                else find (String.prefix current_selection_base)
                          (get_room_display_names self)
            | None => None
            end); [auto|].
  destruct (get_room_display_names self); auto.
Qed.

Lemma on_room_selected_rooms name self :
  rooms (on_room_selected name self) = rooms self /\
  room_states (on_room_selected name self) = room_states self.
Proof.
  unfold on_room_selected. destruct (String.eqb name EmptyString); auto.
Qed.

Lemma update_all_ui_rooms self :
  rooms (fst (update_all_ui_for_current_room self)) = rooms self /\
  room_states (fst (update_all_ui_for_current_room self)) = room_states self.
Proof.
  unfold update_all_ui_for_current_room.
  destruct (current_room self) as [viewed|]; [|auto].
  destruct (String.eqb viewed EmptyString); [auto|].
  assert (Hreset : forall self',
            rooms self' = rooms self -> room_states self' = room_states self ->
            let out :=
              match lookup (dict_get (current_room self') EmptyString)
                           (room_states self') with
              | None => (self', Raise (KeyError (dict_get (current_room self') EmptyString)))
              | Some _ => (fst (update_room_combobox_display self' EmptyString), Return tt)
              end in
            rooms (fst out) = rooms self /\ room_states (fst out) = room_states self).
  { intros self' H1 H2. cbv zeta.
    destruct (lookup _ (room_states self')); cbn [fst]; [|auto].
    destruct (update_room_combobox_display_rooms self' EmptyString) as [-> ->]. auto. }
  destruct (lookup viewed (room_states self)).
  - apply Hreset; reflexivity.
  - destruct (rooms self) as [|first rest] eqn:Hrooms; [auto|].
    rewrite <- Hrooms in Hreset |- *.
    apply Hreset;
      [rewrite (proj1 (update_room_combobox_display_rooms _ _))
      |rewrite (proj2 (update_room_combobox_display_rooms _ _))]; reflexivity.
Qed.

Lemma add_new_room_cases name self :
  (rooms (add_new_room name self) = rooms self /\
   room_states (add_new_room name self) = room_states self) \/
  (name <> EmptyString /\ (len name <= MAX_ROOM_NAME_LENGTH)%nat /\
   ~ In name (rooms self) /\
   rooms (add_new_room name self) = rooms self ++ [name] /\
   room_states (add_new_room name self)
   = dict_set name _get_default_room_state (room_states self)).
Proof.
  unfold add_new_room, add_new_room_prompt.
  destruct (String.eqb_spec name EmptyString) as [|Hne]; [left; auto|].
  destruct (Nat.ltb_spec MAX_ROOM_NAME_LENGTH (len name)) as [|Hlen]; [left; auto|].
  destruct (existsb (String.eqb name) (rooms self)) eqn:Hex; [left; auto|].
  right. split; [exact Hne|]. split; [exact Hlen|]. split.
  { intros Hin. apply Bool.not_true_iff_false in Hex. apply Hex.
    apply existsb_exists. exists name. split; [exact Hin|apply String.eqb_refl]. }
  set (self1 := {| rooms := rooms self ++ [name]; current_room := current_room self;
                   room_states := dict_set name _get_default_room_state (room_states self);
                   activity_log_messages := activity_log_messages self;
                   executed := executed self |}).
  destruct (update_room_combobox_display_rooms self1 EmptyString) as [H1 H2].
  set (self2 := fst (update_room_combobox_display self1 EmptyString)) in *.
  set (base := split_head
                 match find (String.prefix name) (get_room_display_names self2) with
                 | Some dn => dn
                 | None => name
                 end).
  change (rooms self1) with (rooms self ++ [name]) in H1.
  change (room_states self1)
    with (dict_set name _get_default_room_state (room_states self)) in H2.
  destruct (String.eqb base EmptyString); [cbn [fst rooms room_states]; auto|].
  destruct (update_all_ui_rooms (on_room_selected base self2)) as [H3 H4].
  destruct (on_room_selected_rooms base self2) as [H5 H6].
  destruct (update_all_ui_for_current_room (on_room_selected base self2))
    as [self3 [u|x]]; cbn [fst rooms room_states] in *; split; congruence.
Qed.

Lemma add_new_room_preserves (P : room_state -> Prop) name self :
  P _get_default_room_state -> all_rooms P self -> all_rooms P (add_new_room name self).
Proof.
  intros Hd Hall. unfold all_rooms in *.
  destruct (add_new_room_cases name self) as [[_ ->]|(_ & _ & _ & _ & ->)];
    [exact Hall|].
  apply dict_set_Forall; auto.
Qed.

Lemma reachable_mode_inv fromisoformat self :
  reachable fromisoformat self -> all_rooms mode_inv self.
Proof.
  induction 1.
  - apply init_preserves; [apply mode_inv_default|]. simpl. intros n loaded [].
  - apply tick_preserves; [|assumption].
    intros name e. apply simulate_room_preserves.
    + intros ev r evs. apply exec_room_mode_inv.
    + intros e0. apply after_events_mode_inv.
  - apply on_current_room_preserves; [|assumption].
    intros. now apply toggle_heat_on_room_mode_inv.
  - apply on_current_room_preserves; [|assumption].
    intros. now apply toggle_heat_off_room_mode_inv.
  - apply on_current_room_preserves; [|assumption].
    intros. now apply activate_ac_boost_room_mode_inv.
  - apply on_current_room_preserves; [|assumption].
    intros. now apply toggle_timed_heat_room_mode_inv.
  - apply on_current_room_preserves; [|assumption].
    intros. now apply schedule_event_room_mode_inv.
  - unfold on_room_selected. destruct (String.eqb name EmptyString); assumption.
  - apply add_new_room_preserves; [apply mode_inv_default|assumption].
  - apply init_preserves; [apply mode_inv_default|]. simpl.
    intros n loaded Hin. apply in_map_iff in Hin.
    destruct Hin as ([k r] & [= _ <-] & Hin). simpl.
    unfold all_rooms in IHreachable. rewrite Forall_forall in IHreachable.
    specialize (IHreachable _ Hin). simpl in IHreachable.
    destruct (final_state_serializable_flags r) as (Hh & Ha & Ht).
    unfold mode_inv in *. rewrite Hh, Ha, Ht. exact IHreachable.
Qed.

(** C1, as amended.  In every state the dashboard reaches from a fresh start
    by ticks, control requests, scheduling, room changes and reloads, each
    room keeps AC boost apart from both heating flags and keeps [heat_on] set
    while timed heat runs; so at most one of manual heat (heat without a
    timer), AC boost and timed heat is active. *)
Theorem C1_modes_exclusive fromisoformat self :
  reachable fromisoformat self ->
  all_rooms (fun r => mode_inv r /\ (modes_active r <= 1)%nat) self.
Proof.
  intros H. apply reachable_mode_inv in H. unfold all_rooms in *.
  eapply Forall_impl; [|exact H]. cbv beta. intros item Hi.
  split; [exact Hi|apply mode_inv_modes_active, Hi].
Qed.

Lemma C1_modes_exclusive_witness :
  reachable isoformat_parse timed_heat_screen /\
  all_rooms (fun r => mode_inv r /\ (modes_active r <= 1)%nat) timed_heat_screen.
Proof.
  assert (H : reachable isoformat_parse timed_heat_screen).
  { unfold timed_heat_screen.
    apply reach_tick, reach_timed_heat, reach_fresh. }
  split; [exact H|].
  apply (C1_modes_exclusive isoformat_parse timed_heat_screen H).
Defined.

(** C1 as stated fails: starting timed heat in a fresh dashboard sets both
    [heat_on] and [timed_heat_active] of the viewed room. *)
Lemma C1_counterexample :
  reachable isoformat_parse (toggle_timed_heat (Some 1) fresh_screen) /\
  exists r,
    lookup "Living Room" (room_states (toggle_timed_heat (Some 1) fresh_screen)) = Some r /\
    heat_on r = true /\ timed_heat_active r = true /\ ac_boost_on r = false /\
    flags_set r = 2%nat.
Proof.
  split; [apply reach_timed_heat, reach_fresh|].
  eexists. split; [reflexivity|]. repeat split.
Qed.

(** ** C2: a failing room *)





(** ** C3: order of the due events *)

(** C3, as amended.  On well-formed events the tick of a room returns and
    runs the due events from the last inserted to the first: the trace of
    [execute_scheduled_event] calls grows by the due indices in descending
    order, the room is the one obtained by applying the events' effects in
    that order, and exactly the due events are marked. *)
Theorem C3_due_events_run_newest_first fromisoformat now name viewed nt nh e :
  events_well_formed fromisoformat (room e) ->
  exists e',
    simulate_room fromisoformat now name viewed nt nh e = (e', Return tt) /\
    fired e' = fired e ++
               map (pair name)
                   (rev (due_indices fromisoformat now (scheduled_events (room e)))) /\
    scheduled_events (room e') =
      mark_due fromisoformat now (scheduled_events (room e)) /\
    room e' =
      room (after_events name viewed nt nh
              {| room := set_scheduled_events
                           (mark_due fromisoformat now (scheduled_events (room e)))
                           (fold_left (exec_at (scheduled_events (room e)))
                              (rev (due_indices fromisoformat now
                                      (scheduled_events (room e))))
                              (room e));
                 activity_log := []; fired := [] |}).
Proof.
  intros Hwf.
  destruct (simulate_room_well_formed fromisoformat now name viewed nt nh e Hwf)
    as (e' & Hrun & Hf & Hev & Hroom & _).
  exists e'. auto.
Qed.

Lemma C3_due_events_run_newest_first_witness :
  events_well_formed isoformat_parse (room kitchen_env) /\
  exists e',
    simulate_room isoformat_parse midnight "Kitchen" false 0.0 0.0 kitchen_env
      = (e', Return tt) /\
    fired e' = fired kitchen_env ++
               map (pair "Kitchen"%string)
                   (rev (due_indices isoformat_parse midnight
                                     (scheduled_events (room kitchen_env)))) /\
    scheduled_events (room e') =
      mark_due isoformat_parse midnight (scheduled_events (room kitchen_env)) /\
    room e' =
      room (after_events "Kitchen" false 0.0 0.0
              {| room := set_scheduled_events
                           (mark_due isoformat_parse midnight
                                     (scheduled_events (room kitchen_env)))
                           (fold_left (exec_at (scheduled_events (room kitchen_env)))
                              (rev (due_indices isoformat_parse midnight
                                      (scheduled_events (room kitchen_env))))
                              (room kitchen_env));
                 activity_log := []; fired := [] |}).
Proof.
  assert (Hwf : events_well_formed isoformat_parse (room kitchen_env)).
  { unfold events_well_formed. simpl. repeat constructor. }
  split; [exact Hwf|].
  apply (C3_due_events_run_newest_first isoformat_parse midnight "Kitchen" false
           0.0%float 0.0%float kitchen_env Hwf).
Defined.

(** C3 as stated fails: of two events due at the same tick, the one inserted
    second runs first and starts its seven minutes of heat; the one inserted
    first then finds the heat on and is skipped. *)
Lemma C3_counterexample :
  let e' := fst (simulate_room isoformat_parse midnight "Kitchen" false 0.0 0.0
                               kitchen_env) in
  due_indices isoformat_parse midnight (scheduled_events (room kitchen_env))
    = [0; 1]%nat /\
  fired e' = [("Kitchen"%string, 1%nat); ("Kitchen"%string, 0%nat)] /\
  activity_log e' =
    ["Executing: Timed Heat for 7m in 1m in Kitchen.";
     "Scheduled Timed Heat started for 7m in Kitchen.";
     "Executing: Timed Heat for 5m in 1m in Kitchen.";
     "Skipped scheduled Timed Heat for Kitchen due to existing operation."]%string /\
  timed_heat_remaining_seconds (room e') = 7 * 60 - 1 /\
  timed_heat_remaining_seconds (room e') <> 5 * 60 - 1.
Proof. vm_compute. repeat split; discriminate. Qed.
(** ** C4: clamping *)

Lemma on_room_selected_room_states name self :
  room_states (on_room_selected name self) = room_states self.
Proof.
  unfold on_room_selected. destruct (String.eqb name EmptyString); reflexivity.
Qed.

(** C4.  Along any finite sequence of ticks, whatever the clock, the noise
    drawn, the modes and the room viewed during each tick, every room that
    starts with its temperature in [5, 35] and its humidity in [10, 90] stays
    there; this holds at the state the loop stops in, whether or not a tick
    raised. *)
Theorem C4_clamping fromisoformat inputs :
  forall self,
    all_rooms climate_in_range self ->
    all_rooms climate_in_range (fst (_simulation_loop fromisoformat inputs self)).
Proof.
  induction inputs as [|[selected inp] rest IH]; intros self Hall; simpl; [exact Hall|].
  set (self0 := match selected with
                | Some name => on_room_selected name self
                | None => self
                end).
  assert (Hall0 : all_rooms climate_in_range self0).
  { unfold self0, all_rooms. destruct selected as [name|]; [|exact Hall].
    rewrite on_room_selected_room_states. exact Hall. }
  assert (Hstep : all_rooms climate_in_range (fst (tick fromisoformat inp self0))).
  { apply tick_preserves; [|exact Hall0].
    intros name e. apply simulate_room_in_range. }
  destruct (tick fromisoformat inp self0) as [self' [u|x]]; simpl in *.
  - apply IH, Hstep.
  - exact Hstep.
Qed.

Lemma C4_clamping_witness :
  all_rooms climate_in_range fresh_screen /\
  all_rooms climate_in_range
    (fst (_simulation_loop isoformat_parse
            [(None, quiet_tick); (Some "Kitchen"%string, noisy_tick)] fresh_screen)).
Proof.
  assert (H : all_rooms climate_in_range fresh_screen).
  { unfold all_rooms, climate_in_range. simpl.
    repeat constructor. }
  split; [exact H|].
  apply (C4_clamping isoformat_parse
           [(None, quiet_tick); (Some "Kitchen"%string, noisy_tick)] fresh_screen H).
Defined.
(** ** C5: an event fires at most once *)

Lemma NoDup_snoc {A : Type} (l : list A) x : NoDup l -> ~ In x l -> NoDup (l ++ [x]).
Proof.
  induction l as [|h t IH]; intros Hl Hx; simpl.
  - constructor; [intros []|constructor].
  - inversion Hl; subst. constructor.
    + rewrite in_app_iff. simpl. intros [Hin|[->|[]]]; [auto|]. apply Hx. left. reflexivity.
    + apply IH; auto. intros Hin. apply Hx. right. exact Hin.
Qed.

Lemma is_due_triggered fromisoformat now ev :
  triggered ev = Some true -> is_due fromisoformat now ev = false.
Proof. intros H. unfold is_due. rewrite H. reflexivity. Qed.

Section AtMostOnce.

Variable fromisoformat : string -> option parsed_datetime.
Variable name : string.

Lemma event_body_trace_sound now i e :
  trace_sound name e ->
  match event_body fromisoformat now name i e with
  | (e', Return _) => trace_sound name e'
  | (e', Raise _) => NoDup (fired e')
  end.
Proof.
  intros [Hnd Htr].
  pose proof (event_body_cases fromisoformat now name i e) as Hc. cbv zeta in Hc.
  assert (Hfresh : forall ev, nth_error (scheduled_events (room e)) i = Some ev ->
                              is_due fromisoformat now ev = true ->
                              ~ In (name, i) (fired e)).
  { intros ev Hn Hdue Hin. destruct (Htr i Hin) as (ev' & Hn' & Htrig).
    rewrite Hn in Hn'. injection Hn' as <-.
    rewrite (is_due_triggered _ _ _ Htrig) in Hdue. discriminate. }
  destruct (event_body fromisoformat now name i e) as [e' [u|x]]; simpl in Hc.
  - destruct Hc as [-> | [(ev & Hn & Hdue & _ & ->) | (ev & _ & _ & (x & Hx) & _)]].
    + split; assumption.
    + split; simpl.
      * apply NoDup_snoc; eauto.
      * intros j Hj. apply in_app_iff in Hj. simpl in Hj.
        assert (Hi : (i < length (scheduled_events (room e)))%nat)
          by (apply nth_error_Some; congruence).
        destruct (Nat.eq_dec j i) as [->|Hne].
        -- exists (set_triggered ev). split; [|reflexivity].
           apply nth_error_list_set_eq, Hi.
        -- destruct Hj as [Hj|[[= Hj]|[]]]; [|congruence].
           destruct (Htr j Hj) as (ev' & Hn' & Htrig). exists ev'. split; [|exact Htrig].
           rewrite nth_error_list_set_ne by congruence. exact Hn'.
    + discriminate.
  - destruct Hc as [-> | [(ev & _ & _ & Hx & _) | (ev & Hn & Hdue & _ & ->)]].
    + exact Hnd.
    + discriminate.
    + simpl. apply NoDup_snoc; eauto.
Qed.

Lemma simulate_room_trace_sound now viewed nt nh e :
  trace_sound name e ->
  match simulate_room fromisoformat now name viewed nt nh e with
  | (e', Return _) => trace_sound name e'
  | (e', Raise _) => NoDup (fired e')
  end.
Proof.
  intros He. rewrite simulate_room_unfold.
  pose proof (events_loop_hoare fromisoformat now name
                (trace_sound name) (fun e0 => NoDup (fired e0))
                (fun i e0 => event_body_trace_sound now i e0)
                (length (scheduled_events (room e))) e He) as Hloop.
  unfold process_scheduled_events, bind, get_room.
  destruct (events_loop fromisoformat now name (length (scheduled_events (room e))) e)
    as [e1 [u|x]]; [|exact Hloop].
  destruct Hloop as [Hnd Htr]. split.
  - rewrite after_events_fired. exact Hnd.
  - intros j Hj. rewrite after_events_fired in Hj. rewrite after_events_events. auto.
Qed.

Lemma room_ticks_trace_sound inputs :
  forall e, trace_sound name e ->
            NoDup (fired (fst (room_ticks fromisoformat name inputs e))).
Proof.
  induction inputs as [|[inp viewed] rest IH]; intros e He; simpl.
  - apply He.
  - unfold bind.
    pose proof (simulate_room_trace_sound (tick_now inp) viewed (noise_temp inp)
                  (noise_humidity inp) e He) as Hstep.
    destruct (simulate_room fromisoformat (tick_now inp) name viewed (noise_temp inp)
                (noise_humidity inp) e) as [e1 [u|x]]; simpl.
    + apply IH, Hstep.
    + exact Hstep.
Qed.

End AtMostOnce.

Lemma due_well_formed fromisoformat now ev a :
  is_due fromisoformat now ev = true -> action ev = Some a ->
  well_formed fromisoformat ev = true.
Proof.
  unfold is_due, well_formed. intros Hdue Ha. rewrite Ha.
  apply andb_true_iff in Hdue. destruct Hdue as [_ Hdue].
  destruct (start_time_iso ev) as [iso|]; [|discriminate].
  destruct (fromisoformat iso) as [[start|start offset]|];
    [|discriminate|discriminate].
  apply orb_true_r.
Qed.

(** C5.  For the events of a room: (1) along any sequence of ticks, starting
    with an empty trace, no event is handed to [execute_scheduled_event]
    twice; (2) a tick on well-formed events returns, and each event it finds
    due is in its trace and marked triggered afterwards; (3) the loop body
    passes over a triggered event without reading its start time; (4) a due
    [start_timed_heat] event that meets a room with an active mode logs the
    skip, changes no flag and no timer, and is marked triggered all the
    same. *)
Theorem C5_event_fires_at_most_once fromisoformat name :
  (forall inputs e,
     fired e = [] ->
     NoDup (fired (fst (room_ticks fromisoformat name inputs e)))) /\
  (forall now viewed nt nh e,
     events_well_formed fromisoformat (room e) ->
     exists e',
       simulate_room fromisoformat now name viewed nt nh e = (e', Return tt) /\
       forall i ev,
         nth_error (scheduled_events (room e)) i = Some ev ->
         is_due fromisoformat now ev = true ->
         In (name, i) (fired e') /\
         nth_error (scheduled_events (room e')) i = Some (set_triggered ev) /\
         (forall later, is_due fromisoformat later (set_triggered ev) = false)) /\
  (forall now i ev e,
     nth_error (scheduled_events (room e)) i = Some ev ->
     triggered ev = Some true ->
     event_body fromisoformat now name i e = (e, Return tt)) /\
  (forall now i ev e,
     nth_error (scheduled_events (room e)) i = Some ev ->
     is_due fromisoformat now ev = true ->
     action ev = Some "start_timed_heat"%string ->
     mode_inv (room e) ->
     heat_on (room e) || ac_boost_on (room e) || timed_heat_active (room e) = true ->
     event_body fromisoformat now name i e =
       ({| room := set_scheduled_events
                     (list_set (scheduled_events (room e)) i (set_triggered ev))
                     (room e);
           activity_log :=
             activity_log e ++
             ["Executing: " +++ dict_get (description ev) "start_timed_heat"%string
                +++ " in " +++ name +++ ".";
              "Skipped scheduled Timed Heat for " +++ name
                +++ " due to existing operation."];
           fired := fired e ++ [(name, i)] |}, Return tt)).
Proof.
  split; [|split; [|split]].
  - intros inputs e He. apply room_ticks_trace_sound.
    split; rewrite He; [constructor|intros i []].
  - intros now viewed nt nh e Hwf.
    destruct (simulate_room_well_formed fromisoformat now name viewed nt nh e Hwf)
      as (e' & Hrun & Hf & Hev & _).
    exists e'. split; [exact Hrun|]. intros i ev Hn Hdue. split; [|split].
    + rewrite Hf. apply in_app_iff. right. apply in_map, in_rev.
      rewrite rev_involutive. unfold due_indices. apply filter_In. split.
      * apply in_seq. split; [lia|]. simpl. apply nth_error_Some. congruence.
      * unfold due_at. rewrite Hn. exact Hdue.
    + rewrite Hev. unfold mark_due. rewrite nth_error_map, Hn. simpl.
      rewrite Hdue. reflexivity.
    + intros later. apply is_due_triggered. reflexivity.
  - intros now i ev e Hn Htrig. unfold event_body, bind, get_room.
    rewrite Hn, Htrig. reflexivity.
  - intros now i ev e Hn Hdue Ha [Hac Htimed] Hactive.
    assert (Hconflict : heat_on (room e) || ac_boost_on (room e) = true).
    { destruct (heat_on (room e)), (ac_boost_on (room e)); try reflexivity.
      simpl in Hactive. specialize (Htimed Hactive). discriminate. }
    rewrite (event_body_well_formed fromisoformat now name i ev e Hn
               (due_well_formed _ _ _ _ Hdue Ha)).
    rewrite Hdue. unfold fired_env, exec_room, exec_messages.
    rewrite Ha. simpl. rewrite Hconflict. reflexivity.
Qed.

Lemma C5_event_fires_at_most_once_witness :
  (fired kitchen_env = [] /\
   NoDup (fired (fst (room_ticks isoformat_parse "Kitchen"
                        [(quiet_tick, false); (noisy_tick, true); (quiet_tick, false)]
                        kitchen_env)))) /\
  (events_well_formed isoformat_parse (room kitchen_env) /\
   exists e',
     simulate_room isoformat_parse midnight "Kitchen" false 0.0 0.0 kitchen_env
       = (e', Return tt) /\
     forall i ev,
       nth_error (scheduled_events (room kitchen_env)) i = Some ev ->
       is_due isoformat_parse midnight ev = true ->
       In ("Kitchen"%string, i) (fired e') /\
       nth_error (scheduled_events (room e')) i = Some (set_triggered ev) /\
       (forall later, is_due isoformat_parse later (set_triggered ev) = false)).
Proof.
  destruct (C5_event_fires_at_most_once isoformat_parse "Kitchen")
    as (Honce & Hmark & _ & _).
  assert (Hwf : events_well_formed isoformat_parse (room kitchen_env)).
  { unfold events_well_formed. simpl. repeat constructor. }
  split.
  - split; [reflexivity|]. apply Honce. reflexivity.
  - split; [exact Hwf|]. apply Hmark. exact Hwf.
Defined.

(** A skipped event, concretely: manual heat is on when the second kitchen
    event falls due. *)
Example skipped_event_is_marked :
  let e := {| room := set_heat_on true two_due_events;
              activity_log := []; fired := [] |} in
  let e' := fst (event_body isoformat_parse midnight "Kitchen" 1 e) in
  heat_on (room e') = true /\ timed_heat_active (room e') = false /\
  timed_heat_remaining_seconds (room e') = 0 /\
  option_map triggered (nth_error (scheduled_events (room e')) 1) = Some (Some true) /\
  activity_log e' =
    ["Executing: Timed Heat for 7m in 1m in Kitchen.";
     "Skipped scheduled Timed Heat for Kitchen due to existing operation."]%string.
Proof. vm_compute. repeat split. Qed.
(** ** C6: the timed-heat countdown *)

(** The flags and timers after the closing statements are those the timers
    left. *)
Lemma closing_mode_fields viewed nt nh r :
  timed_heat_active (record_history viewed (apply_climate viewed nt nh r))
    = timed_heat_active r /\
  heat_on (record_history viewed (apply_climate viewed nt nh r)) = heat_on r /\
  ac_boost_on (record_history viewed (apply_climate viewed nt nh r)) = ac_boost_on r /\
  timed_heat_remaining_seconds (record_history viewed (apply_climate viewed nt nh r))
    = timed_heat_remaining_seconds r.
Proof. destruct viewed; repeat split. Qed.

Lemma tick_timed_heat_running name r :
  timed_heat_active r = true ->
  if timed_heat_remaining_seconds r - 1 <=? 0
  then timed_heat_active (fst (tick_timed_heat name r)) = false /\
       heat_on (fst (tick_timed_heat name r)) = false /\
       timed_heat_remaining_seconds (fst (tick_timed_heat name r)) = 0 /\
       ac_boost_on (fst (tick_timed_heat name r)) = ac_boost_on r
  else timed_heat_active (fst (tick_timed_heat name r)) = true /\
       heat_on (fst (tick_timed_heat name r)) = true /\
       timed_heat_remaining_seconds (fst (tick_timed_heat name r))
         = timed_heat_remaining_seconds r - 1 /\
       ac_boost_on (fst (tick_timed_heat name r)) = ac_boost_on r.
Proof.
  intros Ht. unfold tick_timed_heat, SIMULATION_TICK_INTERVAL_SECONDS. rewrite Ht.
  destruct r; simpl in *.
  destruct (timed_heat_remaining_seconds0 - 1 <=? 0); simpl; auto.
Qed.

Lemma tick_ac_boost_idle name r :
  ac_boost_on r = false -> fst (tick_ac_boost name r) = r.
Proof. intros Ha. unfold tick_ac_boost. rewrite Ha. reflexivity. Qed.

Section Countdown.

Variable fromisoformat : string -> option parsed_datetime.
Variable name : string.

(** One tick of a room in which timed heat runs with [t] seconds left. *)
Lemma timed_heat_tick now viewed nt nh e :
  events_well_formed fromisoformat (room e) ->
  timed_heat_active (room e) = true ->
  heat_on (room e) = true ->
  ac_boost_on (room e) = false ->
  exists e',
    simulate_room fromisoformat now name viewed nt nh e = (e', Return tt) /\
    events_well_formed fromisoformat (room e') /\
    ac_boost_on (room e') = false /\
    if timed_heat_remaining_seconds (room e) - 1 <=? 0
    then timed_heat_active (room e') = false /\ heat_on (room e') = false /\
         timed_heat_remaining_seconds (room e') = 0
    else timed_heat_active (room e') = true /\ heat_on (room e') = true /\
         timed_heat_remaining_seconds (room e') =
           timed_heat_remaining_seconds (room e) - 1.
Proof.
  intros Hwf Ht Hh Ha.
  destruct (simulate_room_well_formed fromisoformat now name viewed nt nh e Hwf)
    as (e' & Hrun & _ & Hev & _ & Hkeep).
  exists e'. split; [exact Hrun|].
  split; [unfold events_well_formed; rewrite Hev; apply mark_due_well_formed, Hwf|].
  rewrite Hkeep by (rewrite Hh; reflexivity). clear Hkeep Hrun Hev.
  unfold after_events. cbn [room].
  destruct (closing_mode_fields viewed nt nh
              (fst (tick_ac_boost name
                      (fst (tick_timed_heat name
                              (set_scheduled_events
                                 (mark_due fromisoformat now (scheduled_events (room e)))
                                 (room e)))))))
    as (-> & -> & -> & ->).
  set (r0 := set_scheduled_events
               (mark_due fromisoformat now (scheduled_events (room e))) (room e)).
  assert (Ht0 : timed_heat_active r0 = true) by exact Ht.
  assert (Ha0 : ac_boost_on r0 = false) by exact Ha.
  assert (Hr0 : timed_heat_remaining_seconds r0 = timed_heat_remaining_seconds (room e))
    by reflexivity.
  rewrite <- Hr0. clearbody r0.
  pose proof (tick_timed_heat_running name r0 Ht0) as Hstep.
  rewrite Ha0 in Hstep.
  destruct (timed_heat_remaining_seconds r0 - 1 <=? 0);
    destruct Hstep as (H1 & H2 & H3 & H4);
    rewrite (tick_ac_boost_idle name _ H4); auto.
Qed.

Lemma room_ticks_returns inputs :
  forall e, events_well_formed fromisoformat (room e) ->
            exists e', room_ticks fromisoformat name inputs e = (e', Return tt) /\
                       events_well_formed fromisoformat (room e').
Proof.
  induction inputs as [|[inp viewed] rest IH]; intros e Hwf; simpl.
  - exists e. auto.
  - destruct (simulate_room_well_formed fromisoformat (tick_now inp) name viewed
                (noise_temp inp) (noise_humidity inp) e Hwf)
      as (e1 & Hrun & _ & Hev & _).
    unfold bind. rewrite Hrun. apply IH.
    unfold events_well_formed. rewrite Hev. apply mark_due_well_formed, Hwf.
Qed.

(** [n] ticks of a room in which timed heat runs with [t >= 1] seconds left. *)
Lemma timed_heat_countdown inputs :
  forall e,
    events_well_formed fromisoformat (room e) ->
    timed_heat_active (room e) = true ->
    heat_on (room e) = true ->
    ac_boost_on (room e) = false ->
    1 <= timed_heat_remaining_seconds (room e) ->
    exists e',
      room_ticks fromisoformat name inputs e = (e', Return tt) /\
      (Z.of_nat (length inputs) < timed_heat_remaining_seconds (room e) ->
       timed_heat_active (room e') = true /\ heat_on (room e') = true /\
       timed_heat_remaining_seconds (room e') =
         timed_heat_remaining_seconds (room e)
         - Z.of_nat (length inputs) * SIMULATION_TICK_INTERVAL_SECONDS) /\
      (Z.of_nat (length inputs) = timed_heat_remaining_seconds (room e) ->
       timed_heat_active (room e') = false /\ heat_on (room e') = false /\
       timed_heat_remaining_seconds (room e') = 0).
Proof.
  unfold SIMULATION_TICK_INTERVAL_SECONDS.
  induction inputs as [|[inp viewed] rest IH]; intros e Hwf Ht Hh Ha Hrem.
  - exists e. simpl. split; [reflexivity|]. split.
    + intros _. repeat split; auto. lia.
    + intros H. lia.
  - destruct (timed_heat_tick (tick_now inp) viewed (noise_temp inp) (noise_humidity inp)
                e Hwf Ht Hh Ha) as (e1 & Hrun & Hwf1 & Ha1 & Hstep).
    cbn [room_ticks]. unfold bind. rewrite Hrun.
    cbn [length]. rewrite Nat2Z.inj_succ.
    destruct (Z.leb_spec (timed_heat_remaining_seconds (room e) - 1) 0) as [Hle|Hgt].
    + (* the timer expires at this tick *)
      destruct Hstep as (Ht1 & Hh1 & Hr1).
      destruct (room_ticks_returns rest e1 Hwf1) as (e' & Hrest & _).
      exists e'. split; [exact Hrest|]. split.
      * intros H. lia.
      * intros H. assert (rest = []) by (destruct rest; [reflexivity|simpl in H; lia]).
        subst rest. simpl in Hrest. injection Hrest as <-. auto.
    + destruct Hstep as (Ht1 & Hh1 & Hr1).
      destruct (IH e1 Hwf1 Ht1 Hh1 Ha1) as (e' & Hrest & Hlt & Heq); [lia|].
      exists e'. split; [exact Hrest|]. rewrite Hr1 in Hlt, Heq. split.
      * intros H. destruct Hlt as (? & ? & ->); [lia|]. repeat split; auto. lia.
      * intros H. apply Heq. lia.
Qed.

End Countdown.

(** C6.  In a room with no active mode, starting timed heat for [m] minutes
    ([m >= 1], as the dialog demands) sets [timed_heat_active], [heat_on] and
    a timer of [m * 60] seconds.  The ticks that follow return (the events
    being well formed); after [n < m * 60] of them timed heat is still
    active with [m * 60 - n] seconds left, one tick interval less per tick;
    after exactly [m * 60] ticks timed heat and heat are off and the timer
    is 0. *)
Theorem C6_timed_heat_countdown fromisoformat name m r log trace inputs :
  no_mode_active r ->
  events_well_formed fromisoformat r ->
  1 <= m ->
  let started := fst (toggle_timed_heat_room (Some m) name r) in
  (timed_heat_active started = true /\
   timed_heat_remaining_seconds started = m * 60 /\
   heat_on started = true) /\
  exists e',
    room_ticks fromisoformat name inputs
               {| room := started; activity_log := log; fired := trace |}
      = (e', Return tt) /\
    (Z.of_nat (length inputs) < m * 60 ->
     timed_heat_active (room e') = true /\ heat_on (room e') = true /\
     timed_heat_remaining_seconds (room e') =
       m * 60 - Z.of_nat (length inputs) * SIMULATION_TICK_INTERVAL_SECONDS) /\
    (Z.of_nat (length inputs) = m * 60 ->
     timed_heat_active (room e') = false /\ heat_on (room e') = false /\
     timed_heat_remaining_seconds (room e') = 0).
Proof.
  intros (Hh & Ha & Ht) Hwf Hm started.
  assert (Hstarted : started =
            set_heat_on true
              (set_timed_heat_remaining_seconds (m * 60)
                 (set_timed_heat_active true r))).
  { unfold started, toggle_timed_heat_room. rewrite Ht, Hh, Ha. reflexivity. }
  rewrite Hstarted. split; [simpl; auto|].
  apply (timed_heat_countdown fromisoformat name inputs
           {| room := set_heat_on true
                        (set_timed_heat_remaining_seconds (m * 60)
                           (set_timed_heat_active true r));
              activity_log := log; fired := trace |}); simpl; auto. lia.
Qed.

Lemma C6_timed_heat_countdown_witness :
  no_mode_active _get_default_room_state /\
  events_well_formed isoformat_parse _get_default_room_state /\
  1 <= 1 /\
  exists e',
    room_ticks isoformat_parse "Kitchen" (repeat (quiet_tick, false) 60)
               {| room := fst (toggle_timed_heat_room (Some 1) "Kitchen"
                                 _get_default_room_state);
                  activity_log := []; fired := [] |}
      = (e', Return tt) /\
    timed_heat_active (room e') = false /\ heat_on (room e') = false /\
    timed_heat_remaining_seconds (room e') = 0.
Proof.
  assert (H1 : no_mode_active _get_default_room_state) by (repeat split).
  assert (H2 : events_well_formed isoformat_parse _get_default_room_state)
    by constructor.
  assert (H3 : 1 <= 1) by lia.
  repeat split; try assumption.
  destruct (C6_timed_heat_countdown isoformat_parse "Kitchen" 1
              _get_default_room_state [] [] (repeat (quiet_tick, false) 60) H1 H2 H3)
    as (_ & e' & Hrun & _ & Hend).
  exists e'. split; [exact Hrun|]. apply Hend. reflexivity.
Defined.

(** ** C7: saving and loading *)

Lemma lookup_dict_set name k v items :
  lookup name (dict_set k v items) =
  if String.eqb k name then Some v else lookup name items.
Proof.
  induction items as [|[k0 w] rest IH]; simpl.
  - reflexivity.
  - destruct (String.eqb_spec k0 k) as [->|Hne]; simpl.
    + destruct (String.eqb k name); reflexivity.
    + rewrite IH. destruct (String.eqb_spec k0 name) as [->|Hne'].
      * destruct (String.eqb_spec k name) as [->|_]; [congruence|reflexivity].
      * reflexivity.
Qed.

Lemma lookup_fold_dict_set (f : string -> room_state) name names :
  forall acc,
    lookup name (fold_left (fun states n => dict_set n (f n) states) names acc) =
    if existsb (fun n => String.eqb n name) names then Some (f name)
    else lookup name acc.
Proof.
  induction names as [|n rest IH]; intros acc; simpl; [reflexivity|].
  rewrite IH, lookup_dict_set.
  destruct (existsb (fun n0 => String.eqb n0 name) rest).
  - rewrite orb_true_r. reflexivity.
  - rewrite orb_false_r. destruct (String.eqb_spec n name) as [->|_]; reflexivity.
Qed.

Lemma existsb_eqb_In name names :
  In name names -> existsb (fun n => String.eqb n name) names = true.
Proof.
  intros H. apply existsb_exists. exists name. split; [exact H|apply String.eqb_refl].
Qed.

Lemma lookup_persisted_map name items :
  lookup_persisted name
    (map (fun item => (fst item, serializable_state (snd item))) items) =
  option_map serializable_state (lookup name items).
Proof.
  induction items as [|[k v] rest IH]; simpl; [reflexivity|].
  destruct (String.eqb k name); [reflexivity|exact IH].
Qed.

Lemma final_state_serializable r :
  final_state (serializable_state r) = cap_history r.
Proof. destruct r; reflexivity. Qed.

Lemma deque_of_list_short {A : Type} n (l : list A) :
  (length l <= n)%nat -> deque_of_list n l = l.
Proof.
  intros H. unfold deque_of_list. replace (length l - n)%nat with 0%nat by lia.
  reflexivity.
Qed.

Lemma deque_of_list_long {A : Type} n (l : list A) :
  (n < length l)%nat ->
  length (deque_of_list n l) = n /\
  l = firstn (length l - n) l ++ deque_of_list n l.
Proof.
  intros H. unfold deque_of_list. split.
  - rewrite length_skipn. lia.
  - symmetry. apply firstn_skipn.
Qed.

Lemma init_lookup config_data rooms_list name :
  default_rooms config_data = Some rooms_list ->
  In name rooms_list ->
  lookup name (room_states (__init__ config_data)) =
  Some (load_room (dict_get (cfg_room_states config_data) []) name).
Proof.
  intros Hrooms Hin. unfold __init__; simpl. rewrite Hrooms. simpl.
  destruct rooms_list as [|first rest]; [destruct Hin|].
  rewrite lookup_fold_dict_set, (existsb_eqb_In _ _ Hin). reflexivity.
Qed.

(** C7.  A room of the dashboard that is in the room list comes back from
    [_save_state_to_config] followed by the loading of [__init__] with every
    flag, timer, scheduled event and the climate values as they were, and
    with each history cut to its last [GRAPH_DATA_POINTS] entries: unchanged
    when it holds at most 60, and otherwise exactly its 60 most recent
    entries in their order. *)
Theorem C7_round_trip self name r :
  lookup name (room_states self) = Some r ->
  In name (rooms self) ->
  lookup name (room_states (__init__ (_save_state_to_config self)))
    = Some (cap_history r) /\
  (heat_on (cap_history r) = heat_on r /\
   ac_boost_on (cap_history r) = ac_boost_on r /\
   ac_boost_timer (cap_history r) = ac_boost_timer r /\
   timed_heat_active (cap_history r) = timed_heat_active r /\
   timed_heat_remaining_seconds (cap_history r) = timed_heat_remaining_seconds r /\
   scheduled_events (cap_history r) = scheduled_events r /\
   temp (cap_history r) = temp r /\
   humidity (cap_history r) = humidity r /\
   simulation_time_elapsed (cap_history r) = simulation_time_elapsed r) /\
  (time_data (cap_history r) = deque_of_list GRAPH_DATA_POINTS (time_data r) /\
   temp_data (cap_history r) = deque_of_list GRAPH_DATA_POINTS (temp_data r) /\
   humidity_data (cap_history r) = deque_of_list GRAPH_DATA_POINTS (humidity_data r)) /\
  ((length (time_data r) <= GRAPH_DATA_POINTS)%nat ->
   (length (temp_data r) <= GRAPH_DATA_POINTS)%nat ->
   (length (humidity_data r) <= GRAPH_DATA_POINTS)%nat ->
   cap_history r = r) /\
  (forall (A : Type) (l : list A),
     (GRAPH_DATA_POINTS < length l)%nat ->
     length (deque_of_list GRAPH_DATA_POINTS l) = GRAPH_DATA_POINTS /\
     l = firstn (length l - GRAPH_DATA_POINTS) l ++ deque_of_list GRAPH_DATA_POINTS l).
Proof.
  intros Hl Hin. split; [|split; [|split; [|split]]].
  - rewrite (init_lookup (_save_state_to_config self) (rooms self) name eq_refl Hin).
    unfold load_room. simpl. rewrite lookup_persisted_map, Hl. simpl.
    rewrite final_state_serializable. reflexivity.
  - repeat split.
  - repeat split.
  - intros H1 H2 H3. unfold cap_history. destruct r; simpl in *.
    rewrite !deque_of_list_short by assumption. reflexivity.
  - intros A l. apply deque_of_list_long.
Qed.

Lemma C7_round_trip_witness :
  exists r,
    (lookup "Living Room" (room_states timed_heat_screen) = Some r /\
     In "Living Room"%string (rooms timed_heat_screen)) /\
    lookup "Living Room"
           (room_states (__init__ (_save_state_to_config timed_heat_screen)))
      = Some (cap_history r) /\
    timed_heat_remaining_seconds (cap_history r) = 59 /\
    time_data (cap_history r) = [1].
Proof.
  eexists. 
  assert (Hl : lookup "Living Room" (room_states timed_heat_screen) = Some _)
    by (vm_compute; reflexivity).
  assert (Hin : In "Living Room"%string (rooms timed_heat_screen))
    by (vm_compute; left; reflexivity).
  split; [split; [exact Hl|exact Hin]|].
  split; [exact (proj1 (C7_round_trip timed_heat_screen "Living Room" _ Hl Hin))|].
  split; reflexivity.
Defined.

(** Scenario 5: a stored history of 100 points loads as its last 60. *)
Example history_cap_example :
  deque_of_list GRAPH_DATA_POINTS (map Z.of_nat (seq 1 100)) = map Z.of_nat (seq 41 60).
Proof. reflexivity. Qed.

(** ** C8: the drift model *)

(** *** Two identities of binary64 arithmetic *)
Lemma SFsub_add_opp prec emax x y :
  SFsub prec emax x y = SFadd prec emax x (SFopp y).
Proof.
  destruct x as [sx|sx| |sx mx ex], y as [sy|sy| |sy my ey]; simpl; try reflexivity;
    destruct sx, sy; reflexivity.
Qed.

Lemma sub_add_opp (x y : float) : (x - y)%float = (x + (- y))%float.
Proof.
  apply Prim2SF_inj. rewrite sub_spec, add_spec, opp_spec.
  apply SFsub_add_opp.
Qed.

Lemma SFabs_binary_round_aux prec emax s s' m e l :
  SFabs (binary_round_aux prec emax s m e l) = SFabs (binary_round_aux prec emax s' m e l).
Proof.
  unfold binary_round_aux.
  destruct (shr_fexp prec emax m e l) as [mrs e1].
  destruct (shr_fexp prec emax _ e1 loc_Exact) as [mrs2 e2].
  destruct (shr_m mrs2); [reflexivity| |reflexivity].
  destruct (Z.leb e2 (Z.sub emax prec)); reflexivity.
Qed.

Lemma SFabs_binary_normalize_opp prec emax m e :
  SFabs (binary_normalize prec emax (- m) e false) =
  SFabs (binary_normalize prec emax m e false).
Proof.
  destruct m as [|p|p]; simpl; [reflexivity| |]; unfold binary_round;
    destruct (shl_align _ _ _) as [mz ez]; apply SFabs_binary_round_aux.
Qed.

Lemma SFabs_sub_sym prec emax x y :
  SFabs (SFsub prec emax x y) = SFabs (SFsub prec emax y x).
Proof.
  destruct x as [sx|sx| |sx mx ex], y as [sy|sy| |sy my ey]; simpl; try reflexivity;
    try (destruct sx, sy; reflexivity).
  rewrite (Z.min_comm ey ex), <- SFabs_binary_normalize_opp. do 2 f_equal. lia.
Qed.

Lemma abs_sub_sym (x y : float) : abs (x - y) = abs (y - x).
Proof.
  apply Prim2SF_inj. rewrite !abs_spec, !sub_spec. apply SFabs_sub_sym.
Qed.

Lemma control_change_effect r :
  control_change r = (controlEffect_temp r, controlEffect_humidity r).
Proof.
  unfold control_change, controlEffect_temp, controlEffect_humidity.
  destruct (heat_on r); [reflexivity|]. destruct (ac_boost_on r); reflexivity.
Qed.

(** The drift statements add [ambientDrift] to a change that is one of the
    control effects. *)
Lemma add_drift_ambient c rate current target :
  (c + 0.0)%float = c ->
  add_drift c rate current target =
  (c + ambientDrift current target rate 0.15)%float.
Proof.
  intros Hc. unfold add_drift, ambientDrift.
  destruct (current <? target)%float; [reflexivity|].
  destruct (target <? current)%float.
  - rewrite (abs_sub_sym current target). apply sub_add_opp.
  - symmetry. exact Hc.
Qed.

Lemma controlEffect_temp_plus_zero r :
  (controlEffect_temp r + 0.0)%float = controlEffect_temp r.
Proof.
  unfold controlEffect_temp. destruct (heat_on r); [reflexivity|].
  destruct (ac_boost_on r); reflexivity.
Qed.

Lemma controlEffect_humidity_plus_zero r :
  (controlEffect_humidity r + 0.0)%float = controlEffect_humidity r.
Proof.
  unfold controlEffect_humidity. destruct (heat_on r); [reflexivity|].
  destruct (ac_boost_on r); reflexivity.
Qed.

(** The timers leave temperature and humidity alone. *)
Lemma timers_keep_climate name r :
  temp (fst (tick_ac_boost name (fst (tick_timed_heat name r)))) = temp r /\
  humidity (fst (tick_ac_boost name (fst (tick_timed_heat name r)))) = humidity r.
Proof.
  unfold tick_ac_boost, tick_timed_heat. destruct r; simpl.
  repeat match goal with
         | |- context [if ?b then _ else _] => destruct b; simpl
         end; auto.
Qed.

(** C8.  In a room that is not viewed no noise is added, and the changes the
    tick applies are the control effect of the mode (heat +0.2 degrees,
    otherwise AC boost -0.3 degrees and -0.2 percent humidity, otherwise
    nothing) plus the ambient drift [rate * |target - value| * 0.15] toward
    22.0 degrees and 45.0 percent, at the background rates 0.02 and 0.04; the
    new values are the old ones plus these changes, then clamped.  The viewed
    room uses the rates 0.05 and 0.1 and adds its noise.  In the tick the
    mode is read after the timers ran, and the values before the tick are
    the ones the drift starts from. *)
Theorem C8_drift_model r nt nh :
  (temp_change_of false nt r =
     (controlEffect_temp r
      + ambientDrift (temp r) 22.0 0.02 0.15)%float /\
   humidity_change_of false nh r =
     (controlEffect_humidity r
      + ambientDrift (humidity r) 45.0 0.04 0.15)%float) /\
  (temp (apply_climate false nt nh r) =
     py_max 5.0 (py_min 35.0
       (temp r + (controlEffect_temp r
                  + ambientDrift (temp r) 22.0 0.02 0.15))%float) /\
   humidity (apply_climate false nt nh r) =
     py_max 10.0 (py_min 90.0
       (humidity r + (controlEffect_humidity r
                      + ambientDrift (humidity r) 45.0 0.04 0.15))%float)) /\
  (temp_change_of true nt r =
     (controlEffect_temp r
      + ambientDrift (temp r) 22.0 0.05 0.15 + nt)%float /\
   humidity_change_of true nh r =
     (controlEffect_humidity r
      + ambientDrift (humidity r) 45.0 0.1 0.15 + nh)%float) /\
  (forall name e,
     let timers_done :=
       fst (tick_ac_boost name (fst (tick_timed_heat name (room e)))) in
     temp (room (after_events name false nt nh e)) =
       py_max 5.0 (py_min 35.0
         (temp (room e)
          + (controlEffect_temp timers_done
             + ambientDrift (temp (room e)) 22.0 0.02 0.15))%float) /\
     humidity (room (after_events name false nt nh e)) =
       py_max 10.0 (py_min 90.0
         (humidity (room e)
          + (controlEffect_humidity timers_done
             + ambientDrift (humidity (room e)) 45.0 0.04 0.15))%float)).
Proof.
  assert (Hgen : forall r0 rate_t rate_h,
             add_drift (fst (control_change r0)) rate_t (temp r0) AMBIENT_TEMP_TARGET =
             (controlEffect_temp r0 + ambientDrift (temp r0) 22.0 rate_t 0.15)%float /\
             add_drift (snd (control_change r0)) rate_h (humidity r0)
                       AMBIENT_HUMIDITY_TARGET =
             (controlEffect_humidity r0
              + ambientDrift (humidity r0) 45.0 rate_h 0.15)%float).
  { intros r0 rate_t rate_h. rewrite control_change_effect. cbn [fst snd]. split.
    - apply add_drift_ambient, controlEffect_temp_plus_zero.
    - apply add_drift_ambient, controlEffect_humidity_plus_zero. }
  assert (Hclimate : forall r0,
             temp (apply_climate false nt nh r0) =
               py_max 5.0 (py_min 35.0
                 (temp r0 + (controlEffect_temp r0
                             + ambientDrift (temp r0) 22.0 0.02 0.15))%float) /\
             humidity (apply_climate false nt nh r0) =
               py_max 10.0 (py_min 90.0
                 (humidity r0 + (controlEffect_humidity r0
                                 + ambientDrift (humidity r0) 45.0 0.04 0.15))%float)).
  { intros r0. unfold apply_climate, temp_change_of, humidity_change_of. cbn [negb].
    cbn [temp humidity set_temp set_humidity].
    destruct (Hgen r0 BACKGROUND_AMBIENT_DRIFT_RATE_TEMP
                   BACKGROUND_AMBIENT_DRIFT_RATE_HUMIDITY) as [-> ->].
    split; reflexivity. }
  split; [|split; [|split]].
  - unfold temp_change_of, humidity_change_of. cbn [negb].
    destruct (Hgen r BACKGROUND_AMBIENT_DRIFT_RATE_TEMP
                   BACKGROUND_AMBIENT_DRIFT_RATE_HUMIDITY) as [-> ->].
    split; reflexivity.
  - apply Hclimate.
  - unfold temp_change_of, humidity_change_of. cbn [negb].
    destruct (Hgen r AMBIENT_DRIFT_RATE_TEMP AMBIENT_DRIFT_RATE_HUMIDITY) as [-> ->].
    split; reflexivity.
  - intros name e timers_done. unfold after_events. cbn [room record_history].
    fold timers_done.
    destruct (timers_keep_climate name (room e)) as [Ht Hh].
    fold timers_done in Ht, Hh. rewrite <- Ht, <- Hh. apply Hclimate.
Qed.
(** ** C9: AC boost requests *)

Lemma dict_set_same name r items :
  lookup name items = Some r -> dict_set name r items = items.
Proof.
  induction items as [|[k w] rest IH]; simpl; [discriminate|].
  destruct (String.eqb k name); [intros [= ->]; reflexivity|].
  intros H. rewrite IH by exact H. reflexivity.
Qed.

(** C9, as amended.  While [heat_on] or [timed_heat_active] is set, a request
    for AC boost changes nothing in the room: it only logs the refusal, and
    the dashboard's rooms stay as they were.  With no heating and no AC
    boost, the request sets [ac_boost_on] with a timer of 30 seconds.  With
    AC boost already on, the request changes nothing: the timer keeps
    running from where it is. *)
Theorem C9_ac_boost_request name r :
  (heat_on r || timed_heat_active r = true ->
   activate_ac_boost_room name r =
     (r, ["Cannot activate AC Boost in " +++ name +++ " while heating is active."]) /\
   forall self,
     current_room self = Some name ->
     lookup name (room_states self) = Some r ->
     room_states (activate_ac_boost self) = room_states self) /\
  (heat_on r = false -> timed_heat_active r = false -> ac_boost_on r = false ->
   fst (activate_ac_boost_room name r) = set_ac_boost_timer 30 (set_ac_boost_on true r) /\
   ac_boost_on (fst (activate_ac_boost_room name r)) = true /\
   ac_boost_timer (fst (activate_ac_boost_room name r)) = 30) /\
  (heat_on r = false -> timed_heat_active r = false -> ac_boost_on r = true ->
   activate_ac_boost_room name r = (r, [])).
Proof.
  split; [|split].
  - intros Hheat.
    assert (Hbody : activate_ac_boost_room name r =
              (r, ["Cannot activate AC Boost in " +++ name
                   +++ " while heating is active."]))
      by (unfold activate_ac_boost_room; rewrite Hheat; reflexivity).
    split; [exact Hbody|].
    intros self Hcur Hl. unfold activate_ac_boost, on_current_room.
    rewrite Hcur. destruct (String.eqb name EmptyString); [reflexivity|].
    rewrite Hl, Hbody. simpl. apply dict_set_same, Hl.
  - intros Hh Ht Ha. unfold activate_ac_boost_room. rewrite Hh, Ht, Ha. simpl. auto.
  - intros Hh Ht Ha. unfold activate_ac_boost_room. rewrite Hh, Ht, Ha. reflexivity.
Qed.

Lemma C9_ac_boost_request_witness :
  (heat_on (fst (toggle_heat_on_room "Kitchen" _get_default_room_state))
   || timed_heat_active (fst (toggle_heat_on_room "Kitchen" _get_default_room_state))
   = true /\
   activate_ac_boost_room "Kitchen"
     (fst (toggle_heat_on_room "Kitchen" _get_default_room_state)) =
     (fst (toggle_heat_on_room "Kitchen" _get_default_room_state),
      ["Cannot activate AC Boost in Kitchen while heating is active."%string])) /\
  ((heat_on _get_default_room_state = false /\
    timed_heat_active _get_default_room_state = false /\
    ac_boost_on _get_default_room_state = false) /\
   ac_boost_on (fst (activate_ac_boost_room "Kitchen" _get_default_room_state)) = true /\
   ac_boost_timer (fst (activate_ac_boost_room "Kitchen" _get_default_room_state)) = 30) /\
  ((heat_on boosting_room = false /\ timed_heat_active boosting_room = false /\
    ac_boost_on boosting_room = true) /\
   activate_ac_boost_room "Kitchen" boosting_room = (boosting_room, [])).
Proof.
  split; [|split].
  - split; [reflexivity|].
    exact (proj1 (proj1 (C9_ac_boost_request "Kitchen"
                           (fst (toggle_heat_on_room "Kitchen" _get_default_room_state)))
                        eq_refl)).
  - split; [repeat split|].
    exact (proj2 (proj1 (proj2 (C9_ac_boost_request "Kitchen" _get_default_room_state))
                        eq_refl eq_refl eq_refl)).
  - split; [repeat split|].
    exact (proj2 (proj2 (C9_ac_boost_request "Kitchen" boosting_room))
                 eq_refl eq_refl eq_refl).
Defined.

(** C9 as stated fails: one second into an AC boost no heating mode is
    active, yet a new request leaves the timer at 29 seconds. *)
Lemma C9_counterexample :
  heat_on boosting_room = false /\ timed_heat_active boosting_room = false /\
  ac_boost_on (fst (activate_ac_boost_room "Kitchen" boosting_room)) = true /\
  ac_boost_timer (fst (activate_ac_boost_room "Kitchen" boosting_room)) = 29 /\
  ac_boost_timer (fst (activate_ac_boost_room "Kitchen" boosting_room)) <> 30.
Proof. repeat split. discriminate. Qed.

(** ** C10: loading does not validate ranges *)

(** C10.  Loading copies the stored temperature and humidity into the room
    unchanged, whatever their values; a stored value outside its legal range
    therefore gives a room outside [climate_in_range].  The next tick of
    that room (its events being well formed) returns with both values
    clamped back into range. *)
Theorem C10_load_does_not_validate config_data rooms_list persisted name loaded t h :
  default_rooms config_data = Some rooms_list ->
  In name rooms_list ->
  cfg_room_states config_data = Some persisted ->
  lookup_persisted name persisted = Some loaded ->
  p_temp loaded = Some t ->
  p_humidity loaded = Some h ->
  exists r,
    lookup name (room_states (__init__ config_data)) = Some r /\
    temp r = t /\ humidity r = h /\
    (in_range 5.0 35.0 t = false \/ in_range 10.0 90.0 h = false ->
     ~ climate_in_range r) /\
    (forall fromisoformat now viewed nt nh log trace,
       events_well_formed fromisoformat r ->
       exists e',
         simulate_room fromisoformat now name viewed nt nh
                       {| room := r; activity_log := log; fired := trace |}
           = (e', Return tt) /\
         climate_in_range (room e')).
Proof.
  intros Hrooms Hin Hstates Hl Ht Hh.
  exists (final_state loaded).
  rewrite (init_lookup _ _ _ Hrooms Hin). unfold load_room.
  rewrite Hstates. simpl. rewrite Hl.
  split; [reflexivity|].
  assert (Htemp : temp (final_state loaded) = t)
    by (unfold final_state; simpl; rewrite Ht; reflexivity).
  assert (Hhum : humidity (final_state loaded) = h)
    by (unfold final_state; simpl; rewrite Hh; reflexivity).
  split; [exact Htemp|]. split; [exact Hhum|]. split.
  - intros Hout [Hrt Hrh]. rewrite Htemp in Hrt. rewrite Hhum in Hrh.
    destruct Hout as [Ho|Ho]; congruence.
  - intros fromisoformat now viewed nt nh log trace Hwf.
    destruct (simulate_room_well_formed fromisoformat now name viewed nt nh
                {| room := final_state loaded; activity_log := log; fired := trace |} Hwf)
      as (e' & Hrun & _ & _ & Hroom & _).
    exists e'. split; [exact Hrun|]. rewrite Hroom. apply after_events_in_range.
Qed.

Lemma C10_load_does_not_validate_witness :
  (default_rooms overheated_config = Some ["Attic"%string] /\
   In "Attic"%string ["Attic"%string] /\
   cfg_room_states overheated_config = Some [("Attic"%string, overheated_state)] /\
   lookup_persisted "Attic" [("Attic"%string, overheated_state)] = Some overheated_state /\
   p_temp overheated_state = Some 50.0%float /\
   p_humidity overheated_state = Some 5.0%float) /\
  exists r,
    lookup "Attic" (room_states (__init__ overheated_config)) = Some r /\
    temp r = 50.0%float /\ humidity r = 5.0%float /\
    ~ climate_in_range r.
Proof.
  split; [repeat split; left; reflexivity|].
  destruct (C10_load_does_not_validate overheated_config ["Attic"%string]
              [("Attic"%string, overheated_state)] "Attic" overheated_state
              50.0%float 5.0%float eq_refl (or_introl eq_refl) eq_refl eq_refl
              eq_refl eq_refl)
    as (r & Hl & Ht & Hh & Hout & _).
  exists r. repeat split; try assumption.
  apply Hout. left. reflexivity.
Defined.

(** * Further properties of the dashboard *)

(** ** What every tick preserves *)

Section LoopPreservation.

Variable fromisoformat : string -> option parsed_datetime.

(** A property of rooms that firing an event and the closing statements keep
    holds in every room along any run of the simulation loop. *)
Lemma simulation_loop_preserves (P : room_state -> Prop) :
  (forall ev r evs, P r -> P (set_scheduled_events evs (exec_room ev r))) ->
  (forall name viewed nt nh e, P (room e) -> P (room (after_events name viewed nt nh e))) ->
  forall inputs self,
    all_rooms P self ->
    all_rooms P (fst (_simulation_loop fromisoformat inputs self)).
Proof.
  intros Hexec Hafter.
  induction inputs as [|[selected inp] rest IH]; intros self Hall; simpl; [exact Hall|].
  set (self0 := match selected with
                | Some name => on_room_selected name self
                | None => self
                end).
  assert (Hall0 : all_rooms P self0).
  { unfold self0, all_rooms. destruct selected as [name|]; [|exact Hall].
    rewrite on_room_selected_room_states. exact Hall. }
  assert (Hstep : all_rooms P (fst (tick fromisoformat inp self0))).
  { apply tick_preserves; [|exact Hall0].
    intros name e. apply simulate_room_preserves; auto. }
  destruct (tick fromisoformat inp self0) as [self' [u|x]]; simpl in *.
  - apply IH, Hstep.
  - exact Hstep.
Qed.

End LoopPreservation.

(** ** The rolling history *)

Lemma deque_of_list_length {A : Type} n (l : list A) :
  length (deque_of_list n l) = Nat.min (length l) n.
Proof. unfold deque_of_list. rewrite length_skipn. lia. Qed.

Lemma deque_append_length {A : Type} n (dq : list A) x :
  length (deque_append n dq x) = Nat.min (S (length dq)) n.
Proof.
  unfold deque_append. rewrite deque_of_list_length, length_app. simpl.
  rewrite Nat.add_1_r. reflexivity.
Qed.

Lemma exec_room_history ev r : history_of (exec_room ev r) = history_of r.
Proof.
  unfold exec_room. destruct (action ev) as [a|]; [|reflexivity].
  destruct (String.eqb a "start_timed_heat"); [|reflexivity].
  destruct (heat_on r || ac_boost_on r); reflexivity.
Qed.

Lemma timers_history name r :
  history_of (fst (tick_ac_boost name (fst (tick_timed_heat name r)))) = history_of r.
Proof.
  unfold tick_ac_boost, tick_timed_heat. destruct r; simpl.
  repeat match goal with
         | |- context [if ?b then _ else _] => destruct b; simpl
         end; reflexivity.
Qed.

(** The history after the closing statements, from the history before. *)
Lemma after_events_history name viewed nt nh e :
  history_of (room (after_events name viewed nt nh e)) =
  if viewed then
    (deque_append GRAPH_DATA_POINTS (time_data (room e))
                  (simulation_time_elapsed (room e) + SIMULATION_TICK_INTERVAL_SECONDS),
     deque_append GRAPH_DATA_POINTS (temp_data (room e))
                  (temp (room (after_events name viewed nt nh e))),
     deque_append GRAPH_DATA_POINTS (humidity_data (room e))
                  (humidity (room (after_events name viewed nt nh e))),
     simulation_time_elapsed (room e) + SIMULATION_TICK_INTERVAL_SECONDS)
  else history_of (room e).
Proof.
  pose proof (timers_history name (room e)) as Ht.
  unfold after_events. cbn [room].
  revert Ht.
  generalize (fst (tick_ac_boost name (fst (tick_timed_heat name (room e))))).
  intros r2 Ht. unfold history_of in *. injection Ht as <- <- <- <-.
  destruct viewed; reflexivity.
Qed.

Lemma history_of_bounded r r' :
  history_of r' = history_of r ->
  history_bounded r /\ history_parallel r ->
  history_bounded r' /\ history_parallel r'.
Proof.
  unfold history_of, history_bounded, history_parallel.
  intros [= -> -> -> _]. auto.
Qed.

Lemma after_events_bounded name viewed nt nh e :
  history_bounded (room e) /\ history_parallel (room e) ->
  history_bounded (room (after_events name viewed nt nh e)) /\
  history_parallel (room (after_events name viewed nt nh e)).
Proof.
  intros H. pose proof (after_events_history name viewed nt nh e) as Hh.
  destruct viewed.
  - destruct H as [_ [Hp1 Hp2]].
    remember (room (after_events name true nt nh e)) as r' eqn:Hr'. clear Hr'.
    unfold history_of in Hh. injection Hh as Ht Hte Hhu _.
    unfold history_bounded, history_parallel.
    rewrite Ht, Hte, Hhu, !deque_append_length.
    repeat split; lia.
  - eapply history_of_bounded; eauto.
Qed.

(** X1.  Along any run of the simulation loop every room keeps its three
    histories within [GRAPH_DATA_POINTS] entries and of one length, if it
    started so; a tick that raises does not break this either. *)
Theorem X1_history_stays_bounded fromisoformat inputs self :
  all_rooms (fun r => history_bounded r /\ history_parallel r) self ->
  all_rooms (fun r => history_bounded r /\ history_parallel r)
            (fst (_simulation_loop fromisoformat inputs self)).
Proof.
  apply simulation_loop_preserves with (P := fun r => history_bounded r /\ history_parallel r).
  - intros ev r evs H. eapply history_of_bounded; [|exact H].
    unfold history_of. simpl. apply exec_room_history.
  - intros. now apply after_events_bounded.
Qed.

Lemma X1_history_stays_bounded_witness :
  all_rooms (fun r => history_bounded r /\ history_parallel r) fresh_screen /\
  all_rooms (fun r => history_bounded r /\ history_parallel r)
    (fst (_simulation_loop isoformat_parse
            [(None, quiet_tick); (Some "Kitchen"%string, noisy_tick)] fresh_screen)).
Proof.
  assert (H : all_rooms (fun r => history_bounded r /\ history_parallel r) fresh_screen).
  { unfold all_rooms, history_bounded, history_parallel. simpl.
    repeat constructor. }
  split; [exact H|].
  apply (X1_history_stays_bounded isoformat_parse
           [(None, quiet_tick); (Some "Kitchen"%string, noisy_tick)] fresh_screen H).
Defined.

Section HistoryOfOneTick.

Variable fromisoformat : string -> option parsed_datetime.

Lemma process_scheduled_events_history now name e :
  history_of (room (fst (process_scheduled_events fromisoformat now name e)))
  = history_of (room e).
Proof.
  unfold process_scheduled_events, bind, get_room.
  apply (events_loop_invariant fromisoformat now name
           (fun e0 => history_of (room e0) = history_of (room e))); [|reflexivity].
  intros i e0 H0.
  destruct (event_body_cases fromisoformat now name i e0)
    as [-> | [(ev & _ & _ & _ & ->) | (ev & _ & _ & _ & ->)]]; simpl; auto.
  rewrite <- H0. unfold history_of. simpl. apply exec_room_history.
Qed.

(** X2.  One tick of a room records exactly one point when the room is the
    viewed one and the tick returns: the clock of the time axis advances by
    the tick interval, and that time, the new temperature and the new
    humidity are appended, the oldest point leaving once 60 are held.  A room
    that is not viewed, or whose tick raises, keeps its history and its clock
    as they were. *)
Theorem X2_history_of_one_tick now name viewed nt nh e :
  let out := simulate_room fromisoformat now name viewed nt nh e in
  history_of (room (fst out)) =
  match snd out, viewed with
  | Return _, true =>
      (deque_append GRAPH_DATA_POINTS (time_data (room e))
                    (simulation_time_elapsed (room e) + SIMULATION_TICK_INTERVAL_SECONDS),
       deque_append GRAPH_DATA_POINTS (temp_data (room e)) (temp (room (fst out))),
       deque_append GRAPH_DATA_POINTS (humidity_data (room e)) (humidity (room (fst out))),
       simulation_time_elapsed (room e) + SIMULATION_TICK_INTERVAL_SECONDS)
  | _, _ => history_of (room e)
  end.
Proof.
  cbv zeta. rewrite simulate_room_unfold.
  pose proof (process_scheduled_events_history now name e) as Hev.
  destruct (process_scheduled_events fromisoformat now name e) as [e1 [u|x]];
    cbn [fst snd] in *.
  - rewrite after_events_history. destruct viewed; [|exact Hev].
    remember (room (after_events name true nt nh e1)) as r' eqn:Hr'. clear Hr'.
    unfold history_of in Hev. injection Hev as -> -> -> ->. reflexivity.
  - destruct viewed; exact Hev.
Qed.

End HistoryOfOneTick.

(** ** What a tick never touches *)

Lemma only_marked_refl evs : only_marked evs evs.
Proof. induction evs; constructor; auto. Qed.

Lemma only_marked_set evs0 : forall evs i ev,
  only_marked evs0 evs ->
  nth_error evs i = Some ev ->
  only_marked evs0 (list_set evs i (set_triggered ev)).
Proof.
  induction evs0 as [|a evs0 IH]; intros evs i ev H Hn; inversion H; subst.
  - destruct i; discriminate.
  - destruct i as [|i]; simpl in *.
    + injection Hn as ->. constructor; [|assumption].
      right. match goal with Ha : ev = a \/ ev = set_triggered a |- _ =>
               destruct Ha as [->| ->]; reflexivity end.
    + constructor; [assumption|]. eapply IH; eauto.
Qed.

Lemma tick_timers_events name r :
  scheduled_events (fst (tick_ac_boost name (fst (tick_timed_heat name r))))
  = scheduled_events r.
Proof. rewrite tick_ac_boost_events, tick_timed_heat_events. reflexivity. Qed.

Section TickShape.

Variable fromisoformat : string -> option parsed_datetime.

Lemma simulate_room_only_marked now name viewed nt nh e :
  only_marked (scheduled_events (room e))
    (scheduled_events (room (fst (simulate_room fromisoformat now name viewed nt nh e)))).
Proof.
  rewrite simulate_room_unfold.
  assert (Hloop : only_marked (scheduled_events (room e))
            (scheduled_events
               (room (fst (process_scheduled_events fromisoformat now name e))))).
  { unfold process_scheduled_events, bind, get_room.
    apply (events_loop_invariant fromisoformat now name
             (fun e0 => only_marked (scheduled_events (room e))
                                    (scheduled_events (room e0))));
      [|apply only_marked_refl].
    intros i e0 H0.
    destruct (event_body_cases fromisoformat now name i e0)
      as [-> | [(ev & Hn & _ & _ & ->) | (ev & _ & _ & _ & ->)]]; simpl; auto.
    apply only_marked_set; assumption. }
  destruct (process_scheduled_events fromisoformat now name e) as [e1 [u|x]];
    cbn [fst] in *; [|exact Hloop].
  rewrite after_events_events. exact Hloop.
Qed.

Lemma rooms_loop_shape inp current items :
  forall log trace,
    Forall2 (fun item item' =>
               fst item' = fst item /\
               only_marked (scheduled_events (snd item)) (scheduled_events (snd item')))
            items
            (fst (fst (fst (rooms_loop fromisoformat inp current items log trace)))).
Proof.
  induction items as [|[name r] rest IH]; intros log trace; simpl; [constructor|].
  pose proof (simulate_room_only_marked (tick_now inp) name (is_current current name)
                (noise_temp inp) (noise_humidity inp)
                {| room := r; activity_log := log; fired := trace |}) as Hroom.
  destruct (simulate_room fromisoformat (tick_now inp) name (is_current current name)
              (noise_temp inp) (noise_humidity inp)
              {| room := r; activity_log := log; fired := trace |}) as [e [u|x]];
    cbn [fst room] in Hroom.
  - specialize (IH (activity_log e) (fired e)).
    destruct (rooms_loop fromisoformat inp current rest (activity_log e) (fired e))
      as [[[rest' log'] trace'] res]. simpl in *. constructor; auto.
  - simpl. constructor; [auto|].
    clear. induction rest as [|[n0 r0] rest IH]; constructor; auto.
    split; [reflexivity|apply only_marked_refl].
Qed.

Lemma tick_keeps_shape inp self :
  rooms (fst (tick fromisoformat inp self)) = rooms self /\
  current_room (fst (tick fromisoformat inp self)) = current_room self /\
  map fst (room_states (fst (tick fromisoformat inp self))) = map fst (room_states self) /\
  Forall2 (fun item item' =>
             fst item' = fst item /\
             only_marked (scheduled_events (snd item)) (scheduled_events (snd item')))
          (room_states self) (room_states (fst (tick fromisoformat inp self))).
Proof.
  pose proof (rooms_loop_shape inp (current_room self) (room_states self)
                (activity_log_messages self) (executed self)) as H.
  unfold tick.
  destruct (rooms_loop fromisoformat inp (current_room self) (room_states self)
              (activity_log_messages self) (executed self))
    as [[[states log] trace] res]. cbn [fst] in *. simpl.
  repeat split; auto.
  clear -H. induction H as [|a b l l' [Hab _] _ IH]; simpl; [reflexivity|].
  rewrite Hab, IH. reflexivity.
Qed.

(** X3.  A tick, whether it returns or raises, adds no room, drops none and
    changes neither their order nor the viewed room; in every room the list
    of scheduled events keeps its length and order, each event being as it
    was or the same event marked triggered. *)
Theorem X3_tick_keeps_rooms_and_events inp self :
  rooms (fst (tick fromisoformat inp self)) = rooms self /\
  current_room (fst (tick fromisoformat inp self)) = current_room self /\
  map fst (room_states (fst (tick fromisoformat inp self))) = map fst (room_states self) /\
  Forall2 (fun item item' =>
             fst item' = fst item /\
             only_marked (scheduled_events (snd item)) (scheduled_events (snd item')))
          (room_states self) (room_states (fst (tick fromisoformat inp self))).
Proof. apply tick_keeps_shape. Qed.

End TickShape.

(** ** The AC boost countdown *)

Lemma closing_ac_fields viewed nt nh r :
  ac_boost_on (record_history viewed (apply_climate viewed nt nh r)) = ac_boost_on r /\
  ac_boost_timer (record_history viewed (apply_climate viewed nt nh r)) = ac_boost_timer r /\
  heat_on (record_history viewed (apply_climate viewed nt nh r)) = heat_on r /\
  timed_heat_active (record_history viewed (apply_climate viewed nt nh r))
    = timed_heat_active r.
Proof. destruct viewed; repeat split. Qed.

Lemma tick_timed_heat_idle name r :
  timed_heat_active r = false -> fst (tick_timed_heat name r) = r.
Proof. intros H. unfold tick_timed_heat. rewrite H. reflexivity. Qed.

Lemma tick_ac_boost_running name r :
  ac_boost_on r = true -> heat_on r = false -> timed_heat_active r = false ->
  heat_on (fst (tick_ac_boost name r)) = false /\
  timed_heat_active (fst (tick_ac_boost name r)) = false /\
  if ac_boost_timer r - 1 <=? 0
  then ac_boost_on (fst (tick_ac_boost name r)) = false /\
       ac_boost_timer (fst (tick_ac_boost name r)) = 0
  else ac_boost_on (fst (tick_ac_boost name r)) = true /\
       ac_boost_timer (fst (tick_ac_boost name r)) = ac_boost_timer r - 1.
Proof.
  intros Ha Hh Ht. unfold tick_ac_boost, SIMULATION_TICK_INTERVAL_SECONDS.
  rewrite Ha, Hh. destruct r; simpl in *.
  destruct (ac_boost_timer0 - 1 <=? 0); simpl; auto.
Qed.

Section BoostCountdown.

Variable fromisoformat : string -> option parsed_datetime.
Variable name : string.

Lemma ac_boost_tick now viewed nt nh e :
  events_well_formed fromisoformat (room e) ->
  ac_boost_on (room e) = true ->
  heat_on (room e) = false ->
  timed_heat_active (room e) = false ->
  exists e',
    simulate_room fromisoformat now name viewed nt nh e = (e', Return tt) /\
    events_well_formed fromisoformat (room e') /\
    heat_on (room e') = false /\ timed_heat_active (room e') = false /\
    if ac_boost_timer (room e) - 1 <=? 0
    then ac_boost_on (room e') = false /\ ac_boost_timer (room e') = 0
    else ac_boost_on (room e') = true /\
         ac_boost_timer (room e') = ac_boost_timer (room e) - 1.
Proof.
  intros Hwf Ha Hh Ht.
  destruct (simulate_room_well_formed fromisoformat now name viewed nt nh e Hwf)
    as (e' & Hrun & _ & Hev & _ & Hkeep).
  exists e'. split; [exact Hrun|].
  split; [unfold events_well_formed; rewrite Hev; apply mark_due_well_formed, Hwf|].
  rewrite Hkeep by (rewrite Ha; apply orb_true_r). clear Hkeep Hrun Hev.
  unfold after_events. cbn [room].
  set (r0 := set_scheduled_events
               (mark_due fromisoformat now (scheduled_events (room e))) (room e)).
  assert (Ha0 : ac_boost_on r0 = true) by exact Ha.
  assert (Hh0 : heat_on r0 = false) by exact Hh.
  assert (Ht0 : timed_heat_active r0 = false) by exact Ht.
  assert (Hr0 : ac_boost_timer r0 = ac_boost_timer (room e)) by reflexivity.
  rewrite <- Hr0. clearbody r0.
  rewrite (tick_timed_heat_idle name r0 Ht0).
  destruct (closing_ac_fields viewed nt nh (fst (tick_ac_boost name r0)))
    as (-> & -> & -> & ->).
  pose proof (tick_ac_boost_running name r0 Ha0 Hh0 Ht0) as (H1 & H2 & H3).
  auto.
Qed.

Lemma ac_boost_countdown inputs :
  forall e,
    events_well_formed fromisoformat (room e) ->
    ac_boost_on (room e) = true ->
    heat_on (room e) = false ->
    timed_heat_active (room e) = false ->
    1 <= ac_boost_timer (room e) ->
    exists e',
      room_ticks fromisoformat name inputs e = (e', Return tt) /\
      (Z.of_nat (length inputs) <= ac_boost_timer (room e) ->
       heat_on (room e') = false /\ timed_heat_active (room e') = false) /\
      (Z.of_nat (length inputs) < ac_boost_timer (room e) ->
       ac_boost_on (room e') = true /\
       ac_boost_timer (room e') =
         ac_boost_timer (room e)
         - Z.of_nat (length inputs) * SIMULATION_TICK_INTERVAL_SECONDS) /\
      (Z.of_nat (length inputs) = ac_boost_timer (room e) ->
       ac_boost_on (room e') = false /\ ac_boost_timer (room e') = 0).
Proof.
  unfold SIMULATION_TICK_INTERVAL_SECONDS.
  induction inputs as [|[inp viewed] rest IH]; intros e Hwf Ha Hh Ht Hrem.
  - exists e. simpl. split; [reflexivity|]. repeat split; auto; lia.
  - destruct (ac_boost_tick (tick_now inp) viewed (noise_temp inp) (noise_humidity inp)
                e Hwf Ha Hh Ht) as (e1 & Hrun & Hwf1 & Hh1 & Ht1 & Hstep).
    cbn [room_ticks]. unfold bind. rewrite Hrun.
    cbn [length]. rewrite Nat2Z.inj_succ.
    destruct (Z.leb_spec (ac_boost_timer (room e) - 1) 0) as [Hle|Hgt].
    + destruct Hstep as (Ha1 & Hr1).
      destruct (room_ticks_returns fromisoformat name rest e1 Hwf1) as (e' & Hrest & _).
      exists e'. split; [exact Hrest|].
      assert (Hnil : Z.succ (Z.of_nat (length rest)) <= ac_boost_timer (room e) ->
                     rest = []).
      { intros H. destruct rest; [reflexivity|simpl in H; lia]. }
      split; [|split].
      * intros H. rewrite (Hnil H) in Hrest. simpl in Hrest.
        injection Hrest as <-. auto.
      * intros H. lia.
      * intros H. rewrite (Hnil ltac:(lia)) in Hrest. simpl in Hrest.
        injection Hrest as <-. auto.
    + destruct Hstep as (Ha1 & Hr1).
      destruct (IH e1 Hwf1 Ha1 Hh1 Ht1) as (e' & Hrest & Hheat & Hlt & Heq); [lia|].
      exists e'. split; [exact Hrest|]. rewrite Hr1 in Hheat, Hlt, Heq.
      split; [|split].
      * intros H. apply Hheat. lia.
      * intros H. destruct Hlt as (? & ->); [lia|]. split; [auto|lia].
      * intros H. apply Heq. lia.
Qed.

End BoostCountdown.

(** X4.  In a room with no active mode a request for AC boost starts a
    countdown of 30 seconds.  The ticks that follow return (the events being
    well formed); after [n < 30] of them the boost is still on with [30 - n]
    seconds left, after exactly 30 it is off with the timer at 0, and neither
    heating flag is set at any point up to then: events falling due during
    the boost are skipped. *)
Theorem X4_ac_boost_countdown fromisoformat name r log trace inputs :
  no_mode_active r ->
  events_well_formed fromisoformat r ->
  let boosting := fst (activate_ac_boost_room name r) in
  (ac_boost_on boosting = true /\ ac_boost_timer boosting = 30) /\
  exists e',
    room_ticks fromisoformat name inputs
               {| room := boosting; activity_log := log; fired := trace |}
      = (e', Return tt) /\
    (Z.of_nat (length inputs) <= 30 ->
     heat_on (room e') = false /\ timed_heat_active (room e') = false) /\
    (Z.of_nat (length inputs) < 30 ->
     ac_boost_on (room e') = true /\
     ac_boost_timer (room e') =
       30 - Z.of_nat (length inputs) * SIMULATION_TICK_INTERVAL_SECONDS) /\
    (Z.of_nat (length inputs) = 30 ->
     ac_boost_on (room e') = false /\ ac_boost_timer (room e') = 0).
Proof.
  intros (Hh & Ha & Ht) Hwf boosting.
  assert (Hb : boosting = set_ac_boost_timer 30 (set_ac_boost_on true r)).
  { unfold boosting, activate_ac_boost_room. rewrite Hh, Ht, Ha. reflexivity. }
  rewrite Hb. split; [simpl; auto|].
  apply (ac_boost_countdown fromisoformat name inputs
           {| room := set_ac_boost_timer 30 (set_ac_boost_on true r);
              activity_log := log; fired := trace |}); simpl; auto. lia.
Qed.

Lemma X4_ac_boost_countdown_witness :
  no_mode_active _get_default_room_state /\
  events_well_formed isoformat_parse _get_default_room_state /\
  exists e',
    room_ticks isoformat_parse "Kitchen" (repeat (quiet_tick, true) 30)
               {| room := fst (activate_ac_boost_room "Kitchen" _get_default_room_state);
                  activity_log := []; fired := [] |}
      = (e', Return tt) /\
    ac_boost_on (room e') = false /\ ac_boost_timer (room e') = 0.
Proof.
  assert (H1 : no_mode_active _get_default_room_state) by (repeat split).
  assert (H2 : events_well_formed isoformat_parse _get_default_room_state)
    by constructor.
  split; [exact H1|]. split; [exact H2|].
  destruct (X4_ac_boost_countdown isoformat_parse "Kitchen"
              _get_default_room_state [] [] (repeat (quiet_tick, true) 30) H1 H2)
    as (_ & e' & Hrun & _ & _ & Hend).
  exists e'. split; [exact Hrun|]. apply Hend. reflexivity.
Defined.

(** ** What one tick settles *)

Lemma timers_settle name r :
  timers_settled (fst (tick_ac_boost name (fst (tick_timed_heat name r)))).
Proof.
  unfold timers_settled, tick_ac_boost, tick_timed_heat,
    SIMULATION_TICK_INTERVAL_SECONDS.
  destruct r; simpl.
  repeat match goal with
         | b : bool |- _ => destruct b
         end; simpl;
  repeat match goal with
         | |- context [?a <=? 0] => destruct (Z.leb_spec a 0); simpl
         end;
  repeat split; intros; try discriminate; try reflexivity; try lia.
Qed.

(** X5.  Whatever state a room is in, also one loaded from a damaged file, a
    tick that returns leaves it settled: timed heat, if active, has
    [heat_on] set and time left; AC boost, if on, has time left; and
    [heat_on] beside AC boost only remains where timed heat is active. *)
Theorem X5_tick_settles_timers fromisoformat now name viewed nt nh e :
  snd (simulate_room fromisoformat now name viewed nt nh e) = Return tt ->
  timers_settled (room (fst (simulate_room fromisoformat now name viewed nt nh e))).
Proof.
  rewrite simulate_room_unfold.
  destruct (process_scheduled_events fromisoformat now name e) as [e1 [u|x]];
    cbn [fst snd]; [intros _|discriminate].
  pose proof (timers_settle name (room e1)) as Hs.
  unfold after_events. cbn [room].
  revert Hs. generalize (fst (tick_ac_boost name (fst (tick_timed_heat name (room e1))))).
  intros r2 Hs. unfold timers_settled in *.
  destruct (closing_ac_fields viewed nt nh r2) as (-> & -> & -> & ->).
  destruct (closing_mode_fields viewed nt nh r2) as (_ & _ & _ & ->).
  exact Hs.
Qed.

Lemma X5_tick_settles_timers_witness :
  snd (simulate_room isoformat_parse midnight "Attic" false 0.0 0.0
         {| room := damaged_room; activity_log := []; fired := [] |}) = Return tt /\
  timers_settled
    (room (fst (simulate_room isoformat_parse midnight "Attic" false 0.0 0.0
                  {| room := damaged_room; activity_log := []; fired := [] |}))).
Proof.
  assert (H : snd (simulate_room isoformat_parse midnight "Attic" false 0.0 0.0
                     {| room := damaged_room; activity_log := []; fired := [] |})
              = Return tt) by (vm_compute; reflexivity).
  split; [exact H|].
  apply (X5_tick_settles_timers isoformat_parse midnight "Attic" false 0.0%float
           0.0%float {| room := damaged_room; activity_log := []; fired := [] |} H).
Defined.

(** ** A scheduled event that falls due *)

Lemma fold_exec_at_conflict evs l : forall r,
  heat_on r || ac_boost_on r = true -> fold_left (exec_at evs) l r = r.
Proof.
  induction l as [|i l IH]; intros r Hc; simpl; [reflexivity|].
  assert (Hsame : exec_at evs r i = r).
  { unfold exec_at, exec_room. destruct (nth_error evs i) as [ev|]; [|reflexivity].
    destruct (action ev) as [a|]; [|reflexivity].
    destruct (String.eqb a "start_timed_heat"); [|reflexivity].
    rewrite Hc. reflexivity. }
  rewrite Hsame. apply IH, Hc.
Qed.

(** The room after the events when the newest due event starts timed heat. *)
Lemma newest_due_event_starts fromisoformat now evs older i ev r :
  no_mode_active r ->
  due_indices fromisoformat now evs = older ++ [i] ->
  nth_error evs i = Some ev ->
  action ev = Some "start_timed_heat"%string ->
  fold_left (exec_at evs) (rev (due_indices fromisoformat now evs)) r =
  set_heat_on true
    (set_timed_heat_remaining_seconds (duration_of ev * 60)
       (set_timed_heat_active true r)).
Proof.
  intros (Hh & Ha & Ht) Hdue Hn Hact.
  rewrite Hdue, rev_app_distr. cbn [rev app fold_left].
  rewrite (exec_at_nth _ _ _ _ Hn). unfold exec_room. rewrite Hact.
  cbn [String.eqb Ascii.eqb Bool.eqb andb]. rewrite Hh, Ha. cbn [orb].
  apply fold_exec_at_conflict. reflexivity.
Qed.

Section DueEvent.

Variable fromisoformat : string -> option parsed_datetime.

(** X6.  In a room with no active mode whose events are well formed, a tick
    at which some events are due, the last inserted of them a
    [start_timed_heat] event of [d] minutes, returns with that event marked
    triggered and, for [d >= 1], timed heat running with [d * 60 - 1]
    seconds left: the event starts the timer and the same tick takes the
    first second off it. *)
Theorem X6_due_event_starts_timed_heat now name viewed nt nh e older i ev :
  no_mode_active (room e) ->
  events_well_formed fromisoformat (room e) ->
  due_indices fromisoformat now (scheduled_events (room e)) = older ++ [i] ->
  nth_error (scheduled_events (room e)) i = Some ev ->
  action ev = Some "start_timed_heat"%string ->
  1 <= duration_of ev ->
  exists e',
    simulate_room fromisoformat now name viewed nt nh e = (e', Return tt) /\
    timed_heat_active (room e') = true /\ heat_on (room e') = true /\
    ac_boost_on (room e') = false /\
    timed_heat_remaining_seconds (room e') = duration_of ev * 60 - 1 /\
    nth_error (scheduled_events (room e')) i = Some (set_triggered ev).
Proof.
  intros Hidle Hwf Hdue Hn Hact Hd.
  destruct (simulate_room_well_formed fromisoformat now name viewed nt nh e Hwf)
    as (e' & Hrun & _ & Hev & Hroom & _).
  exists e'. split; [exact Hrun|].
  assert (Hmarked : nth_error (scheduled_events (room e')) i = Some (set_triggered ev)).
  { rewrite Hev. unfold mark_due. rewrite nth_error_map, Hn. simpl.
    assert (Hin : In i (due_indices fromisoformat now (scheduled_events (room e))))
      by (rewrite Hdue; apply in_app_iff; right; left; reflexivity).
    unfold due_indices in Hin. apply filter_In in Hin. destruct Hin as [_ Hin].
    unfold due_at in Hin. rewrite Hn in Hin. rewrite Hin. reflexivity. }
  enough (Hflags : timed_heat_active (room e') = true /\ heat_on (room e') = true /\
                   ac_boost_on (room e') = false /\
                   timed_heat_remaining_seconds (room e') = duration_of ev * 60 - 1)
    by (destruct Hflags as (? & ? & ? & ?); repeat split; assumption).
  clear Hmarked. rewrite Hroom. clear Hroom Hrun Hev.
  rewrite (newest_due_event_starts fromisoformat now _ older i ev (room e)
             Hidle Hdue Hn Hact).
  destruct Hidle as (Hh & Ha & Ht).
  unfold after_events. cbn [room].
  set (r0 := set_scheduled_events _ _).
  assert (Ht0 : timed_heat_active r0 = true) by reflexivity.
  assert (Ha0 : ac_boost_on r0 = false) by exact Ha.
  assert (Hr0 : timed_heat_remaining_seconds r0 = duration_of ev * 60) by reflexivity.
  clearbody r0.
  destruct (closing_mode_fields viewed nt nh
              (fst (tick_ac_boost name (fst (tick_timed_heat name r0)))))
    as (-> & -> & -> & ->).
  pose proof (tick_timed_heat_running name r0 Ht0) as Hstep.
  rewrite Hr0, Ha0 in Hstep.
  destruct (Z.leb_spec (duration_of ev * 60 - 1) 0) as [Hle|Hgt]; [lia|].
  destruct Hstep as (H1 & H2 & H3 & H4).
  rewrite (tick_ac_boost_idle name _ H4). repeat split; assumption.
Qed.


End DueEvent.

Lemma X6_due_event_starts_timed_heat_witness :
  (no_mode_active (room kitchen_env) /\
   events_well_formed isoformat_parse (room kitchen_env) /\
   due_indices isoformat_parse midnight (scheduled_events (room kitchen_env))
     = [0%nat] ++ [1%nat] /\
   nth_error (scheduled_events (room kitchen_env)) 1 = Some seven_minute_event /\
   action seven_minute_event = Some "start_timed_heat"%string /\
   1 <= duration_of seven_minute_event) /\
  exists e',
    simulate_room isoformat_parse midnight "Kitchen" false 0.0 0.0 kitchen_env
      = (e', Return tt) /\
    timed_heat_active (room e') = true /\ heat_on (room e') = true /\
    ac_boost_on (room e') = false /\
    timed_heat_remaining_seconds (room e') = duration_of seven_minute_event * 60 - 1 /\
    nth_error (scheduled_events (room e')) 1 = Some (set_triggered seven_minute_event).
Proof.
  assert (H1 : no_mode_active (room kitchen_env)) by (repeat split).
  assert (H2 : events_well_formed isoformat_parse (room kitchen_env))
    by (unfold events_well_formed; simpl; repeat constructor).
  assert (H3 : due_indices isoformat_parse midnight (scheduled_events (room kitchen_env))
               = [0%nat] ++ [1%nat]) by (vm_compute; reflexivity).
  assert (H4 : nth_error (scheduled_events (room kitchen_env)) 1
               = Some seven_minute_event) by (vm_compute; reflexivity).
  assert (H5 : action seven_minute_event = Some "start_timed_heat"%string)
    by reflexivity.
  assert (H6 : 1 <= duration_of seven_minute_event) by (vm_compute; discriminate).
  split; [repeat split; assumption|].
  apply (X6_due_event_starts_timed_heat isoformat_parse midnight "Kitchen" false
           0.0%float 0.0%float kitchen_env [0%nat] 1%nat seven_minute_event
           H1 H2 H3 H4 H5 H6).
Defined.


(** ** Control requests *)

Lemma dict_set_keys name v items r :
  lookup name items = Some r -> map fst (dict_set name v items) = map fst items.
Proof.
  induction items as [|[k w] rest IH]; simpl; [discriminate|].
  destruct (String.eqb k name); [reflexivity|].
  intros H. simpl. rewrite IH by exact H. reflexivity.
Qed.

(** X8.  A control request (heat on, heat off, AC boost, timed heat,
    scheduling) acts on the viewed room only: every other room keeps its
    state, and the room list, the order of the rooms and the viewed room stay
    as they were. *)
Theorem X8_requests_touch_one_room body self other :
  current_room self <> Some other ->
  lookup other (room_states (on_current_room body self))
    = lookup other (room_states self) /\
  map fst (room_states (on_current_room body self)) = map fst (room_states self) /\
  rooms (on_current_room body self) = rooms self /\
  current_room (on_current_room body self) = current_room self.
Proof.
  intros Hother. unfold on_current_room.
  destruct (current_room self) as [name|] eqn:Hc; [|auto].
  destruct (String.eqb name EmptyString); [auto|].
  destruct (lookup name (room_states self)) as [r|] eqn:Hl; [|auto].
  destruct (body name r) as [r' msgs]. simpl.
  repeat split; auto.
  - rewrite lookup_dict_set.
    destruct (String.eqb_spec name other) as [->|_]; [congruence|reflexivity].
  - eapply dict_set_keys; eauto.
Qed.

Lemma X8_requests_touch_one_room_witness :
  current_room fresh_screen <> Some "Kitchen"%string /\
  lookup "Kitchen" (room_states (toggle_timed_heat (Some 5) fresh_screen))
    = lookup "Kitchen" (room_states fresh_screen) /\
  map fst (room_states (toggle_timed_heat (Some 5) fresh_screen))
    = map fst (room_states fresh_screen).
Proof.
  assert (H : current_room fresh_screen <> Some "Kitchen"%string)
    by (vm_compute; discriminate).
  split; [exact H|].
  destruct (X8_requests_touch_one_room (toggle_timed_heat_room (Some 5))
              fresh_screen "Kitchen" H) as (H1 & H2 & _).
  split; [exact H1|exact H2].
Defined.

(** X9.  The buttons and the handlers behind them.  For the four mode
    controls the two agree, whatever the room state: a control that
    [_update_button_states] disables belongs to a handler that would leave
    the room as it is, and a control it enables belongs to a handler that
    acts: Heat ON sets [heat_on], Heat OFF clears it, Boost AC starts the 30
    second boost, and the timed-heat button cancels a running timer or,
    given a duration, starts one.  The Schedule button is different: it is
    disabled exactly when some mode is active, but [schedule_event_prompt]
    tests no mode and appends its untriggered event in every room state, so
    the disabled button is all that keeps an event from being scheduled
    during a mode. *)
Theorem X9_buttons_and_handlers name r duration iso delay hms :
  let b := _update_button_states r in
  match heat_on_btn_state b with
  | DISABLED => fst (toggle_heat_on_room name r) = r
  | NORMAL => heat_on r = false /\ heat_on (fst (toggle_heat_on_room name r)) = true
  end /\
  match heat_off_btn_state b with
  | DISABLED => fst (toggle_heat_off_room name r) = r
  | NORMAL => heat_on r = true /\ heat_on (fst (toggle_heat_off_room name r)) = false
  end /\
  match ac_boost_btn_state b with
  | DISABLED => fst (activate_ac_boost_room name r) = r
  | NORMAL => ac_boost_on r = false /\
              ac_boost_on (fst (activate_ac_boost_room name r)) = true /\
              ac_boost_timer (fst (activate_ac_boost_room name r)) = 30
  end /\
  match timed_heat_btn_state b with
  | DISABLED => fst (toggle_timed_heat_room (Some duration) name r) = r
  | NORMAL =>
      timed_heat_active (fst (toggle_timed_heat_room (Some duration) name r))
        = negb (timed_heat_active r)
  end /\
  match schedule_btn_state b with
  | DISABLED => heat_on r || ac_boost_on r || timed_heat_active r = true
  | NORMAL => heat_on r || ac_boost_on r || timed_heat_active r = false
  end /\
  (exists ev,
     scheduled_events (fst (schedule_event_room iso delay duration hms name r))
     = scheduled_events r ++ [ev] /\
     triggered ev = Some false /\
     start_time_iso ev = Some iso /\
     duration_of ev = duration).
Proof.
  unfold _update_button_states, toggle_heat_on_room, toggle_heat_off_room,
    activate_ac_boost_room, toggle_timed_heat_room, schedule_event_room.
  destruct r as [t h heat ac act timed rem evs td ted hd el].
  destruct heat, ac, timed; simpl; repeat split;
    try reflexivity; eexists; repeat split; reflexivity.
Qed.

(** X10.  Requests undo each other.  From a room with no active mode, Heat
    ON followed by Heat OFF gives back the room exactly; pressing Heat ON a
    second time changes nothing more; and starting timed heat and cancelling
    it leaves no mode active and the timer at 0, with everything else as it
    was. *)
Theorem X10_requests_undo name r duration :
  no_mode_active r ->
  fst (toggle_heat_off_room name (fst (toggle_heat_on_room name r))) = r /\
  fst (toggle_heat_on_room name (fst (toggle_heat_on_room name r)))
    = fst (toggle_heat_on_room name r) /\
  fst (toggle_timed_heat_room None name
         (fst (toggle_timed_heat_room (Some duration) name r)))
    = set_timed_heat_remaining_seconds 0 r.
Proof.
  intros (Hh & Ha & Ht).
  unfold toggle_heat_on_room, toggle_heat_off_room, toggle_timed_heat_room.
  destruct r as [t h heat ac act timed rem evs td ted hd el]. simpl in *. subst.
  repeat split.
Qed.

Lemma X10_requests_undo_witness :
  no_mode_active _get_default_room_state /\
  fst (toggle_heat_off_room "Kitchen"
         (fst (toggle_heat_on_room "Kitchen" _get_default_room_state)))
    = _get_default_room_state /\
  fst (toggle_timed_heat_room None "Kitchen"
         (fst (toggle_timed_heat_room (Some 5) "Kitchen" _get_default_room_state)))
    = _get_default_room_state.
Proof.
  assert (H : no_mode_active _get_default_room_state) by (repeat split).
  split; [exact H|].
  destruct (X10_requests_undo "Kitchen" _get_default_room_state 5 H) as (H1 & _ & H3).
  split; [exact H1|exact H3].
Defined.

(** ** The room list and the dictionary of states *)

Lemma lookup_None_keys name items :
  lookup name items = None <-> ~ In name (map fst items).
Proof.
  induction items as [|[k w] rest IH]; simpl.
  - split; auto.
  - destruct (String.eqb_spec k name) as [->|Hne].
    + split; [discriminate|]. intros H. exfalso. apply H. left. reflexivity.
    + rewrite IH. split.
      * intros H [Hk|Hin]; [congruence|auto].
      * intros H Hin. apply H. right. exact Hin.
Qed.

Lemma dict_set_new_key name v items :
  lookup name items = None -> dict_set name v items = items ++ [(name, v)].
Proof.
  induction items as [|[k w] rest IH]; simpl; [reflexivity|].
  destruct (String.eqb k name); [discriminate|].
  intros H. rewrite IH by exact H. reflexivity.
Qed.

(** Building the dictionary room by room, over names without repetition. *)
Lemma fold_dict_set_map (f : string -> room_state) names :
  forall acc,
    NoDup names ->
    (forall n, In n names -> ~ In n (map fst acc)) ->
    fold_left (fun states n => dict_set n (f n) states) names acc
    = acc ++ map (fun n => (n, f n)) names.
Proof.
  induction names as [|n rest IH]; intros acc Hnd Hfresh; simpl.
  - rewrite app_nil_r. reflexivity.
  - inversion Hnd as [|? ? Hn Hrest]; subst.
    rewrite dict_set_new_key
      by (apply lookup_None_keys, Hfresh; left; reflexivity).
    rewrite IH; [rewrite <- app_assoc; reflexivity|exact Hrest|].
    intros m Hm. rewrite map_app, in_app_iff. simpl.
    intros [Hin|[->|[]]]; [|contradiction].
    apply (Hfresh m); [right; exact Hm|exact Hin].
Qed.

Lemma init_rooms_in_step config_data :
  NoDup (dict_get (default_rooms config_data) DEFAULT_ROOMS_FALLBACK) ->
  rooms_in_step (__init__ config_data).
Proof.
  intros Hnd. unfold rooms_in_step, __init__. simpl.
  set (rooms0 := dict_get (default_rooms config_data) DEFAULT_ROOMS_FALLBACK) in *.
  assert (Hnd' : NoDup match rooms0 with [] => DEFAULT_ROOMS_FALLBACK | _ => rooms0 end).
  { destruct rooms0; [|exact Hnd].
    repeat constructor; simpl; intuition discriminate. }
  assert (Hne : match rooms0 with [] => DEFAULT_ROOMS_FALLBACK | _ => rooms0 end <> []).
  { destruct rooms0; discriminate. }
  revert Hnd' Hne.
  generalize (match rooms0 with [] => DEFAULT_ROOMS_FALLBACK | _ => rooms0 end).
  intros names Hnd' Hne.
  rewrite fold_dict_set_map by (auto; intros n _ []).
  simpl. rewrite map_map. simpl. rewrite map_id. auto.
Qed.

Lemma on_current_room_keys body self :
  map fst (room_states (on_current_room body self)) = map fst (room_states self) /\
  rooms (on_current_room body self) = rooms self.
Proof.
  unfold on_current_room.
  destruct (current_room self) as [name|]; [|auto].
  destruct (String.eqb name EmptyString); [auto|].
  destruct (lookup name (room_states self)) as [r|] eqn:Hl; [|auto].
  destruct (body name r) as [r' msgs]. simpl. split; [|reflexivity].
  eapply dict_set_keys; eauto.
Qed.

Lemma reachable_rooms_in_step fromisoformat self :
  reachable fromisoformat self ->
  rooms_in_step self /\ Forall valid_room_name (rooms self).
Proof.
  induction 1 as [ | inp self _ IH | self _ IH | self _ IH | self _ IH
                   | answer self _ IH | iso delay duration hms self _ IH
                   | name self _ IH | name self _ IH | self _ IH ].
  - split.
    + apply init_rooms_in_step. simpl.
      repeat constructor; simpl; intuition discriminate.
    + unfold valid_room_name. simpl.
      repeat constructor; simpl; try discriminate; lia.
  - destruct (tick_keeps_shape fromisoformat inp self) as (Hr & _ & Hk & _).
    unfold rooms_in_step. rewrite Hr, Hk. exact IH.
  - unfold rooms_in_step, toggle_heat_on.
    destruct (on_current_room_keys toggle_heat_on_room self) as [-> ->]. exact IH.
  - unfold rooms_in_step, toggle_heat_off.
    destruct (on_current_room_keys toggle_heat_off_room self) as [-> ->]. exact IH.
  - unfold rooms_in_step, activate_ac_boost.
    destruct (on_current_room_keys activate_ac_boost_room self) as [-> ->]. exact IH.
  - unfold rooms_in_step, toggle_timed_heat.
    destruct (on_current_room_keys (toggle_timed_heat_room answer) self) as [-> ->].
    exact IH.
  - unfold rooms_in_step, schedule_event_prompt.
    destruct (on_current_room_keys (schedule_event_room iso delay duration hms) self)
      as [-> ->]. exact IH.
  - unfold rooms_in_step, on_room_selected.
    destruct (String.eqb name EmptyString); exact IH.
  - destruct IH as [(Hk & Hnd & Hne) Hvalid]. unfold rooms_in_step.
    destruct (add_new_room_cases name self)
      as [[-> ->]|(Hname & Hlen & Hfresh & -> & ->)]; [repeat split; auto|].
    rewrite dict_set_new_key by (apply lookup_None_keys; rewrite Hk; exact Hfresh).
    rewrite map_app, Hk. simpl. repeat split.
    + apply NoDup_snoc; assumption.
    + intros Habs. apply app_eq_nil in Habs. destruct Habs as [_ Habs]. discriminate.
    + apply Forall_app. split; [exact Hvalid|].
      constructor; [|constructor]. split; [exact Hname|exact Hlen].
  - destruct IH as [(Hk & Hnd & Hne) Hvalid]. split.
    + apply init_rooms_in_step. simpl. exact Hnd.
    + unfold __init__. simpl. destruct (rooms self); [congruence|exact Hvalid].
Qed.

Lemma history_kept_by_requests :
  (forall name r, history_of (fst (toggle_heat_on_room name r)) = history_of r) /\
  (forall name r, history_of (fst (toggle_heat_off_room name r)) = history_of r) /\
  (forall name r, history_of (fst (activate_ac_boost_room name r)) = history_of r) /\
  (forall answer name r,
     history_of (fst (toggle_timed_heat_room answer name r)) = history_of r) /\
  (forall iso delay duration hms name r,
     history_of (fst (schedule_event_room iso delay duration hms name r)) = history_of r).
Proof.
  repeat split; intros;
    unfold toggle_heat_on_room, toggle_heat_off_room, activate_ac_boost_room,
      toggle_timed_heat_room, schedule_event_room;
    repeat match goal with
           | |- context [if ?b then _ else _] => destruct b
           | |- context [match ?a with Some _ => _ | None => _ end] => destruct a
           end; reflexivity.
Qed.

Lemma final_state_bounded loaded : history_bounded (final_state loaded).
Proof.
  unfold history_bounded, final_state. simpl.
  destruct (p_time_data loaded), (p_temp_data loaded), (p_humidity_data loaded);
    rewrite ?deque_of_list_length; simpl; repeat split; lia.
Qed.

Lemma Forall_skipn_keeps {A : Type} (P : A -> Prop) n (l : list A) :
  Forall P l -> Forall P (skipn n l).
Proof.
  revert l. induction n as [|n IH]; intros l H; [exact H|].
  destruct H; simpl; [constructor|auto].
Qed.

Lemma StronglySorted_skipn {A : Type} (R : A -> A -> Prop) n (l : list A) :
  StronglySorted R l -> StronglySorted R (skipn n l).
Proof.
  revert l. induction n as [|n IH]; intros l H; [exact H|].
  destruct H; simpl; [constructor|auto].
Qed.

Lemma StronglySorted_snoc {A : Type} (R : A -> A -> Prop) (l : list A) x :
  StronglySorted R l -> Forall (fun y => R y x) l -> StronglySorted R (l ++ [x]).
Proof.
  induction 1 as [|a l Hl IH Ha]; intros Hx; simpl.
  - repeat constructor.
  - inversion Hx; subst. constructor; [auto|].
    apply Forall_app. split; [exact Ha|]. repeat constructor. assumption.
Qed.

Lemma deque_append_Forall {A : Type} (P : A -> Prop) n (dq : list A) x :
  Forall P dq -> P x -> Forall P (deque_append n dq x).
Proof.
  intros H Hx. unfold deque_append, deque_of_list.
  apply Forall_skipn_keeps, Forall_app. split; [exact H|]. repeat constructor. exact Hx.
Qed.

Lemma history_inv_ext r r' :
  history_of r' = history_of r -> history_inv r -> history_inv r'.
Proof.
  unfold history_of, history_inv, history_bounded, history_parallel, time_axis_ok,
    recorded_in_range.
  intros [= -> -> -> ->]. auto.
Qed.

Lemma after_events_history_inv name viewed nt nh e :
  history_inv (room e) -> history_inv (room (after_events name viewed nt nh e)).
Proof.
  intros H. pose proof (after_events_history name viewed nt nh e) as Hh.
  destruct viewed; [|eapply history_inv_ext; eauto].
  destruct (after_events_in_range name true nt nh e) as [Rt Rh].
  destruct H as (Hb & (Hs & Hle & Hclock) & (Ht & Hhu)).
  split; [apply after_events_bounded, Hb|].
  remember (room (after_events name true nt nh e)) as r' eqn:Hr'. clear Hr'.
  unfold history_of in Hh. injection Hh as Etime Etemp Ehum Eclock.
  unfold time_axis_ok, recorded_in_range.
  rewrite Etime, Etemp, Ehum, Eclock.
  unfold SIMULATION_TICK_INTERVAL_SECONDS.
  repeat split.
  - unfold deque_append, deque_of_list.
    apply StronglySorted_skipn, StronglySorted_snoc; [exact Hs|].
    eapply Forall_impl; [|exact Hle]. cbv beta. intros; lia.
  - apply deque_append_Forall; [|lia].
    eapply Forall_impl; [|exact Hle]. cbv beta. intros; lia.
  - lia.
  - apply deque_append_Forall; assumption.
  - apply deque_append_Forall; assumption.
Qed.

Lemma history_inv_default : history_inv _get_default_room_state.
Proof.
  unfold history_inv, history_bounded, history_parallel, time_axis_ok,
    recorded_in_range. simpl.
  repeat split; try lia; constructor.
Qed.

Lemma reachable_history_inv fromisoformat self :
  reachable fromisoformat self -> all_rooms history_inv self.
Proof.
  pose proof history_inv_default as Hdefault.
  assert (Hkeep : forall r r', history_of r' = history_of r ->
                               history_inv r -> history_inv r').
  { intros r r' Heq Hr. eapply history_inv_ext; eauto. }
  destruct history_kept_by_requests as (K1 & K2 & K3 & K4 & K5).
  induction 1 as [ | inp self _ IH | self _ IH | self _ IH | self _ IH
                   | answer self _ IH | iso delay duration hms self _ IH
                   | name self _ IH | name self _ IH | self _ IH ].
  - apply init_preserves; [exact Hdefault|]. simpl. intros n loaded [].
  - apply tick_preserves; [|exact IH].
    intros name e. apply simulate_room_preserves.
    + intros ev r evs Hr. apply (Hkeep r); [|exact Hr].
      unfold history_of. simpl. apply exec_room_history.
    + intros e0. apply after_events_history_inv.
  - apply on_current_room_preserves; [|exact IH]. intros. eapply Hkeep; eauto.
  - apply on_current_room_preserves; [|exact IH]. intros. eapply Hkeep; eauto.
  - apply on_current_room_preserves; [|exact IH]. intros. eapply Hkeep; eauto.
  - apply on_current_room_preserves; [|exact IH]. intros. eapply Hkeep; eauto.
  - apply on_current_room_preserves; [|exact IH]. intros. eapply Hkeep; eauto.
  - unfold on_room_selected. destruct (String.eqb name EmptyString); exact IH.
  - apply add_new_room_preserves; assumption.
  - apply init_preserves; [exact Hdefault|]. simpl.
    intros n loaded Hin. apply in_map_iff in Hin.
    destruct Hin as ([k r] & [= _ <-] & Hin). simpl.
    unfold all_rooms in IH. rewrite Forall_forall in IH.
    specialize (IH _ Hin). simpl in IH.
    rewrite final_state_serializable.
    replace (cap_history r) with r; [exact IH|].
    destruct IH as [[(B1 & B2 & B3) _] _].
    unfold cap_history. destruct r; simpl in *.
    rewrite !deque_of_list_short by assumption. reflexivity.
Qed.

Lemma reachable_history fromisoformat self :
  reachable fromisoformat self ->
  all_rooms (fun r => history_bounded r /\ history_parallel r) self.
Proof.
  intros H. pose proof (reachable_history_inv fromisoformat self H) as Hh.
  unfold all_rooms in *. eapply Forall_impl; [|exact Hh].
  cbv beta. unfold history_inv. tauto.
Qed.

(** X11.  In every state the dashboard reaches, the room list and the
    dictionary of states name the same rooms in the same order, no room
    occurs twice, there is at least one room, every room name is non-empty
    and at most 20 characters long, and every room's histories hold at most
    60 points and are of one length. *)
Theorem X11_reachable_rooms_in_step fromisoformat self :
  reachable fromisoformat self ->
  rooms_in_step self /\
  Forall valid_room_name (rooms self) /\
  all_rooms (fun r => history_bounded r /\ history_parallel r) self.
Proof.
  intros H. destruct (reachable_rooms_in_step fromisoformat self H) as [H1 H2].
  split; [exact H1|]. split; [exact H2|]. apply (reachable_history fromisoformat), H.
Qed.

Lemma X11_reachable_rooms_in_step_witness :
  reachable isoformat_parse (add_new_room "Attic" timed_heat_screen) /\
  rooms_in_step (add_new_room "Attic" timed_heat_screen) /\
  Forall valid_room_name (rooms (add_new_room "Attic" timed_heat_screen)).
Proof.
  assert (H : reachable isoformat_parse (add_new_room "Attic" timed_heat_screen)).
  { unfold timed_heat_screen.
    apply reach_add_room, reach_tick, reach_timed_heat, reach_fresh. }
  split; [exact H|].
  destruct (X11_reachable_rooms_in_step isoformat_parse _ H) as (H1 & H2 & _).
  split; [exact H1|exact H2].
Defined.

(** ** Saving and restarting *)

Lemma NoDup_keys_lookup items : 
  NoDup (map fst items) ->
  forall n r, In (n, r) items -> lookup n items = Some r.
Proof.
  induction items as [|[k w] rest IH]; intros Hnd n r Hin; [destruct Hin|].
  simpl in *. inversion Hnd as [|? ? Hk Hrest]; subst.
  destruct Hin as [[= -> ->]|Hin].
  - rewrite String.eqb_refl. reflexivity.
  - destruct (String.eqb_spec k n) as [->|_]; [|auto].
    exfalso. apply Hk. apply in_map_iff. exists (n, r). auto.
Qed.

Lemma reload_room_states self :
  rooms_in_step self ->
  all_rooms history_bounded self ->
  rooms (__init__ (_save_state_to_config self)) = rooms self /\
  room_states (__init__ (_save_state_to_config self)) = room_states self /\
  current_room (__init__ (_save_state_to_config self)) = hd_error (rooms self).
Proof.
  intros (Hk & Hnd & Hne) Hb.
  assert (Hload : forall n r, In (n, r) (room_states self) ->
            load_room (dict_get (cfg_room_states (_save_state_to_config self)) []) n = r).
  { intros n r Hin. unfold load_room. simpl. rewrite lookup_persisted_map.
    rewrite (NoDup_keys_lookup (room_states self)) with (r := r);
      [|rewrite Hk; exact Hnd|exact Hin].
    simpl. rewrite final_state_serializable.
    unfold all_rooms in Hb. rewrite Forall_forall in Hb.
    destruct (Hb _ Hin) as (B1 & B2 & B3). simpl in *.
    unfold cap_history. destruct r; simpl in *.
    rewrite !deque_of_list_short by assumption. reflexivity. }
  revert Hload. unfold __init__.
  generalize (dict_get (cfg_room_states (_save_state_to_config self)) []).
  intros persisted Hload. simpl.
  destruct (rooms self) as [|first rest] eqn:Hrooms; [congruence|].
  split; [reflexivity|]. split; [|reflexivity].
  rewrite <- Hrooms in *.
  rewrite fold_dict_set_map by (auto; intros n _ []). simpl.
  rewrite <- Hk, map_map.
  rewrite <- (map_id (room_states self)) at 2.
  apply map_ext_in. intros [n r] Hin. simpl. f_equal. apply Hload, Hin.
Qed.

(** X12.  In every state the dashboard reaches, saving the state and starting
    again from the saved configuration gives back the same room list and,
    for every room, exactly the same state: climate, flags, timers, events
    and histories.  The first room of the list becomes the viewed one. *)
Theorem X12_restart_restores_rooms fromisoformat self :
  reachable fromisoformat self ->
  rooms (__init__ (_save_state_to_config self)) = rooms self /\
  room_states (__init__ (_save_state_to_config self)) = room_states self /\
  current_room (__init__ (_save_state_to_config self)) = hd_error (rooms self).
Proof.
  intros H. apply reload_room_states.
  - apply (reachable_rooms_in_step fromisoformat), H.
  - pose proof (reachable_history fromisoformat self H) as Hh.
    unfold all_rooms in *. eapply Forall_impl; [|exact Hh]. cbv beta. tauto.
Qed.

Lemma X12_restart_restores_rooms_witness :
  reachable isoformat_parse timed_heat_screen /\
  room_states (__init__ (_save_state_to_config timed_heat_screen))
    = room_states timed_heat_screen.
Proof.
  assert (H : reachable isoformat_parse timed_heat_screen).
  { unfold timed_heat_screen. apply reach_tick, reach_timed_heat, reach_fresh. }
  split; [exact H|].
  exact (proj1 (proj2 (X12_restart_restores_rooms isoformat_parse timed_heat_screen H))).
Defined.

(** ** The recorded histories and the graph *)

(** X13.  In every state the dashboard reaches, the recorded times of every
    room ascend strictly, are positive and none is later than the room's
    clock [simulation_time_elapsed], which is never negative. *)
Theorem X13_time_axis_ascends fromisoformat self :
  reachable fromisoformat self -> all_rooms time_axis_ok self.
Proof.
  intros H. pose proof (reachable_history_inv fromisoformat self H) as Hh.
  unfold all_rooms in *. eapply Forall_impl; [|exact Hh].
  cbv beta. unfold history_inv. tauto.
Qed.

Lemma X13_time_axis_ascends_witness :
  reachable isoformat_parse timed_heat_screen /\ all_rooms time_axis_ok timed_heat_screen.
Proof.
  assert (H : reachable isoformat_parse timed_heat_screen).
  { unfold timed_heat_screen. apply reach_tick, reach_timed_heat, reach_fresh. }
  split; [exact H|].
  exact (X13_time_axis_ascends isoformat_parse timed_heat_screen H).
Defined.

(** X14.  In every state the dashboard reaches, every temperature a room has
    recorded lies within 5.0 .. 35.0 and every recorded humidity within
    10.0 .. 90.0: only clamped values enter the histories. *)
Theorem X14_recorded_values_clamped fromisoformat self :
  reachable fromisoformat self -> all_rooms recorded_in_range self.
Proof.
  intros H. pose proof (reachable_history_inv fromisoformat self H) as Hh.
  unfold all_rooms in *. eapply Forall_impl; [|exact Hh].
  cbv beta. unfold history_inv. tauto.
Qed.

Lemma X14_recorded_values_clamped_witness :
  reachable isoformat_parse timed_heat_screen /\
  all_rooms recorded_in_range timed_heat_screen.
Proof.
  assert (H : reachable isoformat_parse timed_heat_screen).
  { unfold timed_heat_screen. apply reach_tick, reach_timed_heat, reach_fresh. }
  split; [exact H|].
  exact (X14_recorded_values_clamped isoformat_parse timed_heat_screen H).
Defined.

Lemma StronglySorted_below_last (l : list Z) d :
  StronglySorted Z.lt l -> Forall (fun t => t <= last l d) l.
Proof.
  induction 1 as [|a l Hl IH Ha]; [constructor|].
  destruct l as [|b l']; [repeat constructor; simpl; lia|].
  change (last (a :: b :: l') d) with (last (b :: l') d).
  constructor; [|exact IH].
  inversion Ha; subst. inversion IH; subst. lia.
Qed.

(** X15.  For a room whose time history holds at most [GRAPH_DATA_POINTS]
    points in ascending order, [_update_graph] sets the time axis from the
    oldest recorded time to one tick past the newest, so that every recorded
    point lies inside it. *)
Theorem X15_time_axis_shows_history r first rest :
  history_bounded r ->
  time_axis_ok r ->
  time_data r = first :: rest ->
  xlim (time_data r)
    = (first, last (time_data r) first + SIMULATION_TICK_INTERVAL_SECONDS) /\
  Forall (fun t => fst (xlim (time_data r)) <= t < snd (xlim (time_data r)))
         (time_data r).
Proof.
  intros (Hb & _ & _) (Hs & _ & _) Heq.
  assert (Hx : xlim (time_data r)
               = (first, last (time_data r) first + SIMULATION_TICK_INTERVAL_SECONDS)).
  { rewrite Heq in *. unfold xlim.
    destruct (length (first :: rest) <? GRAPH_DATA_POINTS)%nat; [reflexivity|].
    replace (length (first :: rest) - GRAPH_DATA_POINTS)%nat with 0%nat by lia.
    reflexivity. }
  split; [exact Hx|]. rewrite Hx. cbn [fst snd].
  pose proof (StronglySorted_below_last (time_data r) first Hs) as Hlast.
  revert Hlast. generalize (last (time_data r) first). intros z Hlast.
  rewrite Heq in *. unfold SIMULATION_TICK_INTERVAL_SECONDS.
  inversion Hs as [|? ? _ Hfirst]; subst. inversion Hlast; subst.
  constructor; [lia|].
  rewrite Forall_forall in *. intros t Ht.
  specialize (Hfirst t Ht). specialize (H2 t Ht). lia.
Qed.

Lemma X15_time_axis_shows_history_witness :
  xlim (time_data three_point_room) = (4, 7).
Proof.
  refine (proj1 (X15_time_axis_shows_history three_point_room 4 [5; 6] _ _ _)).
  - unfold history_bounded, GRAPH_DATA_POINTS; simpl; lia.
  - unfold time_axis_ok; simpl. repeat constructor; lia.
  - reflexivity.
Defined.

Lemma py_min_below (lo x : float) :
  (lo <=? lo)%float = true -> (py_min lo x <=? lo)%float = true.
Proof.
  intros H. unfold py_min. destruct (x <? lo)%float eqn:E; [apply ltb_leb, E|exact H].
Qed.

Lemma py_max_above (hi x : float) :
  (hi <=? hi)%float = true -> (hi <=? py_max hi x)%float = true.
Proof.
  intros H. unfold py_max. destruct (hi <? x)%float eqn:E; [apply ltb_leb, E|exact H].
Qed.

(** X16.  Whatever the recorded values are, the limits [_update_graph] gives
    the temperature axis never start above 10 nor end below 30, and those of
    the humidity axis never start above 20 nor end below 80. *)
Theorem X16_value_axes_keep_their_window (temp_list humidity_list : list float) :
  (fst (temp_ylim temp_list) <=? 10.0)%float = true /\
  (30.0 <=? snd (temp_ylim temp_list))%float = true /\
  (fst (humidity_ylim humidity_list) <=? 20.0)%float = true /\
  (80.0 <=? snd (humidity_ylim humidity_list))%float = true.
Proof.
  unfold temp_ylim, humidity_ylim, ylim. cbn [fst snd].
  repeat split; first [apply py_min_below|apply py_max_above]; reflexivity.
Qed.

(** ** Starting from any configuration *)

(** X17.  Whatever the configuration file holds, the dashboard starts with at
    least one room, views the first room of its list, gives every listed
    room a state (the stored one laid over the defaults, the default state
    where nothing is stored) and cuts every history to at most
    [GRAPH_DATA_POINTS] entries. *)
Theorem X17_start_from_any_config config_data :
  rooms (__init__ config_data) <> [] /\
  current_room (__init__ config_data) = hd_error (rooms (__init__ config_data)) /\
  Forall (fun name =>
            lookup name (room_states (__init__ config_data))
            = Some (match lookup_persisted name (dict_get (cfg_room_states config_data) []) with
                    | Some loaded => final_state loaded
                    | None => _get_default_room_state
                    end))
         (rooms (__init__ config_data)) /\
  all_rooms history_bounded (__init__ config_data).
Proof.
  split; [|split; [|split]].
  - unfold __init__. simpl.
    destruct (dict_get (default_rooms config_data) DEFAULT_ROOMS_FALLBACK); discriminate.
  - unfold __init__. simpl.
    destruct (dict_get (default_rooms config_data) DEFAULT_ROOMS_FALLBACK); reflexivity.
  - unfold __init__. simpl.
    generalize (match dict_get (default_rooms config_data) DEFAULT_ROOMS_FALLBACK with
                | [] => DEFAULT_ROOMS_FALLBACK
                | _ :: _ => dict_get (default_rooms config_data) DEFAULT_ROOMS_FALLBACK
                end).
    intros names. rewrite Forall_forall. intros name Hin.
    rewrite lookup_fold_dict_set, (existsb_eqb_In _ _ Hin). reflexivity.
  - apply init_preserves.
    + unfold history_bounded. simpl. lia.
    + intros n loaded _. apply final_state_bounded.
Qed.

(** ** The room selector *)

Lemma prefix_cons a s1 b s2 :
  String.prefix (String a s1) (String b s2)
  = if ascii_dec a b then String.prefix s1 s2 else false.
Proof. reflexivity. Qed.

Lemma prefix_nil s : String.prefix EmptyString s = true.
Proof. destruct s; reflexivity. Qed.

Lemma split_head_cons c rest :
  split_head (String c rest)
  = if String.prefix " (" (String c rest) then EmptyString
    else String c (split_head rest).
Proof. reflexivity. Qed.

Lemma prefix_paren_append rest suffix :
  suffix = EmptyString \/ (exists s, suffix = String " " s) ->
  String.prefix "(" (rest +++ suffix) = String.prefix "(" rest.
Proof.
  intros Hshape. destruct rest as [|d r].
  - change (EmptyString +++ suffix) with suffix.
    destruct Hshape as [-> | [s ->]]; [reflexivity|].
    rewrite prefix_cons. destruct (ascii_dec "(" " ") as [E|_]; [discriminate E|reflexivity].
  - change (String d r +++ suffix) with (String d (r +++ suffix)).
    rewrite !prefix_cons, !prefix_nil. reflexivity.
Qed.

Lemma split_head_append name suffix :
  suffix = EmptyString \/ (exists rest, suffix = String " " rest) ->
  String.prefix " (" suffix = true \/ suffix = EmptyString ->
  split_head (name +++ suffix) = split_head name.
Proof.
  intros Hshape Hsep. induction name as [|c rest IH].
  - change (EmptyString +++ suffix) with suffix.
    destruct Hsep as [Hp | ->]; [|reflexivity].
    destruct suffix as [|c s]; [reflexivity|].
    rewrite split_head_cons, Hp. reflexivity.
  - change (String c rest +++ suffix) with (String c (rest +++ suffix)).
    rewrite !split_head_cons, IH, !prefix_cons, (prefix_paren_append rest suffix Hshape).
    reflexivity.
Qed.

Lemma display_suffix_shape state :
  (display_suffix state = EmptyString \/
   exists rest, display_suffix state = String " " rest) /\
  (String.prefix " (" (display_suffix state) = true \/
   display_suffix state = EmptyString).
Proof.
  unfold display_suffix.
  destruct (timed_heat_active state || ac_boost_on state).
  - split; [right; eexists; reflexivity|left; reflexivity].
  - destruct (existsb _ _).
    + split; [right; eexists; reflexivity|left; reflexivity].
    + split; [left; reflexivity|right; reflexivity].
Qed.

Lemma split_head_fixed_point (s : string) :
  String.eqb (split_head s) s = negb (contains_separator s).
Proof.
  induction s as [|c rest IH]; [reflexivity|].
  rewrite split_head_cons.
  change (contains_separator (String c rest))
    with (String.prefix " (" (String c rest) || contains_separator rest).
  destruct (String.prefix " (" (String c rest)); [reflexivity|].
  change (String.eqb (String c (split_head rest)) (String c rest))
    with (Ascii.eqb c c && String.eqb (split_head rest) rest).
  rewrite Ascii.eqb_refl. exact IH.
Qed.

(** X18.  The base name [on_room_selected] reads from a display name is the
    room's name cut at its first [" ("], whatever suffix the room's state
    gave it; so it is the room's own name exactly when that name holds no
    [" ("], and a room whose name holds one is never the room the selector
    reads back. *)
Theorem X18_display_name_decoding (room_name : string) (state : room_state) :
  split_head (room_name +++ display_suffix state) = split_head room_name /\
  String.eqb (split_head (room_name +++ display_suffix state)) room_name
  = negb (contains_separator room_name).
Proof.
  destruct (display_suffix_shape state) as [H1 H2].
  rewrite (split_head_append room_name _ H1 H2).
  split; [reflexivity|apply split_head_fixed_point].
Qed.

Lemma prefix_append (a b : string) : String.prefix a (a +++ b) = true.
Proof.
  induction a as [|c a IH]; [destruct b; reflexivity|].
  change (String c a +++ b) with (String c (a +++ b)).
  rewrite prefix_cons. destruct (ascii_dec c c); [exact IH|congruence].
Qed.

(** X19.  When the viewed room is a listed room that has a state,
    [update_room_combobox_display] leaves the dashboard as it is and shows
    one of the display names, one that starts with the viewed room's
    name. *)
Theorem X19_combobox_keeps_viewed_room self room_var viewed state :
  current_room self = Some viewed ->
  viewed <> EmptyString ->
  In viewed (rooms self) ->
  lookup viewed (room_states self) = Some state ->
  fst (update_room_combobox_display self room_var) = self /\
  In (snd (update_room_combobox_display self room_var)) (get_room_display_names self) /\
  String.prefix viewed (snd (update_room_combobox_display self room_var)) = true.
Proof.
  intros Hcur Hne Hin Hstate. unfold update_room_combobox_display.
  rewrite Hcur. destruct (String.eqb_spec viewed EmptyString) as [|_]; [contradiction|].
  destruct (find (String.prefix viewed) (get_room_display_names self))
    as [display_name|] eqn:Hfind.
  - apply find_some in Hfind. destruct Hfind as [H1 H2]. simpl. auto.
  - exfalso.
    assert (Hd : In (viewed +++ display_suffix state) (get_room_display_names self)).
    { unfold get_room_display_names. apply in_flat_map.
      exists viewed. split; [exact Hin|]. rewrite Hstate. left. reflexivity. }
    pose proof (find_none _ _ Hfind _ Hd) as Hp.
    rewrite prefix_append in Hp. discriminate.
Qed.

Lemma X19_combobox_keeps_viewed_room_witness :
  fst (update_room_combobox_display fresh_screen EmptyString) = fresh_screen.
Proof.
  refine (proj1 (X19_combobox_keeps_viewed_room fresh_screen EmptyString
                   "Living Room" _get_default_room_state _ _ _ _)).
  - reflexivity.
  - discriminate.
  - vm_compute. left. reflexivity.
  - vm_compute. reflexivity.
Defined.

(** * The login screen *)

Section Login.

Import LoginScreen.

Variable hash_password : string -> string.

Lemma run_finished actions s :
  login_succeeded s || quit_called s = true -> run hash_password actions s = s.
Proof. intros H. destruct actions; simpl; [reflexivity|]. rewrite H. reflexivity. Qed.

Lemma run_step a rest s :
  login_succeeded s = false -> quit_called s = false ->
  run hash_password (a :: rest) s = run hash_password rest (handle hash_password a s).
Proof. intros H1 H2. simpl. rewrite H1, H2. reflexivity. Qed.

Lemma init_attempts_inv loaded : attempts_inv (init loaded).
Proof.
  unfold attempts_inv, init. destruct (no_hash loaded); simpl;
    unfold MAX_LOGIN_ATTEMPTS; repeat split; lia.
Qed.

Lemma set_new_password_attempts p confirm save_ok s :
  attempts_left (set_new_password hash_password p confirm save_ok s) = attempts_left s /\
  quit_called (set_new_password hash_password p confirm save_ok s) = quit_called s /\
  login_succeeded (set_new_password hash_password p confirm save_ok s) = login_succeeded s.
Proof.
  unfold LoginScreen.set_new_password.
  destruct (String.eqb p EmptyString); [simpl; auto|].
  destruct (len p <? 6)%nat; [simpl; auto|].
  destruct confirm as [c|]; [|simpl; auto].
  destruct (String.eqb p c); [|simpl; auto].
  destruct save_ok; simpl; auto.
Qed.

Lemma attempt_login_attempts_inv p s :
  login_succeeded s = false -> quit_called s = false ->
  attempts_inv s -> attempts_inv (attempt_login hash_password p s).
Proof.
  intros Hl Hq ((H0 & H2) & Hquit & Hboth). unfold attempts_inv.
  rewrite Hq in Hquit. symmetry in Hquit. apply Z.eqb_neq in Hquit.
  unfold LoginScreen.attempt_login.
  destruct (password_hash s) as [stored|]; simpl;
    [|rewrite Hl, Hq; repeat split; lia].
  destruct (String.eqb stored EmptyString); simpl;
    [rewrite Hl, Hq; repeat split; lia|].
  destruct (String.eqb p EmptyString); simpl;
    [rewrite Hl, Hq; repeat split; lia|].
  destruct (verify_password hash_password stored p); simpl;
    [rewrite Hq; repeat split; lia|].
  destruct (0 <? attempts_left s - 1) eqn:E; simpl.
  - apply Z.ltb_lt in E. rewrite Hl, Hq. repeat split; lia.
  - apply Z.ltb_ge in E. rewrite Hl. repeat split; lia.
Qed.

Lemma handle_attempts_inv a s :
  login_succeeded s = false -> quit_called s = false ->
  attempts_inv s -> attempts_inv (handle hash_password a s).
Proof.
  intros Hl Hq H. destruct a as [p|p confirm save_ok]; simpl.
  - now apply attempt_login_attempts_inv.
  - destruct (set_password_mode s); [|now apply attempt_login_attempts_inv].
    unfold attempts_inv.
    destruct (set_new_password_attempts p confirm save_ok s) as (-> & -> & ->).
    exact H.
Qed.

Lemma run_attempts_inv actions : forall s, attempts_inv s -> attempts_inv (run hash_password actions s).
Proof.
  induction actions as [|a rest IH]; intros s H; [exact H|].
  destruct (login_succeeded s) eqn:Hl; [rewrite run_finished; [exact H|rewrite Hl; reflexivity]|].
  destruct (quit_called s) eqn:Hq;
    [rewrite run_finished; [exact H|rewrite Hq; apply orb_true_r]|].
  rewrite run_step by assumption. apply IH, handle_attempts_inv; assumption.
Qed.

(** X20.  Whatever the user does on the login screen, the attempts left stay
    between 0 and [MAX_LOGIN_ATTEMPTS], the application has been told to
    quit exactly when none is left, and it never both quits and reports a
    successful login. *)
Theorem X20_login_attempts_invariant loaded actions :
  0 <= attempts_left (run hash_password actions (init loaded)) <= MAX_LOGIN_ATTEMPTS /\
  quit_called (run hash_password actions (init loaded))
  = (attempts_left (run hash_password actions (init loaded)) =? 0) /\
  login_succeeded (run hash_password actions (init loaded))
  && quit_called (run hash_password actions (init loaded)) = false.
Proof. apply run_attempts_inv, init_attempts_inv. Qed.

Lemma handle_login a s :
  login_succeeded s = false ->
  login_succeeded (handle hash_password a s) = true ->
  entry_of a <> EmptyString /\
  password_hash (handle hash_password a s) = Some (hash_password (entry_of a)).
Proof.
  intros Hl.
  assert (Hattempt : forall p,
            login_succeeded (attempt_login hash_password p s) = true ->
            p <> EmptyString /\
            password_hash (attempt_login hash_password p s) = Some (hash_password p)).
  { intros p. unfold LoginScreen.attempt_login.
    destruct (password_hash s) as [stored|] eqn:Hs; simpl; [|congruence].
    destruct (String.eqb stored EmptyString); simpl; [congruence|].
    destruct (String.eqb_spec p EmptyString) as [|Hp]; simpl; [congruence|].
    unfold verify_password.
    destruct (String.eqb_spec stored (hash_password p)) as [->|_]; simpl.
    - intros _. split; [exact Hp|reflexivity].
    - destruct (0 <? attempts_left s - 1); simpl; congruence. }
  destruct a as [p|p confirm save_ok]; simpl; [apply Hattempt|].
  destruct (set_password_mode s); [|apply Hattempt].
  destruct (set_new_password_attempts p confirm save_ok s) as (_ & _ & ->). congruence.
Qed.

Lemma run_login actions : forall s,
  login_succeeded s = false ->
  login_succeeded (run hash_password actions s) = true ->
  exists a, In a actions /\ entry_of a <> EmptyString /\
            password_hash (run hash_password actions s) = Some (hash_password (entry_of a)).
Proof.
  induction actions as [|a rest IH]; intros s Hl Hrun; [simpl in Hrun; congruence|].
  destruct (quit_called s) eqn:Hq.
  { rewrite run_finished in Hrun by (rewrite Hq; apply orb_true_r). congruence. }
  rewrite run_step in * by assumption.
  destruct (login_succeeded (handle hash_password a s)) eqn:Hl'.
  - rewrite run_finished by (rewrite Hl'; reflexivity).
    destruct (handle_login a s Hl Hl') as [H1 H2].
    exists a. split; [left; reflexivity|]. auto.
  - destruct (IH _ Hl' Hrun) as (b & Hin & Hb).
    exists b. split; [right; exact Hin|exact Hb].
Qed.

(** X21.  The login screen reports success only if one of the entries the
    user submitted was not empty and hashes to the password hash the screen
    holds at that moment. *)
Theorem X21_login_needs_the_password loaded actions :
  login_succeeded (run hash_password actions (init loaded)) = true ->
  exists a, In a actions /\ entry_of a <> EmptyString /\
            password_hash (run hash_password actions (init loaded))
            = Some (hash_password (entry_of a)).
Proof.
  apply run_login. unfold init. destruct (no_hash loaded); reflexivity.
Qed.

Lemma run_lockout h actions : forall s,
  password_hash s = Some h -> h <> EmptyString ->
  set_password_mode s = false ->
  login_succeeded s = false -> quit_called s = false ->
  0 < attempts_left s ->
  Forall (fun a => hash_password (entry_of a) <> h) actions ->
  attempts_left s <= Z.of_nat (length (typed actions)) ->
  quit_called (run hash_password actions s) = true /\
  login_succeeded (run hash_password actions s) = false /\
  password_hash (run hash_password actions s) = Some h.
Proof.
  induction actions as [|a rest IH]; intros s Hs Hh Hmode Hl Hq Hpos Hwrong Hn;
    [simpl in Hn; lia|].
  rewrite run_step by assumption.
  inversion Hwrong as [|? ? Ha Hrest]; subst.
  assert (Hhandle : handle hash_password a s = attempt_login hash_password (entry_of a) s).
  { destruct a; simpl; [reflexivity|]. rewrite Hmode. reflexivity. }
  rewrite Hhandle. unfold typed in Hn. simpl in Hn. fold (typed rest) in Hn.
  unfold LoginScreen.attempt_login. rewrite Hs.
  destruct (String.eqb_spec h EmptyString) as [|_]; [contradiction|].
  destruct (String.eqb (entry_of a) EmptyString); simpl in Hn.
  - apply IH; simpl; auto.
  - unfold verify_password.
    destruct (String.eqb_spec h (hash_password (entry_of a))) as [E|_];
      [symmetry in E; contradiction|].
    destruct (0 <? attempts_left s - 1) eqn:E.
    + apply Z.ltb_lt in E. apply IH; simpl; auto; lia.
    + rewrite run_finished by (simpl; apply orb_true_r). simpl. auto.
Qed.

(** X22.  With a password set, submitting entries of which none hashes to the
    stored hash ends in the application being told to quit, without a
    login and with the stored hash untouched, as soon as
    [MAX_LOGIN_ATTEMPTS] of them were not empty; empty entries cost no
    attempt. *)
Theorem X22_wrong_passwords_lock_out h actions :
  h <> EmptyString ->
  Forall (fun a => hash_password (entry_of a) <> h) actions ->
  MAX_LOGIN_ATTEMPTS <= Z.of_nat (length (typed actions)) ->
  quit_called (run hash_password actions (init (Some h))) = true /\
  login_succeeded (run hash_password actions (init (Some h))) = false /\
  password_hash (run hash_password actions (init (Some h))) = Some h.
Proof.
  intros Hh Hwrong Hn.
  assert (Hinit : init (Some h)
                  = {| password_hash := Some h; saved_hash := Some h;
                       attempts_left := MAX_LOGIN_ATTEMPTS; set_password_mode := false;
                       status_label := EmptyString; login_succeeded := false;
                       quit_called := false |}).
  { unfold init, no_hash.
    destruct (String.eqb_spec h EmptyString) as [|_]; [contradiction|reflexivity]. }
  rewrite Hinit. apply run_lockout; simpl; auto. unfold MAX_LOGIN_ATTEMPTS. lia.
Qed.

Lemma attempt_login_right p s :
  password_hash s = Some (hash_password p) ->
  hash_password p <> EmptyString ->
  p <> EmptyString ->
  login_succeeded (attempt_login hash_password p s) = true.
Proof.
  intros Hs Hhash Hp. unfold LoginScreen.attempt_login. rewrite Hs.
  destruct (String.eqb_spec (hash_password p) EmptyString) as [|_]; [contradiction|].
  destruct (String.eqb_spec p EmptyString) as [|_]; [contradiction|].
  unfold verify_password. rewrite String.eqb_refl. reflexivity.
Qed.

Lemma set_new_password_confirmed p save_ok s :
  (6 <= len p)%nat ->
  password_hash (set_new_password hash_password p (Some p) save_ok s)
  = Some (hash_password p) /\
  (save_ok = true ->
   saved_hash (set_new_password hash_password p (Some p) save_ok s)
   = Some (hash_password p) /\
   set_password_mode (set_new_password hash_password p (Some p) save_ok s) = false).
Proof.
  intros Hlen.
  assert (Hp : String.eqb p EmptyString = false).
  { destruct p; [simpl in Hlen; lia|reflexivity]. }
  assert (Hshort : (len p <? 6)%nat = false) by (apply Nat.ltb_ge; exact Hlen).
  unfold LoginScreen.set_new_password. rewrite Hp, Hshort, String.eqb_refl.
  destruct save_ok; simpl; split; auto. discriminate.
Qed.

(** X23.  On a screen in password-setting mode, setting a password of at
    least six characters and confirming it, then submitting the same
    password with the Return key, logs the user in; this holds whether or
    not the configuration could be saved. *)
Theorem X23_set_password_then_login s p save_ok rest :
  set_password_mode s = true ->
  login_succeeded s = false ->
  quit_called s = false ->
  (6 <= len p)%nat ->
  hash_password p <> EmptyString ->
  login_succeeded
    (run hash_password (click_button p (Some p) save_ok :: press_return p :: rest) s)
  = true.
Proof.
  intros Hmode Hl Hq Hlen Hhash.
  assert (Hp : p <> EmptyString).
  { intros ->. simpl in Hlen. lia. }
  rewrite run_step by assumption.
  assert (Hset : handle hash_password (click_button p (Some p) save_ok) s
                 = set_new_password hash_password p (Some p) save_ok s).
  { simpl. rewrite Hmode. reflexivity. }
  rewrite Hset.
  destruct (set_new_password_attempts p (Some p) save_ok s) as (_ & Hq' & Hl').
  destruct (set_new_password_confirmed p save_ok s Hlen) as [Hs' _].
  rewrite run_step by congruence.
  change (handle hash_password (press_return p)
            (set_new_password hash_password p (Some p) save_ok s))
    with (attempt_login hash_password p
            (set_new_password hash_password p (Some p) save_ok s)).
  pose proof (attempt_login_right p _ Hs' Hhash Hp) as Hin.
  rewrite run_finished by (rewrite Hin; reflexivity). exact Hin.
Qed.

(** X24.  A password set and saved with success is the one a later login
    screen asks for: started from the saved hash, that screen is in login
    mode and accepts the password at the first attempt. *)
Theorem X24_saved_password_opens_next_session s p :
  (6 <= len p)%nat ->
  hash_password p <> EmptyString ->
  set_password_mode
    (init (saved_hash (set_new_password hash_password p (Some p) true s))) = false /\
  login_succeeded
    (attempt_login hash_password p
       (init (saved_hash (set_new_password hash_password p (Some p) true s)))) = true.
Proof.
  intros Hlen Hhash.
  assert (Hp : p <> EmptyString).
  { intros ->. simpl in Hlen. lia. }
  destruct (set_new_password_confirmed p true s Hlen) as [_ Hsaved].
  destruct (Hsaved eq_refl) as [-> _].
  assert (Hinit : init (Some (hash_password p))
                  = {| password_hash := Some (hash_password p);
                       saved_hash := Some (hash_password p);
                       attempts_left := MAX_LOGIN_ATTEMPTS; set_password_mode := false;
                       status_label := EmptyString; login_succeeded := false;
                       quit_called := false |}).
  { unfold init, no_hash.
    destruct (String.eqb_spec (hash_password p) EmptyString) as [|_];
      [contradiction|reflexivity]. }
  rewrite Hinit. split; [reflexivity|].
  apply attempt_login_right; auto.
Qed.

Lemma attempt_login_hash p s :
  password_hash (attempt_login hash_password p s) = password_hash s.
Proof.
  unfold LoginScreen.attempt_login.
  destruct (password_hash s) as [stored|] eqn:Hs; simpl;
    [|first [exact Hs|reflexivity]].
  destruct (String.eqb stored EmptyString); simpl; [first [exact Hs|reflexivity]|].
  destruct (String.eqb p EmptyString); simpl; [first [exact Hs|reflexivity]|].
  destruct (verify_password hash_password stored p); simpl;
    [first [exact Hs|reflexivity]|].
  destruct (0 <? attempts_left s - 1); simpl; first [exact Hs|reflexivity].
Qed.

(** X25.  The password hash the screen holds changes only when the button
    is pressed in password-setting mode with an entry of at least six
    characters that the confirmation dialog repeats; it is then the hash of
    that entry.  No login attempt, empty or short entry, mismatch or cancelled
    dialog changes it. *)
Theorem X25_hash_changes_only_when_confirmed a s :
  password_hash (handle hash_password a s) <> password_hash s ->
  set_password_mode s = true /\
  exists p save_ok,
    a = click_button p (Some p) save_ok /\
    (6 <= len p)%nat /\
    password_hash (handle hash_password a s) = Some (hash_password p).
Proof.
  destruct a as [p|p confirm save_ok]; simpl.
  - rewrite attempt_login_hash. congruence.
  - destruct (set_password_mode s); [|rewrite attempt_login_hash; congruence].
    unfold LoginScreen.set_new_password.
    destruct (String.eqb p EmptyString); [simpl; congruence|].
    destruct (Nat.ltb_spec (len p) 6) as [|Hlen]; [simpl; congruence|].
    destruct confirm as [c|]; [|simpl; congruence].
    destruct (String.eqb_spec p c) as [<-|]; [|simpl; congruence].
    intros _. split; [reflexivity|]. exists p, save_ok.
    destruct save_ok; simpl; auto.
Qed.

End Login.

Lemma X21_login_needs_the_password_witness :
  exists a, In a [LoginScreen.press_return "letmein"%string] /\
            LoginScreen.entry_of a <> EmptyString.
Proof.
  assert (H : LoginScreen.login_succeeded
                (LoginScreen.run LoginScreen.tagged_hash
                   [LoginScreen.press_return "letmein"%string]
                   (LoginScreen.init (Some "sha256:letmein"%string))) = true)
    by reflexivity.
  destruct (X21_login_needs_the_password LoginScreen.tagged_hash
              (Some "sha256:letmein"%string)
              [LoginScreen.press_return "letmein"%string] H)
    as (a & Hin & Hne & _).
  exists a. split; [exact Hin|exact Hne].
Defined.

Lemma X22_wrong_passwords_lock_out_witness :
  LoginScreen.quit_called
    (LoginScreen.run LoginScreen.tagged_hash
       [LoginScreen.press_return "guess"%string;
        LoginScreen.press_return EmptyString;
        LoginScreen.click_button "again"%string None true]
       (LoginScreen.init (Some "sha256:letmein"%string))) = true.
Proof.
  refine (proj1 (X22_wrong_passwords_lock_out LoginScreen.tagged_hash
                   "sha256:letmein"
                   [LoginScreen.press_return "guess"%string;
                    LoginScreen.press_return EmptyString;
                    LoginScreen.click_button "again"%string None true] _ _ _)).
  - discriminate.
  - repeat constructor; discriminate.
  - vm_compute. discriminate.
Defined.

Lemma X23_set_password_then_login_witness :
  LoginScreen.login_succeeded
    (LoginScreen.run LoginScreen.tagged_hash
       [LoginScreen.click_button "letmein"%string (Some "letmein"%string) false;
        LoginScreen.press_return "letmein"%string]
       (LoginScreen.init None)) = true.
Proof.
  apply (X23_set_password_then_login LoginScreen.tagged_hash (LoginScreen.init None)
           "letmein" false []).
  - reflexivity.
  - reflexivity.
  - reflexivity.
  - simpl. lia.
  - discriminate.
Defined.

Lemma X24_saved_password_opens_next_session_witness :
  LoginScreen.login_succeeded
    (LoginScreen.attempt_login LoginScreen.tagged_hash "letmein"
       (LoginScreen.init
          (LoginScreen.saved_hash
             (LoginScreen.set_new_password LoginScreen.tagged_hash "letmein"
                (Some "letmein"%string) true (LoginScreen.init None))))) = true.
Proof.
  refine (proj2 (X24_saved_password_opens_next_session LoginScreen.tagged_hash
                   (LoginScreen.init None) "letmein" _ _)).
  - simpl. lia.
  - discriminate.
Defined.

Lemma X25_hash_changes_only_when_confirmed_witness :
  LoginScreen.set_password_mode (LoginScreen.init None) = true.
Proof.
  refine (proj1 (X25_hash_changes_only_when_confirmed LoginScreen.tagged_hash
                   (LoginScreen.click_button "letmein"%string (Some "letmein"%string) true)
                   (LoginScreen.init None) _)).
  simpl. discriminate.
Defined.
